(** * micro_diffusion/models/dit.py: the DiT block and its feed-forward layers

    A shallow embedding of [src/micro_diffusion/models/dit.py]:
    [AttentionBlockPromptEmbedding], [FeedForwardNetwork],
    [FeedForwardECMoe], [DiTBlock].

    - Python [int] is [Z]; [//] and [%] raise on a zero divisor.
    - Python [float] is IEEE binary64, taken from the Standard Library's
      executable specification [SpecFloat] (precision 53, emax 1024), so
      that [int(expert_capacity * T / num_experts)] is evaluated with the
      roundings the interpreter performs.
    - A call either returns ([Ok]) or raises ([Raise]); statements are
      sequenced with [let*], in the order Python evaluates them.
    - A module is an object with attributes; assignment goes through
      [nn.Module.__setattr__].
    - Tensors carry their shape and their elements; the element type and
      its transcendental functions are parameters.
    - [weight_init_std] and the standard deviations handed to
      [trunc_normal_] are Python floats as well.  The C library's [pow]
      and [erf] and the interpreter's complex power and quotient have no
      executable specification: they are parameters ([Libm]). *)

From Stdlib Require Import String Ascii DecimalString.
From Stdlib Require Import ZArith List Bool Lia Arith.
From Stdlib Require Import Floats.SpecFloat.
From Stdlib Require Import Sorting.Permutation Sorting.Sorted.
From Stdlib Require Import QArith Qabs.
Import ListNotations.

Local Open Scope string_scope.
Local Open Scope list_scope.
Local Open Scope Z_scope.

(** ** Python exceptions and results *)

Module Py.

Inductive exn : Type :=
| AssertionError (msg : string)
| AttributeError (msg : string)
| ZeroDivisionError (msg : string)
| OverflowError (msg : string)
| ValueError (msg : string)
| RuntimeError (msg : string)
| TypeError (msg : string).

Inductive result (A : Type) : Type :=
| Ok (a : A)
| Raise (e : exn).
Arguments Ok {A} a.
Arguments Raise {A} e.

Definition bind {A B : Type} (r : result A) (k : A -> result B) : result B :=
  match r with
  | Ok a => k a
  | Raise e => Raise e
  end.

Definition raises {A : Type} (r : result A) : Prop :=
  exists e, r = Raise e.

Definition returns {A : Type} (r : result A) : Prop :=
  exists a, r = Ok a.

(** [assert cond, msg] *)
Definition assert (cond : bool) (msg : string) : result unit :=
  if cond then Ok tt else Raise (AssertionError msg).

(** *** int *)

(** [a // b] on ints: floor division; [Z.div] rounds the same way (the
    remainder takes the sign of the divisor). *)
Definition floordiv (a b : Z) : result Z :=
  if b =? 0 then Raise (ZeroDivisionError "integer division or modulo by zero")
  else Ok (a / b).

(** [a % b] on ints. *)
Definition mod_ (a b : Z) : result Z :=
  if b =? 0 then Raise (ZeroDivisionError "integer division or modulo by zero")
  else Ok (a mod b).

(** [str(n)] on ints, as an f-string formats them. *)
Definition str_int (n : Z) : string := NilZero.string_of_int (Z.to_int n).

(** *** float (binary64) *)

Definition float := spec_float.

Definition prec : Z := 53.
Definition emax : Z := 1024.

Definition is_finite (f : float) : bool :=
  match f with
  | S754_zero _ | S754_finite _ _ _ => true
  | _ => false
  end.

Definition is_zero (f : float) : bool :=
  match f with
  | S754_zero _ => true
  | _ => false
  end.

(** Conversion of an int operand in mixed arithmetic ([PyLong_AsDouble]):
    round to nearest even, [OverflowError] beyond the finite range. *)
Definition float_of_int (z : Z) : result float :=
  let f := binary_normalize prec emax z 0 false in
  if is_finite f then Ok f
  else Raise (OverflowError "int too large to convert to float").

(** [a * b] on floats never raises. *)
Definition fmul (a b : float) : float := SFmul prec emax a b.

(** [a / b] on floats raises on a zero divisor. *)
Definition fdiv (a b : float) : result float :=
  if is_zero b then Raise (ZeroDivisionError "float division by zero")
  else Ok (SFdiv prec emax a b).

(** [f * n] with [f] a float and [n] an int. *)
Definition fmul_int (f : float) (n : Z) : result float :=
  bind (float_of_int n) (fun nf => Ok (fmul f nf)).

(** [f / n] with [f] a float and [n] an int. *)
Definition fdiv_int (f : float) (n : Z) : result float :=
  bind (float_of_int n) (fun nf => fdiv f nf).

(** [f == n] with [f] a float and [n] a small int. *)
Definition feq_int (f : float) (n : Z) : bool :=
  match float_of_int n with
  | Ok nf => SFeqb f nf
  | Raise _ => false
  end.

(** [int(f)]: truncation toward zero. *)
Definition int_of_float (f : float) : result Z :=
  match f with
  | S754_zero _ => Ok 0
  | S754_finite s m e =>
      let a := match e with
               | Z0 => Zpos m
               | Zpos p => Zpos m * 2 ^ Zpos p
               | Zneg p => Zpos m / 2 ^ Zpos p
               end in
      Ok (if s then - a else a)
  | S754_infinity _ => Raise (OverflowError "cannot convert float infinity to integer")
  | S754_nan => Raise (ValueError "cannot convert float NaN to integer")
  end.

(** The value of a finite float as an exact fraction [num / den]. *)
Definition exact_fraction (f : float) : Z * Z :=
  match f with
  | S754_finite s m e =>
      let n := if s then Zneg m else Zpos m in
      match e with
      | Zneg p => (n, 2 ^ Zpos p)
      | _ => (n * 2 ^ e, 1)
      end
  | _ => (0, 1)
  end.

(** [a / b] on ints (true division): the exact quotient rounded once. *)
Definition truediv_int (a b : Z) : result float :=
  if b =? 0 then Raise (ZeroDivisionError "division by zero")
  else if a =? 0 then Ok (S754_zero (b <? 0))
  else
    let '(mz, ez, lz) := SFdiv_core_binary prec emax (Z.abs a) 0 (Z.abs b) 0 in
    let f := binary_round_aux prec emax (xorb (a <? 0) (b <? 0)) mz ez lz in
    if is_finite f then Ok f
    else Raise (OverflowError "integer division result too large for a float").

(** A decimal literal [n / d] (both exactly representable ints), rounded
    once to the nearest float. *)
Definition literal (n d : Z) : float :=
  SFdiv prec emax (binary_normalize prec emax n 0 false)
                  (binary_normalize prec emax d 0 false).

(** [a + b], [a - b] on floats never raise. *)
Definition fadd (a b : float) : float := SFadd prec emax a b.
Definition fsub (a b : float) : float := SFsub prec emax a b.

(** [math.sqrt(x)]: the correctly rounded square root; a negative
    argument is a domain error. *)
Definition math_sqrt (x : float) : result float :=
  if SFltb x (literal 0 1) then Raise (ValueError "math domain error")
  else Ok (SFsqrt prec emax x).

(** *** pow, erf and complex numbers

    [pow] and [erf] are the C library's, the complex power and quotient
    are the interpreter's [_Py_c_pow] and [_Py_c_quot] (a pair is the
    real and the imaginary part; the quotient raises on a zero divisor). *)

Class Libm : Type := {
  libm_pow : float -> float -> float;
  libm_erf : float -> float;
  c_pow : float * float -> float * float -> float * float;
  c_quot : float * float -> float * float -> result (float * float)
}.

(** A number as lines 234-237 of [dit.py] can produce it. *)
Inductive number : Type :=
| Float (f : float)
| Complex (re im : float).

Section Power.
Context {libm : Libm}.

(** [iv ** 0.5] on a float ([float_pow] of floatobject.c, the cases that
    apply to the exponent 0.5): a NaN is returned as it is, an infinity
    gives [inf], [0.0 ** 0.5] is [0.0], a negative base gives a complex
    number, [1.0 ** 0.5] is [1.0], and every other base goes to [pow],
    which sets no error for a positive finite base. *)
Definition float_pow_half (iv : float) : number :=
  match iv with
  | S754_nan => Float iv
  | S754_infinity _ => Float (S754_infinity false)
  | _ =>
      if SFeqb iv (literal 0 1) then Float (literal 0 1)
      else if SFltb iv (literal 0 1) then
        let '(re, im) := c_pow (iv, literal 0 1) (literal 1 2, literal 0 1) in
        Complex re im
      else if SFeqb iv (literal 1 1) then Float (literal 1 1)
      else Float (libm_pow iv (literal 1 2))
  end.

(** [base ** 0.5] with [base] an int: the base is converted first. *)
Definition pow_half (base : Z) : result number :=
  bind (float_of_int base) (fun iv => Ok (float_pow_half iv)).

(** [x / v] with [x] a float. *)
Definition truediv (x : float) (v : number) : result number :=
  match v with
  | Float f => bind (fdiv x f) (fun q => Ok (Float q))
  | Complex re im =>
      bind (c_quot (x, literal 0 1) (re, im)) (fun q => Ok (Complex (fst q) (snd q)))
  end.

End Power.

End Py.

Notation "'let*' x ':=' r 'in' k" := (Py.bind r (fun x => k))
  (at level 10, x name, r at level 100, k at level 200).
Notation "'let*' ' p ':=' r 'in' k" := (Py.bind r (fun p => k))
  (at level 10, p strict pattern, r at level 100, k at level 200).

Import Py.

(** ** Tensors

    A tensor is its shape and its elements by index.  Only what [dit.py]
    calls is modelled; every function raises where the library does. *)

Module Torch.

Record tensor (A : Type) : Type := mkTensor {
  shape : list nat;
  at_ : list nat -> A
}.
Arguments mkTensor {A} shape at_.
Arguments shape {A} t.
Arguments at_ {A} t idx.

Definition dim {A} (t : tensor A) : nat := length (shape t).

Definition numel_of (sh : list nat) : nat := fold_right Nat.mul 1%nat sh.
Definition numel {A} (t : tensor A) : nat := numel_of (shape t).

(** All indices of a shape, in row-major order. *)
Fixpoint all_indices (sh : list nat) : list (list nat) :=
  match sh with
  | [] => [[]]
  | d :: sh' => flat_map (fun i => map (cons i) (all_indices sh')) (seq 0 d)
  end.

(** The elements in row-major order (the flattened tensor). *)
Definition elements {A} (t : tensor A) : list A :=
  map (at_ t) (all_indices (shape t)).

Definition map_tensor {A B} (f : A -> B) (t : tensor A) : tensor B :=
  mkTensor (shape t) (fun idx => f (at_ t idx)).

(** Size of the last dimension and the shape before it. *)
Definition last_dim (sh : list nat) : nat := last sh 1%nat.
Definition batch_dims (sh : list nat) : list nat := removelast sh.

(** *** Broadcasting *)

(** Shapes are aligned on the right; sizes must agree or be 1. *)
Fixpoint broadcast_rev (r1 r2 : list nat) : result (list nat) :=
  match r1, r2 with
  | [], r | r, [] => Ok r
  | d1 :: r1', d2 :: r2' =>
      let* r := broadcast_rev r1' r2' in
      if (d1 =? d2)%nat then Ok (d1 :: r)
      else if (d1 =? 1)%nat then Ok (d2 :: r)
      else if (d2 =? 1)%nat then Ok (d1 :: r)
      else Raise (RuntimeError "The size of tensor a must match the size of tensor b")
  end.

Definition broadcast_shapes (s1 s2 : list nat) : result (list nat) :=
  let* r := broadcast_rev (rev s1) (rev s2) in Ok (rev r).

(** The index into an operand of shape [sh] for index [idx] of the
    broadcast result: leading dimensions are dropped, size-1 dimensions
    are read at 0. *)
Definition broadcast_index (sh idx : list nat) : list nat :=
  map (fun '(d, i) => if (d =? 1)%nat then 0%nat else i)
      (combine sh (skipn (length idx - length sh) idx)).

Definition binary {A} (op : A -> A -> A) (a b : tensor A) : result (tensor A) :=
  let* sh := broadcast_shapes (shape a) (shape b) in
  Ok (mkTensor sh (fun idx =>
        op (at_ a (broadcast_index (shape a) idx))
           (at_ b (broadcast_index (shape b) idx)))).

(** *** Views *)

(** A dimension argument [d] of a rank-[n] call, negative counting from
    the end; [extra] is 1 for [unsqueeze], which accepts one more slot. *)
Definition wrap_dim (d : Z) (n extra : nat) : result nat :=
  let r := Z.of_nat (n + extra) in
  if (- r <=? d) && (d <? r)
  then Ok (Z.to_nat (if d <? 0 then d + r else d))
  else Raise (RuntimeError "Dimension out of range").

(** [t.unsqueeze(d)] *)
Definition unsqueeze {A} (t : tensor A) (d : Z) : result (tensor A) :=
  let* k := wrap_dim d (dim t) 1 in
  Ok (mkTensor (firstn k (shape t) ++ 1%nat :: skipn k (shape t))
               (fun idx => at_ t (firstn k idx ++ skipn (S k) idx))).

(** [t.permute(d0, d1, ...)] *)
Definition index_of (n : nat) (l : list nat) : nat :=
  match find (fun '(_, v) => (v =? n)%nat) (combine (seq 0 (length l)) l) with
  | Some (i, _) => i
  | None => 0%nat
  end.

Definition is_permutation (dims : list nat) : bool :=
  forallb (fun i => existsb (Nat.eqb i) dims) (seq 0 (length dims)).

Definition permute {A} (t : tensor A) (dims : list nat) : result (tensor A) :=
  if (length dims =? dim t)%nat && is_permutation dims
  then Ok (mkTensor (map (fun d => nth d (shape t) 0%nat) dims)
                    (fun idx => at_ t (map (fun j => nth (index_of j dims) idx 0%nat)
                                           (seq 0 (dim t)))))
  else Raise (RuntimeError "permute(dims): dims is not a permutation of the dimensions of the tensor").

(** [t.split(size, dim=-1)]: chunks of [size] along the last dimension,
    the last one shorter when [size] does not divide it. *)
Definition split_last {A} (t : tensor A) (size : Z) : result (list (tensor A)) :=
  match shape t with
  | [] => Raise (RuntimeError "split expects at least a 1-dimensional tensor")
  | _ :: _ =>
      let n := last_dim (shape t) in
      if size <? 0 then Raise (RuntimeError "split expects split_size be non-negative")
      else if size =? 0 then
        if (n =? 0)%nat then Ok [t]
        else Raise (RuntimeError "split_size can only be 0 if dimension size is 0")
      else
        let sz := Z.to_nat size in
        let chunks := ((n + sz - 1) / sz)%nat in
        Ok (map (fun k =>
                   mkTensor (batch_dims (shape t) ++ [Nat.min sz (n - k * sz)])
                            (fun idx => at_ t (removelast idx ++ [(k * sz + last idx 0)%nat])))
                (seq 0 (Nat.max 1 chunks)))
  end.

(** *** Element arithmetic

    The element type of floating tensors is a parameter: the layers do
    not depend on the dtype, and [exp], [gelu] and [silu] have no
    executable specification. *)

Class Scalar (S : Type) : Type := {
  s_of_int : Z -> S;
  s_add : S -> S -> S;
  s_mul : S -> S -> S;
  s_div : S -> S -> S;
  s_exp : S -> S;
  s_gelu : S -> S;
  s_gelu_tanh : S -> S;
  s_silu : S -> S;
  s_ltb : S -> S -> bool
}.

Section Numeric.
Context {S : Type} {scalar : Scalar S}.

Definition s_zero : S := s_of_int 0.

Definition sum_list (l : list S) : S := fold_right s_add s_zero l.

(** [a + b], [a * b] on tensors *)
Definition add (a b : tensor S) : result (tensor S) := binary s_add a b.
Definition mul (a b : tensor S) : result (tensor S) := binary s_mul a b.

(** [t.float()] on an integer tensor *)
Definition to_float (t : tensor nat) : tensor S :=
  map_tensor (fun n => s_of_int (Z.of_nat n)) t.

(** [F.linear(x, weight, bias)]: [weight] has shape (out, in). *)
Definition linear (x w : tensor S) (bias : option (tensor S)) : result (tensor S) :=
  match shape w, shape x with
  | [out; inn], _ :: _ =>
      if (last_dim (shape x) =? inn)%nat then
        Ok (mkTensor (batch_dims (shape x) ++ [out])
              (fun idx =>
                 let o := last idx 0%nat in
                 let dot := sum_list (map (fun c => s_mul (at_ x (removelast idx ++ [c]))
                                                          (at_ w [o; c]))
                                          (seq 0 inn)) in
                 match bias with
                 | Some b => s_add dot (at_ b [o])
                 | None => dot
                 end))
      else Raise (RuntimeError "mat1 and mat2 shapes cannot be multiplied")
  | _, _ => Raise (RuntimeError "linear(): input and weight.T shapes cannot be multiplied")
  end.

(** [F.softmax(t, dim=-1)] *)
Definition softmax_last (t : tensor S) : tensor S :=
  mkTensor (shape t)
    (fun idx =>
       s_div (s_exp (at_ t idx))
             (sum_list (map (fun j => s_exp (at_ t (removelast idx ++ [j])))
                            (seq 0 (last_dim (shape t)))))).

(** [torch.topk(t, k, dim=-1)]: the [k] largest entries of every row of
    the last dimension, largest first, with their positions.  Equal
    entries are taken from the lowest position (the library leaves the
    order of ties open).  Called on tensors of rank 1 or more. *)
Fixpoint insert_desc (x : S * nat) (l : list (S * nat)) : list (S * nat) :=
  match l with
  | [] => [x]
  | y :: l' => if s_ltb (fst x) (fst y) then y :: insert_desc x l' else x :: l
  end.

Definition sort_desc (l : list (S * nat)) : list (S * nat) :=
  fold_right insert_desc [] l.

Definition topk_row (k : nat) (row : list S) : list (S * nat) :=
  firstn k (sort_desc (combine row (seq 0 (length row)))).

Definition row_of (t : tensor S) (p : list nat) : list S :=
  map (fun j => at_ t (p ++ [j])) (seq 0 (last_dim (shape t))).

Definition topk (t : tensor S) (k : Z) : result (tensor S * tensor nat) :=
  if (0 <=? k) && (k <=? Z.of_nat (last_dim (shape t))) then
    let sh := batch_dims (shape t) ++ [Z.to_nat k] in
    let sel idx := nth (last idx 0%nat)
                       (topk_row (Z.to_nat k) (row_of t (removelast idx)))
                       (s_zero, 0%nat) in
    Ok (mkTensor sh (fun idx => fst (sel idx)),
        mkTensor sh (fun idx => snd (sel idx)))
  else Raise (RuntimeError "selected index k out of range").

(** [F.one_hot(t, num_classes)] on an index tensor. *)
Definition one_hot (t : tensor nat) (num_classes : Z) : result (tensor nat) :=
  if (numel t =? 0)%nat then
    if num_classes <=? 0
    then Raise (RuntimeError "Can not infer total number of classes from empty tensor.")
    else Ok (mkTensor (shape t ++ [Z.to_nat num_classes]) (fun _ => 0%nat))
  else
    let mx := fold_right Nat.max 0%nat (elements t) in
    let* n := if num_classes =? -1 then Ok (Datatypes.S mx)
              else if Z.of_nat mx <? num_classes then Ok (Z.to_nat num_classes)
              else Raise (RuntimeError "Class values must be smaller than num_classes.") in
    Ok (mkTensor (shape t ++ [n])
          (fun idx => if (at_ t (removelast idx) =? last idx 0)%nat then 1%nat else 0%nat)).

(** *** einsum with two operands *)

Definition label := ascii.
Definition binding := list (label * nat).

Definition values_of (l : label) (e : binding) : list nat :=
  map snd (filter (fun p => Ascii.eqb l (fst p)) e).

(** Size of a label: operands agree on it up to dimensions of size 1. *)
Definition size_of (l : label) (e : binding) : nat :=
  match find (fun d => negb (d =? 1)%nat) (values_of l e) with
  | Some d => d
  | None => 1%nat
  end.

Definition index_at (l : label) (e : binding) : nat :=
  hd 0%nat (values_of l e).

Fixpoint bind_sizes (ls : list label) (sh : list nat) (e : binding) : result binding :=
  match ls, sh with
  | [], [] => Ok e
  | l :: ls', d :: sh' =>
      let d0 := size_of l e in
      if (d =? d0)%nat || (d =? 1)%nat || (d0 =? 1)%nat
      then bind_sizes ls' sh' ((l, d) :: e)
      else Raise (RuntimeError "einsum(): operands do not broadcast with remapped shapes")
  | _, _ => Raise (RuntimeError "einsum(): the number of subscripts in the equation does not match the number of dimensions for operand")
  end.

Definition has_label (l : label) (ls : list label) : bool :=
  existsb (Ascii.eqb l) ls.

(** Labels summed over: those of the operands missing from the output. *)
Definition contracted (la lb lo : list label) : list label :=
  nodup ascii_dec (filter (fun l => negb (has_label l lo)) (la ++ lb)).

Definition operand_index (ls : list label) (sh : list nat) (e : binding) : list nat :=
  map (fun '(l, d) => if (d =? 1)%nat then 0%nat else index_at l e) (combine ls sh).

Definition einsum2 (la lb lo : list label) (a b : tensor S) : result (tensor S) :=
  let* e1 := bind_sizes la (shape a) [] in
  let* e := bind_sizes lb (shape b) e1 in
  if forallb (fun l => has_label l (la ++ lb)) lo then
    let cs := contracted la lb lo in
    Ok (mkTensor (map (fun l => size_of l e) lo)
          (fun idx =>
             sum_list
               (map (fun asg =>
                       let i := combine lo idx ++ combine cs asg in
                       s_mul (at_ a (operand_index la (shape a) i))
                             (at_ b (operand_index lb (shape b) i)))
                    (all_indices (map (fun l => size_of l e) cs)))))
  else Raise (RuntimeError "einsum(): output subscript does not appear in the equation for any input operand").

(** A binding all of whose entries are the sizes [sz] assigns. *)
Definition agrees (sz : label -> nat) (e : binding) : Prop :=
  forall l d, In (l, d) e -> d = sz l.

(** The sizes of the subscripts [forward] uses. *)
Definition label_sizes (B E l T C Hd : nat) (c : label) : nat :=
  if Ascii.eqb c "B" then B
  else if Ascii.eqb c "E" then E
  else if Ascii.eqb c "l" then l
  else if Ascii.eqb c "T" then T
  else if Ascii.eqb c "C" then C
  else if Ascii.eqb c "H" then Hd
  else 1%nat.

(** The subscripts of an equation such as ['BElT, BTC -> BElC']: blanks
    are skipped, [,] and [->] separate. *)
Fixpoint subscripts (s : list ascii) (cur : list label) : list (list label) :=
  match s with
  | [] => [rev cur]
  | c :: s' =>
      if Ascii.eqb c " " || Ascii.eqb c "-" then subscripts s' cur
      else if Ascii.eqb c "," || Ascii.eqb c ">" then rev cur :: subscripts s' []
      else subscripts s' (c :: cur)
  end.

(** [torch.einsum(equation, a, b)] *)
Definition einsum (equation : string) (a b : tensor S) : result (tensor S) :=
  match subscripts (list_ascii_of_string equation) [] with
  | [la; lb; lo] => einsum2 la lb lo a b
  | _ => Raise (RuntimeError "einsum(): two operands and an explicit output are expected")
  end.

End Numeric.

End Torch.

Import Torch.

(** ** torch.nn: modules as Python objects

    An object is its class name, whether [nn.Module.__init__] has run on
    it, and its attributes.  [setattr] is [nn.Module.__setattr__]. *)

Module NN.

(** What [trunc_normal_] was last asked to draw a parameter from. *)
Inductive initializer : Type :=
| AsConstructed
| TruncNormal (mean std a b : float).

Record parameter (S : Type) : Type := mkParameter {
  data : tensor S;
  drawn_from : initializer
}.
Arguments mkParameter {S} data drawn_from.
Arguments data {S} p.
Arguments drawn_from {S} p.

(** [nn.Linear] *)
Record Linear (S : Type) : Type := mkLinear {
  weight : parameter S;
  bias : option (parameter S)
}.
Arguments mkLinear {S} weight bias.
Arguments weight {S} l.
Arguments bias {S} l.

(** The values a freshly allocated parameter holds and the values
    [trunc_normal_] draws come from the random generator; [dtype_max] is
    the largest finite value of the parameters' dtype
    ([std::numeric_limits<scalar_t>::max()]), which bounds the range
    [uniform_] accepts. *)
Class Generator (S : Type) : Type := {
  initial_values : list nat -> list nat -> S;
  trunc_normal_values : float -> float -> float -> float -> tensor S -> tensor S;
  dtype_max : float
}.

Section Objects.
Context {S : Type} {scalar : Scalar S} {generator : Generator S} {libm : Libm}.
Local Set Warnings "-register-all".

(** Modules of [.modules] ([create_norm], [SelfAttention],
    [CrossAttention]) are not part of this file: an opaque type. *)
Context {Ext : Type}.

Inductive pyval : Type :=
| VInt (z : Z)
| VFloat (f : float)
| VComplex (re im : float)
| VParameter (p : parameter S)
| VLinear (l : Linear S)
| VGELU (approximate : string)
| VSequential (ms : list pyval)
| VExt (e : Ext)
| VObject (o : obj)
with obj : Type :=
| Obj (cls : string) (initialized : bool) (attrs : list (string * pyval)).

Definition cls (o : obj) : string := let '(Obj c _ _) := o in c.
Definition initialized (o : obj) : bool := let '(Obj _ i _) := o in i.
Definition attrs (o : obj) : list (string * pyval) := let '(Obj _ _ a) := o in a.

(** [isinstance(v, nn.Module)] *)
Definition is_module (v : pyval) : bool :=
  match v with
  | VLinear _ | VGELU _ | VSequential _ | VExt _ | VObject _ => true
  | _ => false
  end.

(** [isinstance(v, nn.Parameter)] *)
Definition is_parameter (v : pyval) : bool :=
  match v with
  | VParameter _ => true
  | _ => false
  end.

(** The object [__new__] hands to [__init__]. *)
Definition new (c : string) : obj := Obj c false [].

(** [super().__init__()]: creates [_parameters], [_buffers], [_modules]. *)
Definition Module_init (self : obj) : obj := Obj (cls self) true (attrs self).

Fixpoint lookup (name : string) (l : list (string * pyval)) : option pyval :=
  match l with
  | [] => None
  | (n, v) :: l' => if String.eqb name n then Some v else lookup name l'
  end.

Fixpoint store (name : string) (v : pyval) (l : list (string * pyval))
  : list (string * pyval) :=
  match l with
  | [] => [(name, v)]
  | (n, w) :: l' => if String.eqb name n then (n, v) :: l' else (n, w) :: store name v l'
  end.

(** [self.name = v] *)
Definition setattr (self : obj) (name : string) (v : pyval) : result obj :=
  let registered :=
    match lookup name (attrs self) with
    | Some w => initialized self && (is_parameter w || is_module w)
    | None => false
    end in
  if is_parameter v then
    if initialized self then Ok (Obj (cls self) true (store name v (attrs self)))
    else Raise (AttributeError "cannot assign parameters before Module.__init__() call")
  else if is_module v then
    if initialized self then Ok (Obj (cls self) true (store name v (attrs self)))
    else Raise (AttributeError "cannot assign module before Module.__init__() call")
  else if registered then
    Raise (TypeError "cannot assign a plain value to a registered parameter or module")
  else Ok (Obj (cls self) (initialized self) (store name v (attrs self))).

(** [self.name] *)
Definition getattr (self : obj) (name : string) : result pyval :=
  match lookup name (attrs self) with
  | Some v => Ok v
  | None => Raise (AttributeError ("object has no attribute " ++ name))
  end.

(** Typed reads of an attribute, as the methods use them. *)
Definition getattr_int (self : obj) (name : string) : result Z :=
  let* v := getattr self name in
  match v with
  | VInt z => Ok z
  | _ => Raise (TypeError ("an int is expected in " ++ name))
  end.

Definition getattr_float (self : obj) (name : string) : result float :=
  let* v := getattr self name in
  match v with
  | VFloat f => Ok f
  | _ => Raise (TypeError ("a float is expected in " ++ name))
  end.

Definition getattr_linear (self : obj) (name : string) : result (Linear S) :=
  let* v := getattr self name in
  match v with
  | VLinear l => Ok l
  | _ => Raise (AttributeError ("a Linear layer is expected in " ++ name))
  end.

Definition getattr_parameter (self : obj) (name : string) : result (parameter S) :=
  let* v := getattr self name in
  match v with
  | VParameter p => Ok p
  | _ => Raise (TypeError ("a Parameter is expected in " ++ name))
  end.

(** *** Library constructors and calls *)

Definition negative_dim (dims : list Z) : bool := existsb (fun d => d <? 0) dims.

(** [torch.ones(d0, d1, ...)] *)
Definition torch_ones (dims : list Z) : result (tensor S) :=
  if negative_dim dims
  then Raise (RuntimeError "Trying to create tensor with negative dimension")
  else Ok (mkTensor (map Z.to_nat dims) (fun _ => s_of_int 1)).

(** [nn.Parameter(t)] *)
Definition nn_Parameter (t : tensor S) : parameter S := mkParameter t AsConstructed.

(** [nn.Linear(in_features, out_features, bias)] *)
Definition nn_Linear (in_features out_features : Z) (use_bias : bool)
  : result (Linear S) :=
  if negative_dim [out_features; in_features]
  then Raise (RuntimeError "Trying to create tensor with negative dimension")
  else
    let fresh sh := mkParameter (mkTensor sh (initial_values sh)) AsConstructed in
    Ok (mkLinear (fresh [Z.to_nat out_features; Z.to_nat in_features])
                 (if use_bias then Some (fresh [Z.to_nat out_features]) else None)).

(** [layer(x)] for an [nn.Linear] *)
Definition Linear_forward (l : Linear S) (x : tensor S) : result (tensor S) :=
  linear x (data (weight l)) (option_map data (bias l)).

(** A number as an attribute value. *)
Definition value_of_number (v : number) : pyval :=
  match v with
  | Float f => VFloat f
  | Complex re im => VComplex re im
  end.

(** [norm_cdf(x)] of [torch.nn.init]:
    [(1.0 + math.erf(x / math.sqrt(2.0))) / 2.0] *)
Definition norm_cdf (x : float) : result float :=
  let* root := math_sqrt (literal 2 1) in
  let* scaled := fdiv x root in
  fdiv (fadd (literal 1 1) (libm_erf scaled)) (literal 2 1).

(** The checks of [tensor.uniform_(from, to)] before it draws: both
    bounds within the range of the dtype (a NaN is not), [from <= to],
    and [to - from] within the range of the dtype. *)
Definition in_bounds (v : float) : bool :=
  SFleb (SFopp dtype_max) v && SFleb v dtype_max.

Definition uniform_check (from to : float) : result unit :=
  if negb (in_bounds from) then Raise (RuntimeError "from is out of bounds")
  else if negb (in_bounds to) then Raise (RuntimeError "to is out of bounds")
  else if negb (SFleb from to) then
    Raise (RuntimeError "uniform_ expects to return a [from, to) range")
  else if negb (SFleb (fsub to from) dtype_max) then
    Raise (RuntimeError "uniform_ expects to-from <= std::numeric_limits<scalar_t>::max()")
  else Ok tt.

(** [nn.init.trunc_normal_(p, mean, std)], with the default cut
    [a = -2.0], [b = 2.0].  The test [mean < a - 2 * std or
    mean > b + 2 * std] only warns for a float [std] and cannot compare
    a complex one; [l] and [u] are the values of the normal distribution
    function at the two ends of the cut, [uniform_] is asked for the range
    [2 * l - 1, 2 * u - 1], and the four in-place steps after it
    ([erfinv_], [mul_], [add_], [clamp_]) raise nothing: the values they
    leave are the generator's. *)
Definition trunc_normal_ (p : parameter S) (mean : float) (std : number)
  : result (parameter S) :=
  match std with
  | Complex _ _ =>
      Raise (TypeError "'<' not supported between instances of 'float' and 'complex'")
  | Float std =>
      let a := literal (-2) 1 in
      let b := literal 2 1 in
      let* lower := fdiv (fsub a mean) std in
      let* l := norm_cdf lower in
      let* upper := fdiv (fsub b mean) std in
      let* u := norm_cdf upper in
      let* _ := uniform_check (fsub (fmul (literal 2 1) l) (literal 1 1))
                              (fsub (fmul (literal 2 1) u) (literal 1 1)) in
      Ok (mkParameter (trunc_normal_values mean std a b (data p))
                      (TruncNormal mean std a b))
  end.

End Objects.

Arguments pyval S Ext : clear implicits.
Arguments obj S Ext : clear implicits.

End NN.

Import NN.

(** ** The classes of dit.py *)

(** The imports from [.modules] that this file uses.  For a module [m]
    made by one of the three constructors, [ext_call m args] is [m(args)],
    [ext_custom_init m std] is [m.custom_init(std)] and
    [ext_reset_parameters m] is [m.reset_parameters()]. *)
Class Modules (S Ext : Type) : Type := {
  create_norm : string -> Z -> float -> result Ext;
  SelfAttention : Z -> Z -> bool -> option Z -> float -> result Ext;
  CrossAttention : Z -> Z -> Z -> float -> bool -> result Ext;
  ext_call : Ext -> list (tensor S) -> result (tensor S);
  ext_custom_init : Ext -> number -> result Ext;
  ext_reset_parameters : Ext -> result Ext;
  modulate : tensor S -> tensor S -> tensor S -> result (tensor S)
}.

Section Dit.
Context {S : Type} {scalar : Scalar S} {generator : Generator S} {libm : Libm}
        {Ext : Type} {modules : Modules S Ext}.

Local Abbreviation pyval := (pyval S Ext).
Local Abbreviation obj := (obj S Ext).

(** *** FeedForwardNetwork *)

(** [hidden_base_mult * ((n_hidden + hidden_base_mult - 1) // hidden_base_mult)] *)
Definition round_up_hidden (n_hidden hidden_base_mult : Z) : result Z :=
  let* q := floordiv (n_hidden + hidden_base_mult - 1) hidden_base_mult in
  Ok (hidden_base_mult * q).

Definition FeedForwardNetwork_init
    (n_embd n_hidden hidden_base_mult : Z) (use_bias : bool) : result obj :=
  let self := Module_init (new "FeedForwardNetwork") in
  let* two_thirds := truediv_int (2 * n_hidden) 3 in
  let* h0 := int_of_float two_thirds in
  let* self := setattr self "n_hidden" (VInt h0) in
  let* h := round_up_hidden n_hidden hidden_base_mult in
  let* self := setattr self "n_hidden" (VInt h) in
  let* h := getattr_int self "n_hidden" in
  let* fc1 := nn_Linear n_embd h use_bias in
  let* self := setattr self "fc1" (VLinear fc1) in
  let* h := getattr_int self "n_hidden" in
  let* fc2 := nn_Linear n_embd h use_bias in
  let* self := setattr self "fc2" (VLinear fc2) in
  let* h := getattr_int self "n_hidden" in
  let* fc3 := nn_Linear h n_embd use_bias in
  let* self := setattr self "fc3" (VLinear fc3) in
  Ok self.

(** [self.fc3(F.silu(self.fc1(x)) * self.fc2(x))] *)
Definition FeedForwardNetwork_forward (self : obj) (x : tensor S) : result (tensor S) :=
  let* fc3 := getattr_linear self "fc3" in
  let* fc1 := getattr_linear self "fc1" in
  let* a := Linear_forward fc1 x in
  let* fc2 := getattr_linear self "fc2" in
  let* b := Linear_forward fc2 x in
  let* ab := mul (map_tensor s_silu a) b in
  Linear_forward fc3 ab.

(** An attribute changed in place: the object it names is mutated, no
    assignment takes place. *)
Definition mutate (self : obj) (name : string) (v : pyval) : obj :=
  Obj (cls self) (initialized self) (store name v (attrs self)).

(** [nn.init.trunc_normal_(linear.weight, mean, std)] for the layer
    [self.name]. *)
Definition redraw_weight (self : obj) (name : string) (l : Linear S)
    (mean : float) (std : number) : result obj :=
  let* w := trunc_normal_ (weight l) mean std in
  Ok (mutate self name (VLinear (mkLinear w (bias l)))).

Definition FeedForwardNetwork_custom_init (self : obj) (init_std : number) : result obj :=
  let* fc1 := getattr_linear self "fc1" in
  let* self := redraw_weight self "fc1" fc1 (literal 0 1) (Float (literal 2 100)) in
  let* fc2 := getattr_linear self "fc2" in
  let* fc3 := getattr_linear self "fc3" in
  fold_left (fun acc '(name, linear) =>
               let* self := acc in
               redraw_weight self name linear (literal 0 1) init_std)
            [("fc2", fc2); ("fc3", fc3)] (Ok self).

(** What a layer's weight was last drawn from. *)
Definition weight_drawn_from (self : obj) (name : string) : option initializer :=
  match lookup name (attrs self) with
  | Some (VLinear l) => Some (drawn_from (weight l))
  | _ => None
  end.

(** What a parameter the module holds itself was last drawn from. *)
Definition parameter_drawn_from (self : obj) (name : string) : option initializer :=
  match lookup name (attrs self) with
  | Some (VParameter p) => Some (drawn_from p)
  | _ => None
  end.

(** [sum(p.numel() for p in self.parameters())] for a module whose
    parameters are its own and those of its [nn.Linear] layers. *)
Definition numel_of_value (v : pyval) : nat :=
  match v with
  | VParameter p => numel (data p)
  | VLinear l =>
      (numel (data (weight l))
       + match bias l with
         | Some b => numel (data b)
         | None => 0
         end)%nat
  | _ => 0%nat
  end.

Definition parameters_numel (self : obj) : nat :=
  fold_right Nat.add 0%nat (map (fun '(_, v) => numel_of_value v) (attrs self)).

(** *** FeedForwardECMoe *)

(** [__init__] as written: no [super().__init__()] before the attributes
    are assigned.  Lines 86-93 store the plain attributes, lines 96-103
    the layer and the expert weights. *)
Definition FeedForwardECMoe_configure
    (num_experts : Z) (expert_capacity : float) (n_embd n_hidden hidden_base_mult : Z)
  : result obj :=
  let self := new "FeedForwardECMoe" in
  let* self := setattr self "num_experts" (VInt num_experts) in
  let* self := setattr self "expert_capacity" (VFloat expert_capacity) in
  let* self := setattr self "n_embd" (VInt n_embd) in
  let* self := setattr self "hidden_base_mult" (VInt hidden_base_mult) in
  let* h := round_up_hidden n_hidden hidden_base_mult in
  setattr self "n_hidden" (VInt h).

Definition FeedForwardECMoe_init
    (num_experts : Z) (expert_capacity : float) (n_embd n_hidden hidden_base_mult : Z)
  : result obj :=
  let* self := FeedForwardECMoe_configure num_experts expert_capacity n_embd n_hidden
                 hidden_base_mult in
  let* gate := nn_Linear n_embd num_experts false in
  let* self := setattr self "gate" (VLinear gate) in
  let* ones1 := torch_ones [num_experts; n_embd; n_hidden] in
  let* self := setattr self "w1" (VParameter (nn_Parameter ones1)) in
  let* self := setattr self "gelu" (VGELU "none") in
  let* ones2 := torch_ones [num_experts; n_hidden; n_embd] in
  let* self := setattr self "w2" (VParameter (nn_Parameter ones2)) in
  Ok self.

(** [int(self.expert_capacity * T / self.num_experts)] *)
Definition tokens_per_expert_of (self : obj) (T : nat) : result Z :=
  let* capacity := getattr_float self "expert_capacity" in
  let* scaled := fmul_int capacity (Z.of_nat T) in
  let* num_experts := getattr_int self "num_experts" in
  let* share := fdiv_int scaled num_experts in
  int_of_float share.

(** Lines 107-121 of [forward]: up to the choice of every expert. *)
Record routing : Type := mkRouting {
  tokens_per_expert : Z;
  expert_specific_token_probs : tensor S;
  expert_specific_tokens : tensor nat
}.

(** The tokens expert [e] has chosen in batch element [b]. *)
Definition selected_tokens (r : routing) (b e : nat) : list nat :=
  map (fun l => at_ (expert_specific_tokens r) [b; e; l]%nat)
      (seq 0 (Z.to_nat (tokens_per_expert r))).

Definition FeedForwardECMoe_route (self : obj) (x : tensor S) : result routing :=
  let* _ := assert (dim x =? 3)%nat "" in
  let T := nth 1 (shape x) 0%nat in
  let* tokens_per_expert := tokens_per_expert_of self T in
  let* gate := getattr_linear self "gate" in
  let* scores := Linear_forward gate x in
  let probs := softmax_last scores in
  let* probs_expert_looking_at_all_tokens := permute probs [0; 2; 1]%nat in
  let* '(token_probs, tokens) := topk probs_expert_looking_at_all_tokens tokens_per_expert in
  Ok (mkRouting tokens_per_expert token_probs tokens).

(** Lines 125-128 of [forward] on their own: the tokens the experts have
    chosen, taken out of [x]. *)
Definition FeedForwardECMoe_gather (x : tensor S) (expert_specific_tokens : tensor nat)
  : result (tensor S) :=
  let T := nth 1 (shape x) 0%nat in
  let* one_hot_long := one_hot expert_specific_tokens (Z.of_nat T) in
  let extract_from_x_one_hot := to_float one_hot_long in
  einsum "BElT, BTC -> BElC" extract_from_x_one_hot x.

(** Lines 128-139 of [forward]: the chosen tokens go through the experts
    and back to their places. *)
Definition FeedForwardECMoe_experts (self : obj) (x : tensor S)
    (expert_specific_token_probs extract_from_x_one_hot : tensor S)
  : result (tensor S) :=
  let* xin := einsum "BElT, BTC -> BElC" extract_from_x_one_hot x in
  let* w1 := getattr_parameter self "w1" in
  let* activation := einsum "BElC, ECH -> BElH" xin (data w1) in
  let* _ := getattr self "gelu" in
  let activation := map_tensor s_gelu activation in
  let* w2 := getattr_parameter self "w2" in
  let* activation := einsum "BElH, EHC -> BElC" activation (data w2) in
  let* probs_unsqueezed := unsqueeze expert_specific_token_probs (-1) in
  let* activation := mul activation probs_unsqueezed in
  let* out := einsum "BElC, BElT -> BTC" activation extract_from_x_one_hot in
  Ok out.

(** Lines 128-136 on their own: the activations of the chosen tokens,
    scaled by their gate probabilities, before line 139 puts them back. *)
Definition FeedForwardECMoe_activation (self : obj) (x : tensor S)
    (expert_specific_token_probs extract_from_x_one_hot : tensor S)
  : result (tensor S) :=
  let* xin := einsum "BElT, BTC -> BElC" extract_from_x_one_hot x in
  let* w1 := getattr_parameter self "w1" in
  let* activation := einsum "BElC, ECH -> BElH" xin (data w1) in
  let* _ := getattr self "gelu" in
  let activation := map_tensor s_gelu activation in
  let* w2 := getattr_parameter self "w2" in
  let* activation := einsum "BElH, EHC -> BElC" activation (data w2) in
  let* probs_unsqueezed := unsqueeze expert_specific_token_probs (-1) in
  mul activation probs_unsqueezed.

Definition FeedForwardECMoe_forward (self : obj) (x : tensor S) : result (tensor S) :=
  let* r := FeedForwardECMoe_route self x in
  let T := nth 1 (shape x) 0%nat in
  let* one_hot_long := one_hot (expert_specific_tokens r) (Z.of_nat T) in
  let extract_from_x_one_hot := to_float one_hot_long in
  FeedForwardECMoe_experts self x (expert_specific_token_probs r) extract_from_x_one_hot.

Definition FeedForwardECMoe_custom_init (self : obj) (init_std : number) : result obj :=
  let* gate := getattr_linear self "gate" in
  let* self := redraw_weight self "gate" gate (literal 0 1) (Float (literal 2 100)) in
  let* w1 := getattr_parameter self "w1" in
  let* w1' := trunc_normal_ w1 (literal 0 1) (Float (literal 2 100)) in
  let self := mutate self "w1" (VParameter w1') in
  let* w2 := getattr_parameter self "w2" in
  let* w2' := trunc_normal_ w2 (literal 0 1) init_std in
  let self := mutate self "w2" (VParameter w2') in
  Ok self.

(** What expert [e] of a [FeedForwardECMoe] computes on one token [v] of
    width [C], at channel [c]: the two matrix products of lines 131-133
    with the activation between them. *)
Definition expert_on (w1 w2 : tensor S) (C Hd : nat) (e : nat) (v : nat -> S) (c : nat) : S :=
  sum_list
    (map (fun h =>
            s_mul (s_gelu (sum_list (map (fun c' => s_mul (v c') (at_ w1 [e; c'; h]%nat))
                                         (seq 0 C))))
                  (at_ w2 [e; h; c]%nat))
         (seq 0 Hd)).

(** *** Calling a module *)

(** [module(args)] *)
Definition call_leaf (m : pyval) (args : list (tensor S)) : result (tensor S) :=
  match m, args with
  | VLinear l, [x] => Linear_forward l x
  | VGELU approximate, [x] =>
      Ok (map_tensor (if String.eqb approximate "tanh" then s_gelu_tanh else s_gelu) x)
  | VExt e, _ => ext_call e args
  | VObject o, [x] =>
      if String.eqb (cls o) "FeedForwardNetwork" then FeedForwardNetwork_forward o x
      else if String.eqb (cls o) "FeedForwardECMoe" then FeedForwardECMoe_forward o x
      else Raise (TypeError "forward() is not modelled for this class")
  | _, _ => Raise (TypeError "object is not callable with these arguments")
  end.

Definition call_module (m : pyval) (args : list (tensor S)) : result (tensor S) :=
  match m, args with
  | VSequential ms, [x] =>
      fold_left (fun acc layer => let* v := acc in call_leaf layer [v]) ms (Ok x)
  | _, _ => call_leaf m args
  end.

(** [self.name.custom_init(init_std)] for a sub-module of this file or of
    [.modules]; the sub-module is changed in place. *)
Definition custom_init_attr (self : obj) (name : string) (init_std : number) : result obj :=
  let* m := getattr self name in
  match m with
  | VExt e =>
      let* e' := ext_custom_init e init_std in
      Ok (mutate self name (VExt e'))
  | VObject o =>
      let* o' :=
        if String.eqb (cls o) "FeedForwardNetwork" then FeedForwardNetwork_custom_init o init_std
        else if String.eqb (cls o) "FeedForwardECMoe" then FeedForwardECMoe_custom_init o init_std
        else Raise (AttributeError "object has no attribute custom_init") in
      Ok (mutate self name (VObject o'))
  | _ => Raise (AttributeError "object has no attribute custom_init")
  end.

(** *** AttentionBlockPromptEmbedding *)

Definition AttentionBlockPromptEmbedding_init
    (n_embd head_size : Z) (mlp_n_hidden_mult : float) (hidden_base_mult : Z)
    (norm_eps : float) (use_bias : bool) : result obj :=
  let self := Module_init (new "AttentionBlockPromptEmbedding") in
  let* r := mod_ n_embd head_size in
  let* _ := assert (r =? 0)
              ("n_embd:" ++ str_int n_embd ++ " should be divisble by head_size:"
               ++ str_int head_size) in
  let* self := setattr self "n_embd" (VInt n_embd) in
  let* n_head := floordiv n_embd head_size in
  let* self := setattr self "n_head" (VInt n_head) in
  let* ln1 := create_norm "layernorm" n_embd norm_eps in
  let* self := setattr self "ln1" (VExt ln1) in
  let* n_head := getattr_int self "n_head" in
  let* attn := SelfAttention n_embd n_head use_bias None norm_eps in
  let* self := setattr self "attn" (VExt attn) in
  let* ln2 := create_norm "layernorm" n_embd norm_eps in
  let* self := setattr self "ln2" (VExt ln2) in
  let* scaled := fmul_int mlp_n_hidden_mult n_embd in
  let* n_hidden := int_of_float scaled in
  let* ffn := FeedForwardNetwork_init n_embd n_hidden hidden_base_mult use_bias in
  let* self := setattr self "ffn" (VObject ffn) in
  Ok self.

Definition AttentionBlockPromptEmbedding_forward (self : obj) (x : tensor S)
  : result (tensor S) :=
  let* attn := getattr self "attn" in
  let* ln1 := getattr self "ln1" in
  let* normed := call_module ln1 [x] in
  let* attended := call_module attn [normed] in
  let* x := add x attended in
  let* ffn := getattr self "ffn" in
  let* ln2 := getattr self "ln2" in
  let* normed := call_module ln2 [x] in
  let* transformed := call_module ffn [normed] in
  add x transformed.

Definition AttentionBlockPromptEmbedding_custom_init (self : obj) (init_std : number)
  : result obj :=
  let* self := custom_init_attr self "attn" init_std in
  custom_init_attr self "ffn" init_std.

(** *** DiTBlock *)

(** The hidden width of the self-attention projections (lines 198-203). *)
Definition qkv_n_hidden_of (n_embd head_size : Z) (qkv_n_hidden_mult : float) : result Z :=
  if feq_int qkv_n_hidden_mult 1 then Ok n_embd
  else
    let* scaled := fmul_int qkv_n_hidden_mult n_embd in
    let* v := int_of_float scaled in
    let* q := floordiv (v + 2 * head_size - 1) (2 * head_size) in
    Ok (2 * head_size * q).

(** [0.02 / (3 * (block_index + 1)) ** 0.5 if depth_init else
    0.02 / (3 * num_blocks) ** 0.5]: the int base is converted to a float
    ([OverflowError] beyond the float range), [0 ** 0.5] is [0.0] and the
    division by it raises, a negative base gives a complex number. *)
Definition weight_init_std_of (depth_init : bool) (block_index num_blocks : Z)
  : result pyval :=
  let base := if depth_init then 3 * (block_index + 1) else 3 * num_blocks in
  let* root := pow_half base in
  let* std := truediv (literal 2 100) root in
  Ok (value_of_number std).

Definition DiTBlock_init
    (n_embd head_size : Z) (mlp_n_hidden_mult qkv_n_hidden_mult : float)
    (hidden_base_mult pooled_caption_n_embd : Z) (norm_eps : float)
    (depth_init : bool) (block_index num_blocks : Z)
    (scale_cx_attn_n_hidden use_bias use_moe : bool)
    (num_experts : Z) (expert_capacity : float) : result obj :=
  let self := Module_init (new "DiTBlock") in
  let* self := setattr self "n_embd" (VInt n_embd) in
  let* r := mod_ n_embd head_size in
  let* _ := assert (r =? 0) "n_embd is not divisible by head_size" in
  let* qkv_n_hidden := qkv_n_hidden_of n_embd head_size qkv_n_hidden_mult in
  let* ln1 := create_norm "layernorm" n_embd norm_eps in
  let* self := setattr self "ln1" (VExt ln1) in
  let* n_head := floordiv qkv_n_hidden head_size in
  let* attn := SelfAttention n_embd n_head use_bias (Some qkv_n_hidden) norm_eps in
  let* self := setattr self "attn" (VExt attn) in
  let* ln2 := create_norm "layernorm" n_embd norm_eps in
  let* self := setattr self "ln2" (VExt ln2) in
  let cx_attn_n_hidden := if scale_cx_attn_n_hidden then qkv_n_hidden else n_embd in
  let* cx_n_head := floordiv cx_attn_n_hidden head_size in
  let* cx_attn := CrossAttention n_embd cx_n_head cx_attn_n_hidden norm_eps use_bias in
  let* self := setattr self "cx_attn" (VExt cx_attn) in
  let* ln3 := create_norm "layernorm" n_embd norm_eps in
  let* self := setattr self "ln3" (VExt ln3) in
  let* scaled := fmul_int mlp_n_hidden_mult n_embd in
  let* mlp_n_hidden := int_of_float scaled in
  let* mlp :=
    if use_moe
    then FeedForwardECMoe_init num_experts expert_capacity n_embd mlp_n_hidden hidden_base_mult
    else FeedForwardNetwork_init n_embd mlp_n_hidden hidden_base_mult use_bias in
  let* self := setattr self "mlp" (VObject mlp) in
  let* projection := nn_Linear pooled_caption_n_embd (6 * n_embd) true in
  let* self := setattr self "AdaLN_modulation"
                 (VSequential [VGELU "tanh"; VLinear projection]) in
  let* std := weight_init_std_of depth_init block_index num_blocks in
  let* self := setattr self "weight_init_std" std in
  Ok self.

(** [t.name(args)]: the methods of [torch.Tensor] with int arguments and
    a tensor result that this file calls. *)
Definition tensor_method (name : string)
  : option (tensor S -> list Z -> result (tensor S)) :=
  if String.eqb name "unsqueeze" then
    Some (fun t args =>
            match args with
            | [d] => unsqueeze t d
            | _ => Raise (TypeError "unsqueeze() takes one dimension")
            end)
  else if String.eqb name "permute" then
    Some (fun t args =>
            if forallb (fun d => 0 <=? d) args then permute t (map Z.to_nat args)
            else Raise (RuntimeError "Dimension out of range"))
  else None.

Definition call_method (t : tensor S) (name : string) (args : list Z)
  : result (tensor S) :=
  match tensor_method name with
  | Some m => m t args
  | None => Raise (AttributeError ("'Tensor' object has no attribute '" ++ name ++ "'"))
  end.

(** The local variables of [DiTBlock.forward]. *)
Record locals : Type := mkLocals {
  var_x : tensor S;
  var_c : tensor S;
  var_t : tensor S;
  shift_msa : tensor S;
  scale_msa : tensor S;
  gate_msa : tensor S;
  shift_mlp : tensor S;
  scale_mlp : tensor S;
  gate_mlp : tensor S
}.

Definition set_x (st : locals) (x' : tensor S) : locals :=
  mkLocals x' (var_c st) (var_t st) (shift_msa st) (scale_msa st) (gate_msa st)
           (shift_mlp st) (scale_mlp st) (gate_mlp st).

(** Line 247: the six modulation tensors. *)
Definition DiTBlock_modulation (self : obj) (x c t : tensor S) : result locals :=
  let* adaln := getattr self "AdaLN_modulation" in
  let* projected := call_module adaln [t] in
  let* n_embd := getattr_int self "n_embd" in
  let* chunks := split_last projected n_embd in
  match chunks with
  | [shift_msa; scale_msa; gate_msa; shift_mlp; scale_mlp; gate_mlp] =>
      Ok (mkLocals x c t shift_msa scale_msa gate_msa shift_mlp scale_mlp gate_mlp)
  | _ => Raise (ValueError "wrong number of values to unpack (expected 6)")
  end.

(** Line 252: [x = x + gate_msa.unqueeze(1) * self.attn(modulate(self.ln1(x),
    shift=shift_msa, scale=scale_msa))] *)
Definition DiTBlock_self_attention (self : obj) (st : locals) : result locals :=
  let* gate := call_method (gate_msa st) "unqueeze" [1] in
  let* attn := getattr self "attn" in
  let* ln1 := getattr self "ln1" in
  let* normed := call_module ln1 [var_x st] in
  let* modulated := modulate normed (shift_msa st) (scale_msa st) in
  let* attended := call_module attn [modulated] in
  let* gated := mul gate attended in
  let* x' := add (var_x st) gated in
  Ok (set_x st x').

(** Line 253: [x = x + self.cx_attn(self.ln2(x), c)] *)
Definition DiTBlock_cross_attention (self : obj) (st : locals) : result locals :=
  let* cx_attn := getattr self "cx_attn" in
  let* ln2 := getattr self "ln2" in
  let* normed := call_module ln2 [var_x st] in
  let* attended := call_module cx_attn [normed; var_c st] in
  let* x' := add (var_x st) attended in
  Ok (set_x st x').

(** Line 254: [x = x + gate_mlp.unsqueeze(1) * self.mlp(modulate(self.ln3(x),
    shift=shift_mlp, scale=scale_mlp))] *)
Definition DiTBlock_feed_forward (self : obj) (st : locals) : result locals :=
  let* gate := call_method (gate_mlp st) "unsqueeze" [1] in
  let* mlp := getattr self "mlp" in
  let* ln3 := getattr self "ln3" in
  let* normed := call_module ln3 [var_x st] in
  let* modulated := modulate normed (shift_mlp st) (scale_mlp st) in
  let* transformed := call_module mlp [modulated] in
  let* gated := mul gate transformed in
  let* x' := add (var_x st) gated in
  Ok (set_x st x').

Definition DiTBlock_forward (self : obj) (x c t : tensor S) : result (tensor S) :=
  let* st := DiTBlock_modulation self x c t in
  let* st := DiTBlock_self_attention self st in
  let* st := DiTBlock_cross_attention self st in
  let* st := DiTBlock_feed_forward self st in
  Ok (var_x st).

(** [norm.reset_parameters()] for the layer [self.name]. *)
Definition reset_norm (self : obj) (name : string) : result obj :=
  let* m := getattr self name in
  match m with
  | VExt e =>
      let* e' := ext_reset_parameters e in
      Ok (mutate self name (VExt e'))
  | _ => Raise (AttributeError "object has no attribute reset_parameters")
  end.

(** [self.name.custom_init(self.weight_init_std)] *)
Definition custom_init_with_block_std (self : obj) (name : string) : result obj :=
  let* _ := getattr self name in
  let* std := getattr self "weight_init_std" in
  match std with
  | VFloat init_std => custom_init_attr self name (Float init_std)
  | VComplex re im => custom_init_attr self name (Complex re im)
  | _ => Raise (TypeError "weight_init_std is not a number")
  end.

Definition DiTBlock_custom_init (self : obj) : result obj :=
  let* _ := getattr self "ln1" in
  let* _ := getattr self "ln2" in
  let* _ := getattr self "ln3" in
  let* self := reset_norm self "ln1" in
  let* self := reset_norm self "ln2" in
  let* self := reset_norm self "ln3" in
  let* self := custom_init_with_block_std self "attn" in
  let* self := custom_init_with_block_std self "cx_attn" in
  custom_init_with_block_std self "mlp".

End Dit.

(** ** What the properties ask of the element arithmetic

    The layers are written for any element type.  A property that needs
    something of an element says so with one of these; each is stated so
    that IEEE floats satisfy it ([Scalar_IEEE] below). *)

Section Laws.
Context {S : Type} {scalar : Scalar S}.

(** [<] is a strict weak order on the elements that satisfy [ordered]:
    on floats, on the ones that are not NaN. *)
Definition strict_weak_order_on (ordered : S -> Prop) : Prop :=
  (forall a b : S, ordered a -> ordered b -> s_ltb a b = true -> s_ltb b a = false)
  /\ (forall a b c : S, ordered a -> ordered b -> ordered c ->
        s_ltb a b = false -> s_ltb b c = false -> s_ltb a c = false).

(** A [0] added in front leaves [w] as it is: on floats, every [w] but
    [-0.0]. *)
Definition settled (w : S) : Prop := s_add s_zero w = w.

(** [0] and every sum that ends in [+ 0] are settled: on floats this
    holds of every [w], finite or not. *)
Definition zero_settles : Prop :=
  settled s_zero /\ forall w : S, settled (s_add w s_zero).

(** A zero weight takes [v] out of a sum: on floats, every finite [v]
    ([0 * v] is [0.0] or [-0.0]; an infinity or a NaN gives NaN). *)
Definition dropped_l (v : S) : Prop :=
  forall acc : S, settled acc -> s_add (s_mul s_zero v) acc = acc.

Definition dropped_r (v : S) : Prop :=
  forall acc : S, settled acc -> s_add (s_mul v s_zero) acc = acc.

(** What a sum against a one-hot row leaves of the entry [v] it picks,
    [1 * v + 0]: on floats [v] itself, but [0.0] for [-0.0]. *)
Definition picked (v : S) : S := s_add (s_mul (s_of_int 1) v) s_zero.

End Laws.

(** ** IEEE floats as elements

    The elements of a floating tensor in the format of precision [prec]
    and exponent bound [emax] (24 and 128 for [torch.float32]), with the
    library's [exp], [gelu] and [silu] as parameters. *)

Section IEEE.
Variables (prec emax : Z) (exp gelu gelu_tanh silu : spec_float -> spec_float).

Definition Scalar_IEEE : Scalar spec_float := {|
  s_of_int := fun z => binary_normalize prec emax z 0 false;
  s_add := SFadd prec emax;
  s_mul := SFmul prec emax;
  s_div := SFdiv prec emax;
  s_exp := exp;
  s_gelu := gelu;
  s_gelu_tanh := gelu_tanh;
  s_silu := silu;
  s_ltb := SFltb
|}.

End IEEE.

(** The place of a float that is not NaN in the order: its class (from
    [-inf] to [inf]), and for a finite one its exponent and mantissa with
    its sign. *)
Definition order_key (f : spec_float) : Z * Z * Z :=
  match f with
  | S754_nan => (0, 0, 0)
  | S754_infinity true => (-2, 0, 0)
  | S754_infinity false => (2, 0, 0)
  | S754_zero _ => (0, 0, 0)
  | S754_finite true m e => (-1, - e, Zneg m)
  | S754_finite false m e => (1, e, Zpos m)
  end.

Definition key_lt (a b : Z * Z * Z) : Prop :=
  let '(a1, a2, a3) := a in
  let '(b1, b2, b3) := b in
  a1 < b1 \/ (a1 = b1 /\ (a2 < b2 \/ (a2 = b2 /\ a3 < b3))).


(** ** A concrete setting to run the model

    Rational elements, with rational stand-ins for [exp], [gelu] and
    [silu] (positive, resp. sign-preserving); the imported modules act as
    the identity on their first argument; stand-ins for the C library.
    Nothing proved in general depends on these choices. *)

Module Run.

(** Stand-ins for the C library and the complex arithmetic: [pow(x, 0.5)]
    as the correctly rounded square root, [erf] cut to [-1, 1] (the value
    of [erf] wherever it rounds to -1 or 1), the square root of a negative
    real as [sqrt(-x) j], the quotient [x / (re + im j)] as
    [x * (re - im j) / (re * re + im * im)]. *)
Definition erf_cut (x : float) : float :=
  if SFltb x (literal (-1) 1) then literal (-1) 1
  else if SFltb (literal 1 1) x then literal 1 1
  else x.

Definition quotient (a b : float * float) : result (float * float) :=
  let '(re, im) := b in
  let d := fadd (fmul re re) (fmul im im) in
  let* qr := fdiv (fmul (fst a) re) d in
  let* qi := fdiv (fmul (fst a) (SFopp im)) d in
  Ok (qr, qi).

Definition Libm_run : Libm := {|
  libm_pow := fun x y => SFsqrt prec emax x;
  libm_erf := erf_cut;
  c_pow := fun a b => (literal 0 1, SFsqrt prec emax (SFopp (fst a)));
  c_quot := quotient
|}.

#[local] Existing Instance Libm_run.

Local Open Scope Q_scope.

Definition q_exp (v : Q) : Q := 1 + v + v * v / 2.
Definition q_gate (v : Q) : Q := v * (1 + v / (1 + Qabs v)) / 2.

#[global] Instance Scalar_Q : Scalar Q := {|
  s_of_int := inject_Z;
  s_add := Qplus;
  s_mul := Qmult;
  s_div := Qdiv;
  s_exp := q_exp;
  s_gelu := q_gate;
  s_gelu_tanh := q_gate;
  s_silu := q_gate;
  s_ltb := fun a b => negb (Qle_bool b a)
|}.

Local Close Scope Q_scope.

(** A generator to run with: a fresh parameter holds small integers, a
    draw leaves the values as they are, and the bounds [uniform_] checks
    are those of [torch.float32]. *)
#[global] Instance Generator_Q : Generator Q := {|
  initial_values := fun sh idx => inject_Z (Z.of_nat (fold_right Nat.add 1%nat idx));
  trunc_normal_values := fun mean std a b t => t;
  dtype_max := literal ((2 ^ 24 - 1) * 2 ^ 104) 1
|}.

Definition first_argument (e : unit) (args : list (tensor Q)) : result (tensor Q) :=
  match args with
  | a :: _ => Ok a
  | [] => Raise (TypeError "forward() missing 1 required positional argument")
  end.

(** [h * (1 + scale.unsqueeze(1)) + shift.unsqueeze(1)] *)
Definition modulate_Q (h shift scale : tensor Q) : result (tensor Q) :=
  let* sc := unsqueeze scale 1 in
  let* sh := unsqueeze shift 1 in
  let* one_plus := add (mkTensor [] (fun _ => 1%Q)) sc in
  let* scaled := mul h one_plus in
  add scaled sh.

#[global] Instance Modules_Q : Modules Q unit := {|
  create_norm := fun kind n eps => Ok tt;
  SelfAttention := fun n_embd n_head qkv_bias n_hidden eps => Ok tt;
  CrossAttention := fun n_embd n_head n_hidden eps qkv_bias => Ok tt;
  ext_call := first_argument;
  ext_custom_init := fun m std => Ok m;
  ext_reset_parameters := fun m => Ok m;
  modulate := modulate_Q
|}.

(** A tensor given by its shape and its elements in row-major order. *)
Fixpoint flat_index (sh idx : list nat) : nat :=
  match sh, idx with
  | d :: sh', i :: idx' => (i * numel_of sh' + flat_index sh' idx')%nat
  | _, _ => 0%nat
  end.

Definition tensor_of (sh : list nat) (values : list Q) : tensor Q :=
  mkTensor sh (fun idx => nth (flat_index sh idx) values 0%Q).

Definition one : float := literal 1 1.
Definition two : float := literal 2 1.
Definition eps : float := literal 1 1000000.

(** A layer as [nn.Linear(inn, out, bias)] allocates it. *)
Definition fresh (sh : list nat) : parameter Q :=
  mkParameter (mkTensor sh (initial_values sh)) AsConstructed.

Definition fresh_linear (inn out : nat) (use_bias : bool) : Linear Q :=
  mkLinear (fresh [out; inn]) (if use_bias then Some (fresh [out]) else None).

(** [FeedForwardNetwork(n_embd=8, n_hidden=16, hidden_base_mult=4, use_bias=True)] *)
Definition ffn : obj Q unit :=
  Obj "FeedForwardNetwork" true
    [("n_hidden", VInt 16);
     ("fc1", VLinear (fresh_linear 8 16 true));
     ("fc2", VLinear (fresh_linear 8 16 true));
     ("fc3", VLinear (fresh_linear 16 8 true))].

(** [nn.Parameter(torch.ones(...))] *)
Definition ones (sh : list nat) : parameter Q :=
  mkParameter (mkTensor sh (fun _ => 1%Q)) AsConstructed.

(** A [FeedForwardECMoe] with the attributes [__init__] assigns, on an
    object whose base class has been initialised ([E] experts, width [C],
    hidden width [Hd]). *)
Definition moe (capacity : float) (E C Hd : nat) : obj Q unit :=
  Obj "FeedForwardECMoe" true
    [("num_experts", VInt (Z.of_nat E));
     ("expert_capacity", VFloat capacity);
     ("n_embd", VInt (Z.of_nat C));
     ("gate", VLinear (fresh_linear C E false));
     ("w1", VParameter (ones [E; C; Hd]));
     ("gelu", VGELU "none");
     ("w2", VParameter (ones [E; Hd; C]))].

(** [DiTBlock(n_embd=2, head_size=1, mlp_n_hidden_mult=4.0,
    qkv_n_hidden_mult=1.0, hidden_base_mult=4, pooled_caption_n_embd=4,
    norm_eps=1e-6, depth_init=True, block_index=0, num_blocks=12,
    scale_cx_attn_n_hidden=False, use_bias=True, use_moe=False,
    num_experts=2, expert_capacity=1.0)] *)
Definition block : result (obj Q unit) :=
  DiTBlock_init 2 1 (literal 4 1) one 4 4 eps true 0 12 false true false 2 one.

(** Inputs: [x] of shape (1, 4, 2), [c] of shape (1, 3, 2), [t] of shape (1, 4). *)
Definition x142 : tensor Q := tensor_of [1; 4; 2]%nat [1; 2; 3; 4; 5; 6; 7; 8]%Q.
Definition c132 : tensor Q := tensor_of [1; 3; 2]%nat [1; 0; 0; 1; 1; 1]%Q.
Definition t14 : tensor Q := tensor_of [1; 4]%nat [1; 2; 3; 4]%Q.
Definition x102 : tensor Q := tensor_of [1; 0; 2]%nat [].

(** Two inputs of width 8 that agree on their first token: two tokens
    and three tokens. *)
Definition x28 : tensor Q :=
  tensor_of [2; 8]%nat [1; 2; 3; 4; 5; 6; 7; 8; 0; 1; 0; 1; 0; 1; 0; 1]%Q.
Definition x38 : tensor Q :=
  tensor_of [3; 8]%nat [1; 2; 3; 4; 5; 6; 7; 8; 2; 2; 2; 2; 2; 2; 2; 2;
                        9; 8; 7; 6; 5; 4; 3; 2]%Q.

(** An index tensor of shape (1, 2, 2): two experts, two tokens each. *)
Definition chosen122 : tensor nat :=
  mkTensor [1; 2; 2]%nat (fun idx => nth (flat_index [1; 2; 2]%nat idx) [0; 1; 3; 2]%nat 0%nat).

(** *** binary32 elements

    The elements of a [torch.float32] tensor; [exp] is stood in for by
    [1 + v + v * v / 2] and the three activations by [max(v, 0)], each
    computed in binary32. *)

Definition f32_of_int (z : Z) : spec_float := binary_normalize 24 128 z 0 false.

Definition f32_exp (v : spec_float) : spec_float :=
  SFadd 24 128 (SFadd 24 128 (f32_of_int 1) v)
        (SFdiv 24 128 (SFmul 24 128 v v) (f32_of_int 2)).

Definition f32_relu (v : spec_float) : spec_float :=
  if SFltb v (f32_of_int 0) then f32_of_int 0 else v.

#[global] Instance Scalar_f32 : Scalar spec_float :=
  Scalar_IEEE 24 128 f32_exp f32_relu f32_relu f32_relu.

(** A tensor of small integers, converted exactly. *)
Definition tensor_f32 (sh : list nat) (values : list Z) : tensor spec_float :=
  mkTensor sh (fun idx => f32_of_int (nth (flat_index sh idx) values 0)).

Definition fresh_f32 (sh : list nat) : parameter spec_float :=
  mkParameter (mkTensor sh (fun idx => f32_of_int (Z.of_nat (fold_right Nat.add 1%nat idx))))
              AsConstructed.

Definition ones_f32 (sh : list nat) : parameter spec_float :=
  mkParameter (mkTensor sh (fun _ => f32_of_int 1)) AsConstructed.

(** [moe] with binary32 elements. *)
Definition moe_f32 (capacity : float) (E C Hd : nat) : obj spec_float unit :=
  Obj "FeedForwardECMoe" true
    [("num_experts", VInt (Z.of_nat E));
     ("expert_capacity", VFloat capacity);
     ("n_embd", VInt (Z.of_nat C));
     ("gate", VLinear (mkLinear (fresh_f32 [E; C]) None));
     ("w1", VParameter (ones_f32 [E; C; Hd]));
     ("gelu", VGELU "none");
     ("w2", VParameter (ones_f32 [E; Hd; C]))].

(** [x] of shape (1, 4, 2), with a [-0.0] in it. *)
Definition x142_f32 : tensor spec_float :=
  mkTensor [1; 4; 2]%nat
    (fun idx => if (flat_index [1; 4; 2]%nat idx =? 5)%nat then S754_zero true
                else at_ (tensor_f32 [1; 4; 2]%nat [1; 2; 3; 4; 5; 6; 7; 8]) idx).

(** The value of a call that has returned. *)
Definition value_or {A : Type} (r : result A) (d : A) : A :=
  match r with
  | Ok a => a
  | Raise _ => d
  end.

(** [AttentionBlockPromptEmbedding(n_embd=8, head_size=2,
    mlp_n_hidden_mult=4.0, hidden_base_mult=4, norm_eps=1e-6,
    use_bias=True)] *)
Definition prompt_block : result (obj Q unit) :=
  AttentionBlockPromptEmbedding_init 8 2 (literal 4 1) 4 eps true.

End Run.

(** ** Properties *)

Section Properties.
Context {S : Type} {scalar : Scalar S} {generator : Generator S} {libm : Libm}
        {Ext : Type} {modules : Modules S Ext}.

Local Abbreviation pyval := (pyval S Ext).
Local Abbreviation obj := (obj S Ext).

(** *** Results *)

Lemma bind_Ok {A B : Type} (r : result A) (k : A -> result B) (b : B) :
  bind r k = Ok b -> exists a, r = Ok a /\ k a = Ok b.
Proof.
  destruct r as [a | e]; simpl; intros Hk.
  - exists a. split; [reflexivity | exact Hk].
  - discriminate Hk.
Qed.

Lemma bind_raises {A B : Type} (r : result A) (k : A -> result B) :
  (forall a, raises (k a)) -> raises (bind r k).
Proof.
  intros Hk. destruct r as [a | e]; simpl.
  - apply Hk.
  - exists e. reflexivity.
Qed.

Lemma bind_Ok_l {A B : Type} (a : A) (k : A -> result B) : bind (Ok a) k = k a.
Proof. reflexivity. Qed.

Lemma raises_bind_l {A B : Type} (r : result A) (k : A -> result B) :
  raises r -> raises (bind r k).
Proof. intros [e He]. rewrite He. exists e. reflexivity. Qed.

Lemma Raise_raises {A : Type} (e : exn) : raises (@Raise A e).
Proof. exists e. reflexivity. Qed.

Lemma raises_not_Ok {A : Type} (r : result A) (a : A) : raises r -> r <> Ok a.
Proof. intros [e He] Ha. rewrite He in Ha. discriminate Ha. Qed.

(** *** Floats *)

Lemma int_of_float_finite (f : float) :
  is_finite f = true -> returns (int_of_float f).
Proof.
  destruct f as [s | s | | s m e]; simpl; intros Hf; try discriminate;
    eexists; reflexivity.
Qed.

(** [int(f)] is the exact value of [f] with its fraction dropped. *)
Lemma int_of_float_truncates (f : float) (z : Z) :
  int_of_float f = Ok z ->
  z = Z.quot (fst (exact_fraction f)) (snd (exact_fraction f)).
Proof.
  destruct f as [s | s | | s m e]; unfold int_of_float, exact_fraction;
    intros Hz; try discriminate; injection Hz as <-.
  - reflexivity.
  - destruct e as [| p | p]; cbn [fst snd].
    + rewrite Z.quot_1_r, Z.pow_0_r, Z.mul_1_r. destruct s; reflexivity.
    + rewrite Z.quot_1_r. destruct s.
      * change (Z.neg m) with (- Z.pos m). rewrite Z.mul_opp_l. reflexivity.
      * reflexivity.
    + assert (Hp : 0 < 2 ^ Z.pos p) by (apply Z.pow_pos_nonneg; lia).
      destruct s.
      * change (Z.neg m) with (- Z.pos m).
        rewrite Z.quot_opp_l by lia. rewrite Z.quot_div_nonneg by lia. reflexivity.
      * rewrite Z.quot_div_nonneg by lia. reflexivity.
Qed.

Lemma truediv_int_finite (a b : Z) (f : float) :
  truediv_int a b = Ok f -> is_finite f = true.
Proof.
  unfold truediv_int. destruct (b =? 0); [discriminate |].
  destruct (a =? 0).
  - intros Hf. injection Hf as <-. reflexivity.
  - destruct (SFdiv_core_binary prec emax (Z.abs a) 0 (Z.abs b) 0) as [[mz ez] lz].
    destruct (is_finite (binary_round_aux prec emax (xorb (a <? 0) (b <? 0)) mz ez lz))
      eqn:Hfin; [| discriminate].
    intros Hf. injection Hf as <-. exact Hfin.
Qed.

(** *** Attributes *)

Lemma lookup_store_same (name : string) (v : pyval) (l : list (string * pyval)) :
  lookup name (store name v l) = Some v.
Proof.
  induction l as [| [n w] l IH]; simpl.
  - rewrite String.eqb_refl. reflexivity.
  - destruct (String.eqb name n) eqn:E; simpl; rewrite E.
    + reflexivity.
    + exact IH.
Qed.

Lemma lookup_store_other (name other : string) (v : pyval) (l : list (string * pyval)) :
  String.eqb name other = false ->
  lookup name (store other v l) = lookup name l.
Proof.
  intros Hne. induction l as [| [n w] l IH]; simpl.
  - rewrite Hne. reflexivity.
  - destruct (String.eqb other n) eqn:E; simpl.
    + apply String.eqb_eq in E. subst n. rewrite Hne. reflexivity.
    + destruct (String.eqb name n); [reflexivity | exact IH].
Qed.

Lemma setattr_Ok_attrs (self self' : obj) (name : string) (v : pyval) :
  setattr self name v = Ok self' ->
  attrs self' = store name v (attrs self) /\ cls self' = cls self.
Proof.
  unfold setattr. intros Hs.
  destruct (is_parameter v); [destruct (initialized self) |
    destruct (is_module v); [destruct (initialized self) |
      destruct (match lookup name (attrs self) with
                | Some w => initialized self && (is_parameter w || is_module w)
                | None => false
                end)]];
    inversion Hs; subst; simpl; split; reflexivity.
Qed.

Lemma setattr_getattr (self self' : obj) (name : string) (v : pyval) :
  setattr self name v = Ok self' -> getattr self' name = Ok v.
Proof.
  intros Hs. apply setattr_Ok_attrs in Hs. destruct Hs as [Ha _].
  unfold getattr. rewrite Ha, lookup_store_same. reflexivity.
Qed.

Lemma setattr_getattr_other (self self' : obj) (name other : string) (v : pyval) :
  String.eqb other name = false ->
  setattr self name v = Ok self' -> getattr self' other = getattr self other.
Proof.
  intros Hne Hs. apply setattr_Ok_attrs in Hs. destruct Hs as [Ha _].
  unfold getattr. rewrite Ha, lookup_store_other by exact Hne. reflexivity.
Qed.

(** Assigning a module to an object on which [nn.Module.__init__] has
    not run. *)
Lemma setattr_module_uninitialized (self : obj) (name : string) (v : pyval) :
  initialized self = false -> is_module v = true ->
  setattr self name v
  = Raise (AttributeError "cannot assign module before Module.__init__() call").
Proof.
  intros Hi Hm. unfold setattr. rewrite Hi, Hm.
  destruct v; simpl in *; try discriminate; reflexivity.
Qed.

(** Plain values can be stored on such an object; it stays uninitialised. *)
Lemma setattr_plain_uninitialized (self : obj) (name : string) (v : pyval) :
  initialized self = false -> is_module v = false -> is_parameter v = false ->
  exists self', setattr self name v = Ok self'
                /\ initialized self' = false
                /\ attrs self' = store name v (attrs self).
Proof.
  intros Hi Hm Hp. unfold setattr. rewrite Hi, Hm, Hp.
  destruct (lookup name (attrs self)); simpl;
    (eexists; split; [reflexivity | split; reflexivity]).
Qed.

(** Storing under a name the object has keeps the names and their order. *)
Lemma store_keys (name : string) (v : pyval) (l : list (string * pyval)) :
  lookup name l <> None -> map fst (store name v l) = map fst l.
Proof.
  induction l as [| [n w] l IH]; simpl; intros Hl.
  - contradiction Hl. reflexivity.
  - destruct (String.eqb name n) eqn:E; simpl.
    + reflexivity.
    + f_equal. apply IH. exact Hl.
Qed.

Lemma lookup_store_keeps (name other : string) (v : pyval) (l : list (string * pyval)) :
  lookup name l <> None -> lookup name (store other v l) <> None.
Proof.
  intros Hl. destruct (String.eqb name other) eqn:E.
  - apply String.eqb_eq in E. subst other. rewrite lookup_store_same. discriminate.
  - rewrite lookup_store_other by exact E. exact Hl.
Qed.

Lemma getattr_lookup (self : obj) (name : string) (v : pyval) :
  getattr self name = Ok v -> lookup name (attrs self) <> None.
Proof.
  unfold getattr. destruct (lookup name (attrs self)); [discriminate | discriminate].
Qed.

(** *** Rounding a width up to a multiple *)

Lemma round_up_hidden_spec (n_hidden hidden_base_mult : Z) :
  0 < hidden_base_mult ->
  exists h, round_up_hidden n_hidden hidden_base_mult = Ok h
            /\ (hidden_base_mult | h)
            /\ n_hidden <= h < n_hidden + hidden_base_mult.
Proof.
  intros Hpos. unfold round_up_hidden, floordiv.
  destruct (Z.eqb_spec hidden_base_mult 0) as [E | _]; [lia |]. simpl.
  eexists. split; [reflexivity |]. split.
  - apply Z.divide_factor_l.
  - pose proof (Z.mul_div_le (n_hidden + hidden_base_mult - 1) hidden_base_mult Hpos).
    pose proof (Z.mul_succ_div_gt (n_hidden + hidden_base_mult - 1) hidden_base_mult Hpos).
    lia.
Qed.

Lemma nn_Linear_returns (in_features out_features : Z) (use_bias : bool) :
  0 <= in_features -> 0 <= out_features ->
  returns (nn_Linear (S := S) in_features out_features use_bias).
Proof.
  intros Hi Ho. unfold nn_Linear, negative_dim. cbn [existsb].
  destruct (Z.ltb_spec out_features 0) as [Hneg | _]; [lia |].
  destruct (Z.ltb_spec in_features 0) as [Hneg | _]; [lia |].
  cbn [orb]. eexists. reflexivity.
Qed.

Ltac run_attrs :=
  repeat (progress (cbn [setattr Module_init new cls attrs initialized lookup
                         is_parameter is_module store String.eqb Ascii.eqb Bool.eqb
                         andb orb];
                    rewrite ?bind_Ok_l)).

(** The constructor returns for non-negative widths and a positive base
    unit, as long as [2 * n_hidden / 3] is in the range of a float. *)
Lemma FeedForwardNetwork_init_returns
    (n_embd n_hidden hidden_base_mult : Z) (use_bias : bool) :
  0 < hidden_base_mult -> 0 <= n_embd -> 0 <= n_hidden ->
  returns (truediv_int (2 * n_hidden) 3) ->
  returns (A := obj) (FeedForwardNetwork_init n_embd n_hidden hidden_base_mult use_bias).
Proof.
  intros Hpos He Hn [f Hf]. unfold FeedForwardNetwork_init.
  rewrite Hf, bind_Ok_l.
  destruct (int_of_float_finite f (truediv_int_finite _ _ _ Hf)) as [h0 Hh0].
  rewrite Hh0, bind_Ok_l.
  destruct (round_up_hidden_spec n_hidden hidden_base_mult Hpos) as (h & Hh & _ & Hle).
  unfold getattr_int, getattr.
  run_attrs. rewrite Hh. run_attrs.
  destruct (nn_Linear_returns n_embd h use_bias He ltac:(lia)) as [fc Hfc].
  destruct (nn_Linear_returns h n_embd use_bias ltac:(lia) He) as [fc3 Hfc3].
  rewrite Hfc. run_attrs. rewrite Hfc. run_attrs. rewrite Hfc3. run_attrs.
  eexists. reflexivity.
Qed.

Ltac inv_bind H :=
  match type of H with
  | bind _ _ = Ok _ =>
      let a := fresh "a" in
      let Ha := fresh "E" a in
      apply bind_Ok in H; destruct H as (a & Ha & H)
  end.

(** C10. [FeedForwardNetwork] and [FeedForwardECMoe] store as [n_hidden]
    the requested hidden width rounded up to the next multiple of a
    positive [hidden_base_mult]: the stored width [h] is a multiple of
    [hidden_base_mult] and [n_hidden <= h] (and less than one unit above
    it).  For [FeedForwardECMoe] this is the attribute as line 93 leaves
    it. *)
Theorem hidden_width_rounded_up
    (n_embd n_hidden hidden_base_mult : Z) (use_bias : bool)
    (num_experts : Z) (expert_capacity : float) :
  0 < hidden_base_mult ->
  exists h,
    (hidden_base_mult | h)
    /\ n_hidden <= h < n_hidden + hidden_base_mult
    /\ (forall self : obj,
          FeedForwardNetwork_init n_embd n_hidden hidden_base_mult use_bias = Ok self ->
          getattr self "n_hidden" = Ok (VInt h))
    /\ (exists self : obj,
          FeedForwardECMoe_configure num_experts expert_capacity n_embd n_hidden
            hidden_base_mult = Ok self
          /\ getattr self "n_hidden" = Ok (VInt h)).
Proof.
  intros Hpos.
  destruct (round_up_hidden_spec n_hidden hidden_base_mult Hpos) as (h & Hh & Hdiv & Hle).
  exists h. split; [exact Hdiv |]. split; [exact Hle |]. split.
  - intros self Hinit. unfold FeedForwardNetwork_init in Hinit.
    repeat inv_bind Hinit.
    inversion Hinit; subst self; clear Hinit.
    lazymatch goal with
    | E : round_up_hidden _ _ = Ok ?h' |- _ =>
        rewrite Hh in E; inversion E; subst h'; clear E
    end.
    lazymatch goal with
    | H3 : setattr ?s3 "fc3" _ = Ok _,
      H2 : setattr ?s2 "fc2" _ = Ok ?s3,
      H1 : setattr ?s1 "fc1" _ = Ok ?s2,
      H0 : setattr _ "n_hidden" (VInt h) = Ok ?s1 |- _ =>
        rewrite (setattr_getattr_other _ _ "fc3" "n_hidden" _ eq_refl H3),
                (setattr_getattr_other _ _ "fc2" "n_hidden" _ eq_refl H2),
                (setattr_getattr_other _ _ "fc1" "n_hidden" _ eq_refl H1);
        exact (setattr_getattr _ _ _ _ H0)
    end.
  - unfold FeedForwardECMoe_configure. rewrite Hh. cbn.
    eexists. split; reflexivity.
Qed.

(** C9 (amended). With [n_embd] divisible by [head_size], the hidden
    width of the self-attention projections is a multiple of
    [2 * head_size] whenever [qkv_n_hidden_mult != 1]; when
    [qkv_n_hidden_mult == 1] it is [n_embd] itself, a multiple of
    [head_size] only. *)
Theorem qkv_n_hidden_multiple
    (n_embd head_size : Z) (qkv_n_hidden_mult : float) (v : Z) :
  head_size <> 0 ->
  n_embd mod head_size = 0 ->
  qkv_n_hidden_of n_embd head_size qkv_n_hidden_mult = Ok v ->
  (head_size | v)
  /\ (feq_int qkv_n_hidden_mult 1 = false -> (2 * head_size | v))
  /\ (feq_int qkv_n_hidden_mult 1 = true -> v = n_embd).
Proof.
  intros Hh Hmod Hq. unfold qkv_n_hidden_of in Hq.
  destruct (feq_int qkv_n_hidden_mult 1) eqn:E1.
  - inversion Hq; subst v. split; [| split].
    + apply Z.mod_divide; assumption.
    + discriminate.
    + reflexivity.
  - repeat inv_bind Hq.
    assert (Hv : v = 2 * head_size * a1) by congruence.
    rewrite Hv. split; [| split].
    + apply Z.divide_mul_l, Z.divide_mul_r, Z.divide_refl.
    + intros _. apply Z.divide_factor_l.
    + discriminate.
Qed.

(** When [qkv_n_hidden_mult != 1] and the scaled width is finite the
    width is computed, for every non-zero [head_size]. *)
Lemma qkv_n_hidden_returns
    (n_embd head_size : Z) (qkv_n_hidden_mult scaled : float) :
  head_size <> 0 ->
  fmul_int qkv_n_hidden_mult n_embd = Ok scaled ->
  is_finite scaled = true ->
  returns (qkv_n_hidden_of n_embd head_size qkv_n_hidden_mult).
Proof.
  intros Hh Hs Hf. unfold qkv_n_hidden_of.
  destruct (feq_int qkv_n_hidden_mult 1); [eexists; reflexivity |].
  rewrite Hs, bind_Ok_l.
  destruct (int_of_float_finite scaled Hf) as [v Hv]. rewrite Hv, bind_Ok_l.
  unfold floordiv.
  destruct (Z.eqb_spec (2 * head_size) 0) as [E | _]; [lia |].
  rewrite bind_Ok_l. eexists; reflexivity.
Qed.

(** With a non-zero base unit and non-negative sizes the constructor
    reaches line 96 and fails there, on the assignment of the gate. *)
Lemma FeedForwardECMoe_init_fails_on_gate
    (num_experts : Z) (expert_capacity : float) (n_embd n_hidden hidden_base_mult : Z) :
  hidden_base_mult <> 0 -> 0 <= n_embd -> 0 <= num_experts ->
  FeedForwardECMoe_init num_experts expert_capacity n_embd n_hidden hidden_base_mult
  = (Raise (AttributeError "cannot assign module before Module.__init__() call")
     : result obj).
Proof.
  intros Hb He Hn. unfold FeedForwardECMoe_init, FeedForwardECMoe_configure.
  unfold round_up_hidden, floordiv.
  destruct (Z.eqb_spec hidden_base_mult 0) as [E | _]; [contradiction |].
  destruct (nn_Linear_returns n_embd num_experts false He Hn) as [gate Hgate].
  cbn. rewrite Hgate. reflexivity.
Qed.

(** C2. [FeedForwardECMoe.__init__] raises for every argument tuple, and
    so does [DiTBlock.__init__] with [use_moe=True]. *)
Theorem FeedForwardECMoe_cannot_be_constructed :
  (forall (num_experts : Z) (expert_capacity : float)
          (n_embd n_hidden hidden_base_mult : Z),
      raises (A := obj)
        (FeedForwardECMoe_init num_experts expert_capacity n_embd n_hidden
           hidden_base_mult))
  /\ (forall (n_embd head_size : Z) (mlp_n_hidden_mult qkv_n_hidden_mult : float)
             (hidden_base_mult pooled_caption_n_embd : Z) (norm_eps : float)
             (depth_init : bool) (block_index num_blocks : Z)
             (scale_cx_attn_n_hidden use_bias : bool)
             (num_experts : Z) (expert_capacity : float),
      raises (A := obj)
             (DiTBlock_init n_embd head_size mlp_n_hidden_mult qkv_n_hidden_mult
                hidden_base_mult pooled_caption_n_embd norm_eps depth_init block_index
                num_blocks scale_cx_attn_n_hidden use_bias true num_experts
                expert_capacity)).
Proof.
  assert (Hmoe : forall num_experts expert_capacity n_embd n_hidden hidden_base_mult,
             raises (A := obj)
               (FeedForwardECMoe_init num_experts expert_capacity n_embd n_hidden
                  hidden_base_mult)).
  { intros. unfold FeedForwardECMoe_init, FeedForwardECMoe_configure.
    unfold round_up_hidden, floordiv.
    destruct (hidden_base_mult =? 0); cbn; [apply Raise_raises |].
    destruct (nn_Linear n_embd num_experts false) as [gate | e]; cbn;
      apply Raise_raises. }
  split; [exact Hmoe |].
  intros. unfold DiTBlock_init.
  repeat first
    [ apply Raise_raises
    | apply raises_bind_l; solve [apply Hmoe]
    | apply bind_raises; intros ?; cbv beta iota ].
Qed.

(** *** einsum *)

Lemma values_of_agrees (sz : label -> nat) (l : label) (e : binding) :
  agrees sz e -> Forall (eq (sz l)) (values_of l e).
Proof.
  intros Ha. unfold values_of. apply Forall_forall. intros d Hd.
  apply in_map_iff in Hd. destruct Hd as ([l' d'] & Hsnd & Hin). simpl in Hsnd. subst d'.
  apply filter_In in Hin. destruct Hin as [Hin Heq]. simpl in Heq.
  apply Ascii.eqb_eq in Heq. subst l'. symmetry. apply (Ha _ _ Hin).
Qed.

Lemma find_not_one_all_equal (v : nat) (vs : list nat) :
  Forall (eq v) vs ->
  match find (fun d => negb (d =? 1)%nat) vs with
  | Some d => d = v
  | None => vs = [] \/ v = 1%nat
  end.
Proof.
  induction 1 as [| d vs Hd Hvs IH]; simpl.
  - left. reflexivity.
  - subst d. destruct (Nat.eqb_spec v 1) as [E | E]; simpl.
    + destruct (find (fun d => negb (d =? 1)%nat) vs); [exact IH | right; exact E].
    + reflexivity.
Qed.

Lemma size_of_bound (sz : label -> nat) (l : label) (e : binding) :
  agrees sz e -> In l (map fst e) -> size_of l e = sz l.
Proof.
  intros Ha Hin. unfold size_of.
  pose proof (find_not_one_all_equal (sz l) (values_of l e) (values_of_agrees sz l e Ha)) as Hf.
  destruct (find (fun d => negb (d =? 1)%nat) (values_of l e)) as [d |].
  - exact Hf.
  - destruct Hf as [Hnil | Hone]; [| symmetry; exact Hone].
    exfalso. apply in_map_iff in Hin. destruct Hin as ([l' d] & Hl & Hin). simpl in Hl. subst l'.
    assert (Hv : In d (values_of l e)).
    { unfold values_of. apply in_map_iff. exists (l, d). split; [reflexivity |].
      apply filter_In. split; [exact Hin |]. simpl. apply Ascii.eqb_refl. }
    rewrite Hnil in Hv. exact Hv.
Qed.

Lemma size_of_unbound (l : label) (e : binding) :
  ~ In l (map fst e) -> size_of l e = 1%nat.
Proof.
  intros Hn. unfold size_of.
  assert (Hv : values_of l e = []).
  { unfold values_of. induction e as [| [l' d] e IH]; simpl; [reflexivity |].
    destruct (Ascii.eqb_spec l l') as [E | E].
    - exfalso. apply Hn. left. symmetry. exact E.
    - apply IH. intros Hin. apply Hn. right. exact Hin. }
  rewrite Hv. reflexivity.
Qed.

Lemma bind_sizes_agrees (sz : label -> nat) (ls : list label) (e : binding) :
  agrees sz e ->
  bind_sizes ls (map sz ls) e = Ok (rev (combine ls (map sz ls)) ++ e).
Proof.
  revert e. induction ls as [| l ls IH]; intros e Ha; simpl.
  - reflexivity.
  - assert (Hcheck : ((sz l =? size_of l e)%nat || (sz l =? 1)%nat
                      || (size_of l e =? 1)%nat) = true).
    { destruct (in_dec ascii_dec l (map fst e)) as [Hin | Hout].
      - rewrite (size_of_bound sz l e Ha Hin), Nat.eqb_refl. reflexivity.
      - rewrite (size_of_unbound l e Hout). apply orb_true_r. }
    rewrite Hcheck, IH.
    + rewrite <- app_assoc. reflexivity.
    + intros l' d [Heq | Hin].
      * inversion Heq; subst. reflexivity.
      * apply (Ha _ _ Hin).
Qed.

Lemma agrees_app (sz : label -> nat) (e1 e2 : binding) :
  agrees sz e1 -> agrees sz e2 -> agrees sz (e1 ++ e2).
Proof.
  intros Ha1 Ha2 l d Hin. apply in_app_or in Hin. destruct Hin; eauto.
Qed.

Lemma agrees_rev_combine (sz : label -> nat) (ls : list label) :
  agrees sz (rev (combine ls (map sz ls))).
Proof.
  intros l d Hin. apply in_rev in Hin.
  induction ls as [| l' ls IH]; simpl in Hin; [contradiction |].
  destruct Hin as [Heq | Hin]; [inversion Heq; subst; reflexivity | exact (IH Hin)].
Qed.

Lemma fst_rev_combine (sz : label -> nat) (ls : list label) (l : label) :
  In l ls -> In l (map fst (rev (combine ls (map sz ls)))).
Proof.
  intros Hin. rewrite map_rev. apply -> in_rev.
  induction ls as [| l' ls IH]; simpl in *; [contradiction |].
  destruct Hin as [Heq | Hin]; [left; exact Heq | right; exact (IH Hin)].
Qed.

Lemma has_label_In (l : label) (ls : list label) :
  has_label l ls = true -> In l ls.
Proof.
  unfold has_label. intros Hh. apply existsb_exists in Hh.
  destruct Hh as (l' & Hin & Heq). apply Ascii.eqb_eq in Heq. subst l'. exact Hin.
Qed.

(** When the operands' shapes are the sizes [sz] of their subscripts,
    [einsum2] returns a tensor of the sizes of the output subscripts whose
    entries are sums over all indices of the contracted subscripts. *)
Lemma einsum2_agrees (sz : label -> nat) (la lb lo : list label) (a b : tensor S) :
  shape a = map sz la ->
  shape b = map sz lb ->
  forallb (fun l => has_label l (la ++ lb)) lo = true ->
  exists out,
    einsum2 la lb lo a b = Ok out
    /\ shape out = map sz lo
    /\ forall idx,
        at_ out idx
        = sum_list
            (map (fun asg =>
                    let i := combine lo idx ++ combine (contracted la lb lo) asg in
                    s_mul (at_ a (operand_index la (shape a) i))
                          (at_ b (operand_index lb (shape b) i)))
                 (all_indices (map sz (contracted la lb lo)))).
Proof.
  intros Hsa Hsb Hlo. unfold einsum2.
  destruct a as [sha ata], b as [shb atb]. simpl in Hsa, Hsb. subst sha shb.
  cbn [shape at_].
  rewrite (bind_sizes_agrees sz la []) by (intros l d []).
  rewrite bind_Ok_l.
  rewrite bind_sizes_agrees.
  2:{ apply agrees_app; [apply agrees_rev_combine | intros l d []]. }
  rewrite bind_Ok_l, Hlo.
  set (e := rev (combine lb (map sz lb)) ++ rev (combine la (map sz la)) ++ []).
  assert (He : forall l, In l (la ++ lb) -> size_of l e = sz l).
  { intros l Hin. apply size_of_bound.
    - unfold e. apply agrees_app; [apply agrees_rev_combine |].
      apply agrees_app; [apply agrees_rev_combine | intros l' d []].
    - unfold e. rewrite !map_app. apply in_app_or in Hin. apply in_or_app.
      destruct Hin as [Hin | Hin].
      + right. apply in_or_app. left. apply fst_rev_combine. exact Hin.
      + left. apply fst_rev_combine. exact Hin. }
  assert (Hcs : map (fun l => size_of l e) (contracted la lb lo)
                = map sz (contracted la lb lo)).
  { apply map_ext_in. intros l Hin. apply He.
    unfold contracted in Hin. apply nodup_In in Hin. apply filter_In in Hin.
    exact (proj1 Hin). }
  eexists. split; [reflexivity |]. split.
  - simpl. apply map_ext_in. intros l Hin. apply He.
    rewrite forallb_forall in Hlo. apply has_label_In. exact (Hlo l Hin).
  - intros idx. simpl. rewrite Hcs. reflexivity.
Qed.


(** *** topk *)

Lemma insert_desc_perm (x : S * nat) (l : list (S * nat)) :
  Permutation (insert_desc x l) (x :: l).
Proof.
  induction l as [| y l IH]; simpl.
  - apply Permutation_refl.
  - destruct (s_ltb (fst x) (fst y)).
    + apply perm_trans with (y :: x :: l).
      * apply perm_skip. exact IH.
      * apply perm_swap.
    + apply Permutation_refl.
Qed.

Lemma sort_desc_perm (l : list (S * nat)) : Permutation (sort_desc l) l.
Proof.
  induction l as [| x l IH]; simpl.
  - apply perm_nil.
  - apply perm_trans with (x :: sort_desc l).
    + apply insert_desc_perm.
    + apply perm_skip. exact IH.
Qed.

Lemma snd_combine_seq (row : list S) (start : nat) :
  map snd (combine row (seq start (length row))) = seq start (length row).
Proof.
  revert start. induction row as [| v row IH]; intros start; simpl.
  - reflexivity.
  - f_equal. apply IH.
Qed.

Lemma map_nth_seq {A : Type} (l : list A) (d : A) :
  map (fun i => nth i l d) (seq 0 (length l)) = l.
Proof.
  induction l as [| a l IH]; simpl.
  - reflexivity.
  - f_equal. rewrite <- seq_shift, map_map. exact IH.
Qed.

Lemma NoDup_firstn {A : Type} (k : nat) (l : list A) : NoDup l -> NoDup (firstn k l).
Proof.
  intros Hl. rewrite <- (firstn_skipn k l) in Hl.
  exact (NoDup_app_remove_r _ _ Hl).
Qed.

Lemma In_firstn {A : Type} (k : nat) (l : list A) (a : A) : In a (firstn k l) -> In a l.
Proof.
  intros Hin. rewrite <- (firstn_skipn k l). apply in_or_app. left. exact Hin.
Qed.

(** The positions [topk_row] picks: [k] of them when the row has at least
    [k] entries, all different, all positions of the row. *)
Lemma topk_row_positions (k : nat) (row : list S) :
  (k <= length row)%nat ->
  length (topk_row k row) = k
  /\ NoDup (map snd (topk_row k row))
  /\ Forall (fun i => (i < length row)%nat) (map snd (topk_row k row)).
Proof.
  intros Hk. unfold topk_row.
  set (sorted := sort_desc (combine row (seq 0 (length row)))).
  assert (Hperm : Permutation (map snd sorted) (seq 0 (length row))).
  { rewrite <- (snd_combine_seq row 0). apply Permutation_map. apply sort_desc_perm. }
  assert (Hlen : length sorted = length row).
  { rewrite <- (length_map snd sorted), (Permutation_length Hperm). apply length_seq. }
  split; [| split].
  - rewrite length_firstn, Hlen. lia.
  - rewrite <- firstn_map. apply NoDup_firstn.
    apply (Permutation_NoDup (Permutation_sym Hperm)). apply seq_NoDup.
  - rewrite <- firstn_map. apply Forall_forall. intros i Hi.
    apply In_firstn in Hi. apply (Permutation_in _ Hperm) in Hi.
    apply in_seq in Hi. lia.
Qed.

Lemma length_row_of (t : tensor S) (p : list nat) :
  length (row_of t p) = last_dim (shape t).
Proof. unfold row_of. rewrite length_map. apply length_seq. Qed.

Lemma topk_in_range (t : tensor S) (B E T : nat) (k : Z) :
  shape t = [B; E; T]%nat ->
  0 <= k <= Z.of_nat T ->
  exists values indices,
    topk t k = Ok (values, indices)
    /\ shape values = [B; E; Z.to_nat k]%nat
    /\ shape indices = [B; E; Z.to_nat k]%nat
    /\ forall b e,
        let chosen := map (fun l => at_ indices [b; e; l]%nat) (seq 0 (Z.to_nat k)) in
        length chosen = Z.to_nat k
        /\ NoDup chosen
        /\ Forall (fun i => (i < T)%nat) chosen.
Proof.
  intros Hs Hk. unfold topk. rewrite Hs. cbn [last_dim last batch_dims removelast app].
  destruct (Z.leb_spec 0 k) as [_ | Hneg]; [| lia].
  destruct (Z.leb_spec k (Z.of_nat T)) as [_ | Hbig]; [| lia].
  cbn [andb]. eexists. eexists. split; [reflexivity |].
  split; [reflexivity |]. split; [reflexivity |].
  intros b e. cbn [at_ last removelast].
  set (picked := topk_row (Z.to_nat k) (row_of t [b; e]%nat)).
  assert (Hrow : length (row_of t [b; e]%nat) = T).
  { rewrite length_row_of, Hs. reflexivity. }
  destruct (topk_row_positions (Z.to_nat k) (row_of t [b; e]%nat)) as (Hlen & Hnd & Hlt).
  { rewrite Hrow. lia. }
  fold picked in Hlen, Hnd, Hlt.
  assert (Hchosen : map (fun l => snd (nth l picked (s_zero, 0%nat))) (seq 0 (Z.to_nat k))
                    = map snd picked).
  { rewrite <- Hlen at 1. rewrite <- (map_nth_seq picked (s_zero, 0%nat)) at 2.
    rewrite map_map. reflexivity. }
  cbv zeta. fold picked. rewrite Hchosen.
  split; [rewrite length_map; exact Hlen |]. split; [exact Hnd |].
  rewrite Hrow in Hlt. exact Hlt.
Qed.

Lemma topk_out_of_range (t : tensor S) (B E T : nat) (k : Z) :
  shape t = [B; E; T]%nat ->
  ~ (0 <= k <= Z.of_nat T) ->
  topk t k = Raise (RuntimeError "selected index k out of range").
Proof.
  intros Hs Hk. unfold topk. rewrite Hs. cbn [last_dim last].
  destruct (Z.leb_spec 0 k) as [Hpos | Hneg]; [| reflexivity].
  destruct (Z.leb_spec k (Z.of_nat T)) as [Hle | Hbig]; [lia | reflexivity].
Qed.

(** *** FeedForwardECMoe: forward *)

Lemma linear_shape_3 (x w : tensor S) (bias : option (tensor S)) (B T C E : nat) :
  shape x = [B; T; C]%nat -> shape w = [E; C]%nat ->
  exists y, linear x w bias = Ok y /\ shape y = [B; T; E]%nat.
Proof.
  intros Hx Hw. unfold linear. rewrite Hx, Hw. cbn [last_dim last batch_dims removelast app].
  rewrite Nat.eqb_refl. eexists. split; reflexivity.
Qed.

Lemma route_reduces (self : obj) (x : tensor S) (B T C E : nat) (L : Z) (g : Linear S) :
  shape x = [B; T; C]%nat ->
  tokens_per_expert_of self T = Ok L ->
  getattr self "gate" = Ok (VLinear g) ->
  shape (data (weight g)) = [E; C]%nat ->
  exists probs,
    shape probs = [B; E; T]%nat
    /\ FeedForwardECMoe_route self x
       = (let* '(token_probs, tokens) := topk probs L in
          Ok (mkRouting L token_probs tokens)).
Proof.
  intros Hx HL Hg Hw. unfold FeedForwardECMoe_route.
  unfold dim. rewrite Hx. cbn [length Nat.eqb assert nth]. rewrite bind_Ok_l.
  rewrite HL, bind_Ok_l.
  unfold getattr_linear. rewrite Hg, !bind_Ok_l. unfold Linear_forward.
  destruct (linear_shape_3 x (data (weight g)) (option_map data (bias g)) B T C E Hx Hw)
    as (scores & Hs & Hss).
  rewrite Hs, bind_Ok_l.
  unfold permute. unfold dim. cbn [shape softmax_last]. rewrite Hss.
  cbn. eexists. split; [| reflexivity]. reflexivity.
Qed.

Lemma all_indices_zero (sh : list nat) : In 0%nat sh -> all_indices sh = [].
Proof.
  induction sh as [| d sh IH]; intros Hin; [contradiction |].
  destruct Hin as [Hd | Hin].
  - subst d. reflexivity.
  - simpl. rewrite (IH Hin).
    induction (seq 0 d) as [| i l IHl]; simpl; [reflexivity | exact IHl].
Qed.

Lemma length_all_indices (sh : list nat) : length (all_indices sh) = numel_of sh.
Proof.
  induction sh as [| d sh IH]; simpl; [reflexivity |].
  generalize 0%nat. induction d as [| d IHd]; intros start; simpl; [reflexivity |].
  rewrite length_app, length_map, IH, IHd. reflexivity.
Qed.

Lemma broadcast_rev_refl (r : list nat) : broadcast_rev r r = Ok r.
Proof.
  induction r as [| d r IH]; simpl; [reflexivity |].
  rewrite IH, bind_Ok_l, Nat.eqb_refl. reflexivity.
Qed.

Lemma broadcast_shapes_last_one (sh : list nat) (d : nat) :
  broadcast_shapes (sh ++ [d]) (sh ++ [1%nat]) = Ok (sh ++ [d]).
Proof.
  unfold broadcast_shapes. rewrite !rev_app_distr. simpl.
  rewrite broadcast_rev_refl, bind_Ok_l.
  destruct (d =? 1)%nat; simpl; rewrite rev_involutive; reflexivity.
Qed.

(** Lines 128-139 return a tensor of the shape of [x], each entry a sum
    over the experts and their [l] slots. *)
Lemma FeedForwardECMoe_experts_spec (self : obj) (x probs oh : tensor S)
    (B T C E Hd l : nat) (w1 w2 : parameter S) (act : pyval) :
  shape x = [B; T; C]%nat ->
  shape probs = [B; E; l]%nat ->
  shape oh = [B; E; l; T]%nat ->
  getattr self "w1" = Ok (VParameter w1) ->
  shape (data w1) = [E; C; Hd]%nat ->
  getattr self "gelu" = Ok act ->
  getattr self "w2" = Ok (VParameter w2) ->
  shape (data w2) = [E; Hd; C]%nat ->
  exists out weighted,
    FeedForwardECMoe_experts self x probs oh = Ok out
    /\ shape out = [B; T; C]%nat
    /\ forall idx,
        at_ out idx
        = sum_list
            (map (fun slot =>
                    let i := combine ["B"; "T"; "C"]%char idx
                             ++ combine ["E"; "l"]%char slot in
                    s_mul (at_ weighted
                             (operand_index ["B"; "E"; "l"; "C"]%char (shape weighted) i))
                          (at_ oh (operand_index ["B"; "E"; "l"; "T"]%char (shape oh) i)))
                 (all_indices [E; l]%nat)).
Proof.
  intros Hx Hps Hoh Hw1 Hw1s Hact Hw2 Hw2s.
  unfold FeedForwardECMoe_experts.
  set (sz := label_sizes B E l T C Hd).
  (* gather *)
  destruct (einsum2_agrees sz ["B"; "E"; "l"; "T"]%char ["B"; "T"; "C"]%char
              ["B"; "E"; "l"; "C"]%char oh x) as (xin & Hxin & Hxs & _);
    [rewrite Hoh; reflexivity | rewrite Hx; reflexivity | reflexivity |].
  change (einsum "BElT, BTC -> BElC" oh x)
    with (einsum2 ["B"; "E"; "l"; "T"]%char ["B"; "T"; "C"]%char
            ["B"; "E"; "l"; "C"]%char oh x).
  rewrite Hxin, bind_Ok_l.
  unfold getattr_parameter. rewrite Hw1, !bind_Ok_l.
  (* the experts *)
  destruct (einsum2_agrees sz ["B"; "E"; "l"; "C"]%char ["E"; "C"; "H"]%char
              ["B"; "E"; "l"; "H"]%char xin (data w1)) as (a1 & Ha1 & Ha1s & _);
    [rewrite Hxs; reflexivity | rewrite Hw1s; reflexivity | reflexivity |].
  change (einsum "BElC, ECH -> BElH" xin (data w1))
    with (einsum2 ["B"; "E"; "l"; "C"]%char ["E"; "C"; "H"]%char
            ["B"; "E"; "l"; "H"]%char xin (data w1)).
  rewrite Ha1, bind_Ok_l, Hact, bind_Ok_l, Hw2, !bind_Ok_l.
  set (a1g := map_tensor s_gelu a1).
  destruct (einsum2_agrees sz ["B"; "E"; "l"; "H"]%char ["E"; "H"; "C"]%char
              ["B"; "E"; "l"; "C"]%char a1g (data w2)) as (a2 & Ha2 & Ha2s & _);
    [unfold a1g; cbn [shape map_tensor]; rewrite Ha1s; reflexivity
    | rewrite Hw2s; reflexivity | reflexivity |].
  change (einsum "BElH, EHC -> BElC" a1g (data w2))
    with (einsum2 ["B"; "E"; "l"; "H"]%char ["E"; "H"; "C"]%char
            ["B"; "E"; "l"; "C"]%char a1g (data w2)).
  rewrite Ha2, bind_Ok_l.
  (* scale by the gate probabilities *)
  unfold unsqueeze, dim. rewrite Hps. cbn -[mul einsum].
  unfold mul, binary. cbn [shape].
  replace (shape a2) with ([B; E; l]%nat ++ [C]) by (rewrite Ha2s; reflexivity).
  change [B; E; l; 1]%nat with ([B; E; l]%nat ++ [1%nat]).
  rewrite broadcast_shapes_last_one, !bind_Ok_l.
  set (a3 := mkTensor _ _).
  (* scatter *)
  destruct (einsum2_agrees sz ["B"; "E"; "l"; "C"]%char ["B"; "E"; "l"; "T"]%char
              ["B"; "T"; "C"]%char a3 oh) as (out & Hout & Houts & Hval);
    [reflexivity | rewrite Hoh; reflexivity | reflexivity |].
  change (einsum "BElC, BElT -> BTC" a3 oh)
    with (einsum2 ["B"; "E"; "l"; "C"]%char ["B"; "E"; "l"; "T"]%char
            ["B"; "T"; "C"]%char a3 oh).
  rewrite Hout, bind_Ok_l.
  exists out, a3. split; [reflexivity |]. split; [exact Houts |].
  intros idx. rewrite Hval. reflexivity.
Qed.

(** C5 (amended). For an input of shape (B, T, C) with at least one token,
    if the computed capacity is 0 then [forward] raises nothing and
    returns the all-zero tensor of shape (B, T, C). *)
Theorem FeedForwardECMoe_zero_capacity (self : obj) (x : tensor S) (B T C E Hd : nat)
    (g : Linear S) (w1 w2 : parameter S) (act : pyval) :
  shape x = [B; T; C]%nat ->
  (0 < T)%nat ->
  tokens_per_expert_of self T = Ok 0 ->
  getattr self "gate" = Ok (VLinear g) ->
  shape (data (weight g)) = [E; C]%nat ->
  getattr self "w1" = Ok (VParameter w1) ->
  shape (data w1) = [E; C; Hd]%nat ->
  getattr self "gelu" = Ok act ->
  getattr self "w2" = Ok (VParameter w2) ->
  shape (data w2) = [E; Hd; C]%nat ->
  exists out,
    FeedForwardECMoe_forward self x = Ok out
    /\ shape out = [B; T; C]%nat
    /\ (forall idx, at_ out idx = s_zero)
    /\ elements out = repeat s_zero (B * T * C).
Proof.
  intros Hx HT HL Hg Hgs Hw1 Hw1s Hact Hw2 Hw2s.
  destruct (route_reduces self x B T C E 0 g Hx HL Hg Hgs) as (probs & Hps & Hroute).
  destruct (topk_in_range probs B E T 0 Hps ltac:(lia))
    as (values & indices & Htopk & Hvs & His & _).
  change (Z.to_nat 0) with 0%nat in Hvs, His.
  unfold FeedForwardECMoe_forward. rewrite Hroute, Htopk, !bind_Ok_l.
  cbn [expert_specific_tokens expert_specific_token_probs].
  rewrite Hx. cbn [nth].
  (* no index to encode: [one_hot] returns the empty tensor with T classes *)
  unfold one_hot, numel. rewrite His.
  replace (numel_of [B; E; 0]%nat) with 0%nat by (unfold numel_of; simpl; lia).
  cbn [Nat.eqb].
  destruct (Z.leb_spec (Z.of_nat T) 0) as [Hle | _]; [lia |].
  rewrite bind_Ok_l, Nat2Z.id. cbn [app].
  set (oh := to_float _).
  destruct (FeedForwardECMoe_experts_spec self x values oh B T C E Hd 0 w1 w2 act
              Hx Hvs eq_refl Hw1 Hw1s Hact Hw2 Hw2s)
    as (out & weighted & Hout & Houts & Hval).
  assert (Hzero : forall idx, at_ out idx = s_zero).
  { intros idx. rewrite Hval.
    rewrite (all_indices_zero [E; 0]%nat) by (right; left; reflexivity).
    reflexivity. }
  exists out. split; [exact Hout |]. split; [exact Houts |]. split; [exact Hzero |].
  unfold elements. rewrite Houts.
  rewrite (map_ext _ (fun _ => s_zero) Hzero), map_const, length_all_indices.
  f_equal. unfold numel_of. cbn [fold_right]. ring.
Qed.

Lemma In_all_indices (sh idx : list nat) :
  In idx (all_indices sh) -> Forall2 (fun i d => (i < d)%nat) idx sh.
Proof.
  revert idx. induction sh as [| d sh IH]; intros idx Hin; simpl in Hin.
  - destruct Hin as [<- | []]. constructor.
  - apply in_flat_map in Hin. destruct Hin as (i & Hi & Hin).
    apply in_map_iff in Hin. destruct Hin as (idx' & <- & Hin').
    constructor; [apply in_seq in Hi; lia | exact (IH idx' Hin')].
Qed.

Lemma fold_max_lt (T : nat) (l : list nat) :
  (0 < T)%nat -> Forall (fun i => (i < T)%nat) l -> (fold_right Nat.max 0%nat l < T)%nat.
Proof.
  intros HT. induction 1 as [| i l Hi Hl IH]; simpl; [exact HT | lia].
Qed.

(** [F.one_hot] accepts what [topk] has chosen, for a sequence that is
    not empty. *)
Lemma one_hot_of_chosen (indices : tensor nat) (B E k T : nat) :
  shape indices = [B; E; k]%nat ->
  (0 < T)%nat ->
  (forall b e, Forall (fun i => (i < T)%nat)
                 (map (fun l => at_ indices [b; e; l]%nat) (seq 0%nat k))) ->
  exists oh, one_hot indices (Z.of_nat T) = Ok oh /\ shape oh = [B; E; k; T]%nat.
Proof.
  intros Hs HT Hsel. unfold one_hot.
  destruct (numel indices =? 0)%nat.
  - destruct (Z.leb_spec (Z.of_nat T) 0) as [Hle | _]; [lia |].
    eexists. split; [reflexivity |]. cbn [shape]. rewrite Hs, Nat2Z.id. reflexivity.
  - destruct (Z.eqb_spec (Z.of_nat T) (-1)) as [Heq | _]; [lia |].
    assert (Hmax : (fold_right Nat.max 0%nat (elements indices) < T)%nat).
    { apply fold_max_lt; [exact HT |]. unfold elements. rewrite Hs.
      apply Forall_forall. intros v Hv. apply in_map_iff in Hv.
      destruct Hv as (idx & <- & Hidx). apply In_all_indices in Hidx.
      inversion Hidx as [| b dB idx1 sh1 _ H1]; subst.
      inversion H1 as [| e dE idx2 sh2 _ H2]; subst.
      inversion H2 as [| l dk idx3 sh3 Hl H3]; subst.
      inversion H3; subst.
      pose proof (Hsel b e) as Hbe. rewrite Forall_forall in Hbe. apply Hbe.
      apply in_map_iff. exists l. split; [reflexivity |]. apply in_seq. lia. }
    destruct (Z.ltb_spec (Z.of_nat (fold_right Nat.max 0%nat (elements indices))) (Z.of_nat T))
      as [_ | Hge]; [| lia].
    rewrite bind_Ok_l. eexists. split; [reflexivity |].
    cbn [shape]. rewrite Hs, Nat2Z.id. reflexivity.
Qed.

(** With the capacity in range and at least one token, [forward] returns
    a tensor of the shape of its input. *)
Lemma FeedForwardECMoe_forward_shape (self : obj) (x : tensor S) (B T C E Hd : nat)
    (L : Z) (g : Linear S) (w1 w2 : parameter S) (act : pyval) :
  shape x = [B; T; C]%nat ->
  (0 < T)%nat ->
  tokens_per_expert_of self T = Ok L ->
  0 <= L <= Z.of_nat T ->
  getattr self "gate" = Ok (VLinear g) ->
  shape (data (weight g)) = [E; C]%nat ->
  getattr self "w1" = Ok (VParameter w1) ->
  shape (data w1) = [E; C; Hd]%nat ->
  getattr self "gelu" = Ok act ->
  getattr self "w2" = Ok (VParameter w2) ->
  shape (data w2) = [E; Hd; C]%nat ->
  exists out, FeedForwardECMoe_forward self x = Ok out /\ shape out = [B; T; C]%nat.
Proof.
  intros Hx HT HL Hrange Hg Hgs Hw1 Hw1s Hact Hw2 Hw2s.
  destruct (route_reduces self x B T C E L g Hx HL Hg Hgs) as (probs & Hps & Hroute).
  destruct (topk_in_range probs B E T L Hps Hrange)
    as (values & indices & Htopk & Hvs & His & Hsel).
  unfold FeedForwardECMoe_forward. rewrite Hroute, Htopk, !bind_Ok_l.
  cbn [expert_specific_tokens expert_specific_token_probs].
  rewrite Hx. cbn [nth].
  destruct (one_hot_of_chosen indices B E (Z.to_nat L) T His HT) as (oh & Hoh & Hohs).
  { intros b e. exact (proj2 (proj2 (Hsel b e))). }
  rewrite Hoh, bind_Ok_l.
  destruct (FeedForwardECMoe_experts_spec self x values (to_float oh) B T C E Hd
              (Z.to_nat L) w1 w2 act Hx Hvs Hohs Hw1 Hw1s Hact Hw2 Hw2s)
    as (out & weighted & Hout & Houts & _).
  exists out. split; [exact Hout | exact Houts].
Qed.
(** The capacity is the float quotient with its fraction dropped. *)
Lemma tokens_per_expert_of_spec (self : obj) (T : nat) (L : Z) :
  tokens_per_expert_of self T = Ok L ->
  exists capacity scaled num_experts share,
    getattr_float self "expert_capacity" = Ok capacity
    /\ fmul_int capacity (Z.of_nat T) = Ok scaled
    /\ getattr_int self "num_experts" = Ok num_experts
    /\ fdiv_int scaled num_experts = Ok share
    /\ L = Z.quot (fst (exact_fraction share)) (snd (exact_fraction share)).
Proof.
  intros HL. unfold tokens_per_expert_of in HL. repeat inv_bind HL.
  eexists. eexists. eexists. eexists.
  repeat (split; [eassumption |]).
  apply int_of_float_truncates. exact HL.
Qed.

(** C3 (amended). Whenever the capacity the code computes,
    [L = int(expert_capacity * T / num_experts)], lies between 0 and [T],
    the routing completes and every expert in every batch element has
    chosen exactly [L] tokens: the index tensor has shape (B, E, L) and
    each row holds [L] different positions of the sequence. *)
Theorem experts_select_tokens_per_expert
    (self : obj) (x : tensor S) (B T C E : nat) (L : Z) (g : Linear S) :
  shape x = [B; T; C]%nat ->
  tokens_per_expert_of self T = Ok L ->
  getattr self "gate" = Ok (VLinear g) ->
  shape (data (weight g)) = [E; C]%nat ->
  0 <= L <= Z.of_nat T ->
  exists r,
    FeedForwardECMoe_route self x = Ok r
    /\ tokens_per_expert r = L
    /\ shape (expert_specific_tokens r) = [B; E; Z.to_nat L]%nat
    /\ forall b e,
        length (selected_tokens r b e) = Z.to_nat L
        /\ NoDup (selected_tokens r b e)
        /\ Forall (fun i => (i < T)%nat) (selected_tokens r b e).
Proof.
  intros Hx HL Hg Hgs Hrange.
  destruct (route_reduces self x B T C E L g Hx HL Hg Hgs) as (probs & Hps & Hroute).
  destruct (topk_in_range probs B E T L Hps Hrange)
    as (values & indices & Htopk & _ & His & Hsel).
  rewrite Hroute, Htopk, bind_Ok_l.
  eexists. split; [reflexivity |]. split; [reflexivity |]. split; [exact His |].
  intros b e. exact (Hsel b e).
Qed.

(** C4 (amended). The division does not keep the capacity below the
    sequence length; [torch.topk] does: the routing completes exactly
    when [0 <= L <= T], and for [L > T] the call raises. *)
Theorem capacity_checked_by_topk
    (self : obj) (x : tensor S) (B T C E : nat) (L : Z) (g : Linear S) :
  shape x = [B; T; C]%nat ->
  tokens_per_expert_of self T = Ok L ->
  getattr self "gate" = Ok (VLinear g) ->
  shape (data (weight g)) = [E; C]%nat ->
  (returns (FeedForwardECMoe_route self x) <-> 0 <= L <= Z.of_nat T)
  /\ (Z.of_nat T < L ->
      FeedForwardECMoe_forward self x
      = Raise (RuntimeError "selected index k out of range")).
Proof.
  intros Hx HL Hg Hgs.
  destruct (route_reduces self x B T C E L g Hx HL Hg Hgs) as (probs & Hps & Hroute).
  assert (Hout : ~ (0 <= L <= Z.of_nat T) ->
                 FeedForwardECMoe_route self x
                 = Raise (RuntimeError "selected index k out of range")).
  { intros Hn. rewrite Hroute, (topk_out_of_range probs B E T L Hps Hn). reflexivity. }
  split; [split |].
  - intros [r Hr].
    destruct (Z_le_dec 0 L) as [H0 | H0]; [destruct (Z_le_dec L (Z.of_nat T)) as [HT | HT] |].
    + split; assumption.
    + rewrite Hout in Hr by lia. discriminate Hr.
    + rewrite Hout in Hr by lia. discriminate Hr.
  - intros Hrange.
    destruct (topk_in_range probs B E T L Hps Hrange) as (values & indices & Htopk & _).
    rewrite Hroute, Htopk, bind_Ok_l. eexists. reflexivity.
  - intros Hbig. unfold FeedForwardECMoe_forward. rewrite Hout by lia. reflexivity.
Qed.

(** *** DiTBlock: weight_init_std *)

Lemma literal_0_1 : literal 0 1 = S754_zero false.
Proof. vm_compute. reflexivity. Qed.

Lemma literal_1_1 : literal 1 1 = S754_finite false 4503599627370496 (-52).
Proof. vm_compute. reflexivity. Qed.

(** Rounding shifts a mantissa to the right only: the exponent does not
    go down, and the sign is the one asked for. *)
Lemma shr_fexp_exponent (m e : Z) (l : location) :
  e <= snd (shr_fexp prec emax m e l).
Proof.
  unfold shr_fexp, shr.
  destruct (fexp prec emax (Zdigits2 m + e) - e) as [| n | n]; cbn [snd]; lia.
Qed.

Lemma binary_round_aux_positive (m e : Z) (l : location) :
  match binary_round_aux prec emax false m e l with
  | S754_zero s => s = false
  | S754_infinity s => s = false
  | S754_nan => True
  | S754_finite s _ e' => s = false /\ e <= e'
  end.
Proof.
  unfold binary_round_aux.
  pose proof (shr_fexp_exponent m e l) as H1.
  destruct (shr_fexp prec emax m e l) as [mrs' e'].
  pose proof (shr_fexp_exponent (round_nearest_even (shr_m mrs') (loc_of_shr_record mrs'))
                e' loc_Exact) as H2.
  destruct (shr_fexp prec emax _ e' loc_Exact) as [mrs'' e''].
  cbn [snd] in H1, H2.
  destruct (shr_m mrs'') as [| mz | mz]; [reflexivity | | exact I].
  destruct (e'' <=? emax - prec); [split; [reflexivity | lia] | reflexivity].
Qed.

Lemma digits2_pos_ge_2 (p : positive) : (2 <= p)%positive -> 2 <= Zpos (digits2_pos p).
Proof. destruct p as [q | q |]; cbn [digits2_pos]; lia. Qed.

(** An int above 1 converts to a float that is not negative, and when
    finite and not zero has an exponent above that of [1.0]. *)
Lemma float_of_int_positive (z : Z) (b : float) :
  2 <= z ->
  float_of_int z = Ok b ->
  b = S754_zero false \/ exists m e, b = S754_finite false m e /\ -52 < e.
Proof.
  intros Hz Hb. unfold float_of_int in Hb.
  destruct z as [| p | p]; try lia. cbn [binary_normalize] in Hb.
  unfold binary_round in Hb.
  pose proof (digits2_pos_ge_2 p ltac:(lia)) as Hd.
  assert (Hfexp : -51 <= fexp prec emax (Zpos (digits2_pos p) + 0)).
  { unfold fexp, prec. lia. }
  unfold shl_align in Hb.
  set (ex' := fexp prec emax (Zpos (digits2_pos p) + 0)) in *.
  assert (Hez : forall mz ez,
             match ex' - 0 with
             | Zneg d => (Pos.iter xO p d, ex')
             | _ => (p, 0)
             end = (mz, ez) -> -51 <= ez).
  { intros mz ez. destruct (ex' - 0) as [| d | d] eqn:E; intros Heq;
      injection Heq as _ <-; lia. }
  destruct (match ex' - 0 with
            | Zneg d => (Pos.iter xO p d, ex')
            | _ => (p, 0)
            end) as [mz ez] eqn:Ealign.
  specialize (Hez mz ez eq_refl).
  pose proof (binary_round_aux_positive (Zpos mz) ez loc_Exact) as Hround.
  destruct (binary_round_aux prec emax false (Zpos mz) ez loc_Exact) as [s | s | | s m e];
    cbn [is_finite] in Hb; try discriminate Hb; injection Hb as <-.
  - left. rewrite Hround. reflexivity.
  - right. destruct Hround as [-> He]. exists m, e. split; [reflexivity | lia].
Qed.

(** [iv ** 0.5] for such a float goes to the library's [pow]. *)
Lemma float_pow_half_positive (m : positive) (e : Z) :
  -52 < e ->
  float_pow_half (S754_finite false m e)
  = Float (libm_pow (S754_finite false m e) (literal 1 2)).
Proof.
  intros He. unfold float_pow_half. rewrite literal_0_1, literal_1_1.
  cbn [SFeqb SFltb SFcompare].
  destruct (Z.compare_spec e (-52)) as [Heq | Hlt | Hgt]; try lia.
  reflexivity.
Qed.

(** [DiTBlock.__init__] stores what lines 234-237 compute. *)
Lemma DiTBlock_init_stores_weight_init_std
    (n_embd head_size : Z) (mlp_n_hidden_mult qkv_n_hidden_mult : float)
    (hidden_base_mult pooled_caption_n_embd : Z) (norm_eps : float)
    (depth_init : bool) (block_index num_blocks : Z)
    (scale_cx_attn_n_hidden use_bias use_moe : bool)
    (num_experts : Z) (expert_capacity : float) (self : obj) :
  DiTBlock_init n_embd head_size mlp_n_hidden_mult qkv_n_hidden_mult hidden_base_mult
    pooled_caption_n_embd norm_eps depth_init block_index num_blocks
    scale_cx_attn_n_hidden use_bias use_moe num_experts expert_capacity = Ok self ->
  exists std,
    weight_init_std_of depth_init block_index num_blocks = Ok std
    /\ getattr self "weight_init_std" = Ok std.
Proof.
  intros Hinit. unfold DiTBlock_init in Hinit. repeat inv_bind Hinit.
  inversion Hinit; subst self; clear Hinit.
  lazymatch goal with
  | Hstd : weight_init_std_of _ _ _ = Ok ?std,
    Hset : setattr _ "weight_init_std" ?std = Ok _ |- _ =>
      exists std; split; [exact Hstd | exact (setattr_getattr _ _ _ _ Hset)]
  end.
Qed.

(** Lines 234-237 for a base above 1, whenever they return. *)
Lemma weight_init_std_of_positive (depth_init : bool) (block_index num_blocks : Z)
    (std : pyval) :
  0 <= block_index -> 1 <= num_blocks ->
  weight_init_std_of depth_init block_index num_blocks = Ok std ->
  exists b w,
    float_of_int (if depth_init then 3 * (block_index + 1) else 3 * num_blocks) = Ok b
    /\ SFltb b (literal 0 1) = false
    /\ fdiv (literal 2 100) (libm_pow b (literal 1 2)) = Ok w
    /\ std = VFloat w.
Proof.
  intros Hb Hn Hstd. unfold weight_init_std_of, pow_half in Hstd.
  set (base := if depth_init then 3 * (block_index + 1) else 3 * num_blocks) in *.
  assert (Hbase : 2 <= base) by (unfold base; destruct depth_init; lia).
  destruct (float_of_int base) as [b | err] eqn:Eb; [| discriminate Hstd].
  rewrite !bind_Ok_l in Hstd.
  destruct (float_of_int_positive base b Hbase Eb) as [-> | (m & e & -> & He)].
  - exfalso. unfold float_pow_half in Hstd. rewrite literal_0_1 in Hstd.
    cbn in Hstd. discriminate Hstd.
  - rewrite (float_pow_half_positive m e He) in Hstd. cbn [truediv] in Hstd.
    destruct (fdiv (literal 2 100) (libm_pow (S754_finite false m e) (literal 1 2)))
      as [w | err] eqn:Ew; [| discriminate Hstd].
    rewrite bind_Ok_l in Hstd. injection Hstd as <-.
    exists (S754_finite false m e), w.
    split; [reflexivity |]. split; [rewrite literal_0_1; reflexivity |].
    split; [exact Ew | reflexivity].
Qed.

(** C6 (amended). For every constructed [DiTBlock] with
    [block_index >= 0] and [num_blocks >= 1], [weight_init_std] is the
    float [0.02 / b ** 0.5], where [b] is [3 * (block_index + 1)] with
    [depth_init] and [3 * num_blocks] without, converted to a float, and
    [b ** 0.5] is the C library's [pow(b, 0.5)]; it is
    [0.02 / math.sqrt(b)] wherever that [pow] returns the correctly
    rounded square root.  Block 0 with [depth_init] gets [0.02 / 3.0 ** 0.5],
    and without [depth_init] every block of 12 gets [0.02 / 36.0 ** 0.5]. *)
Theorem weight_init_std_formula :
  (forall (n_embd head_size : Z) (mlp_n_hidden_mult qkv_n_hidden_mult : float)
          (hidden_base_mult pooled_caption_n_embd : Z) (norm_eps : float)
          (depth_init : bool) (block_index num_blocks : Z)
          (scale_cx_attn_n_hidden use_bias use_moe : bool)
          (num_experts : Z) (expert_capacity : float) (self : obj),
      0 <= block_index -> 1 <= num_blocks ->
      DiTBlock_init n_embd head_size mlp_n_hidden_mult qkv_n_hidden_mult hidden_base_mult
        pooled_caption_n_embd norm_eps depth_init block_index num_blocks
        scale_cx_attn_n_hidden use_bias use_moe num_experts expert_capacity = Ok self ->
      exists b w : float,
        float_of_int (if depth_init then 3 * (block_index + 1) else 3 * num_blocks) = Ok b
        /\ getattr self "weight_init_std" = Ok (VFloat w)
        /\ fdiv (literal 2 100) (libm_pow b (literal 1 2)) = Ok w
        /\ (libm_pow b (literal 1 2) = SFsqrt prec emax b ->
            (let* root := math_sqrt b in fdiv (literal 2 100) root) = Ok w))
  /\ weight_init_std_of true 0 12
     = (let* w := fdiv (literal 2 100) (libm_pow (literal 3 1) (literal 1 2)) in
        Ok (VFloat w : pyval))
  /\ (forall block_index : Z,
        weight_init_std_of false block_index 12
        = (let* w := fdiv (literal 2 100) (libm_pow (literal 36 1) (literal 1 2)) in
           Ok (VFloat w : pyval))).
Proof.
  assert (Hconst : forall (base : Z) (m : positive) (e : Z),
             float_of_int base = Ok (S754_finite false m e) -> -52 < e ->
             (let* root := pow_half base in
              let* std := truediv (literal 2 100) root in
              Ok (value_of_number std))
             = (let* w := fdiv (literal 2 100)
                               (libm_pow (S754_finite false m e) (literal 1 2)) in
                Ok (VFloat w : pyval))).
  { intros base m e Hb He. unfold pow_half. rewrite Hb, !bind_Ok_l.
    rewrite (float_pow_half_positive m e He). cbn [truediv].
    destruct (fdiv (literal 2 100) (libm_pow (S754_finite false m e) (literal 1 2)));
      reflexivity. }
  split; [| split].
  - intros until self. intros Hb Hn Hinit.
    destruct (DiTBlock_init_stores_weight_init_std _ _ _ _ _ _ _ _ _ _ _ _ _ _ _ _ Hinit)
      as (std & Hstd & Hget).
    destruct (weight_init_std_of_positive _ _ _ std Hb Hn Hstd)
      as (b & w & Hfloat & Hsign & Hw & ->).
    exists b, w. split; [exact Hfloat |]. split; [exact Hget |]. split; [exact Hw |].
    intros Hpow. unfold math_sqrt. rewrite Hsign, bind_Ok_l, <- Hpow. exact Hw.
  - unfold weight_init_std_of.
    apply (Hconst (3 * (0 + 1)) 6755399441055744%positive (-51));
      [vm_compute; reflexivity | lia].
  - intros block_index. unfold weight_init_std_of.
    apply (Hconst (3 * 12) 5066549580791808%positive (-47));
      [vm_compute; reflexivity | lia].
Qed.

(** *** FeedForwardNetwork: custom_init *)

Lemma getattr_linear_of (self : obj) (name : string) (l : Linear S) :
  getattr self name = Ok (VLinear l) -> getattr_linear self name = Ok l.
Proof. intros Hg. unfold getattr_linear. rewrite Hg. reflexivity. Qed.

Lemma getattr_mutate_same (self : obj) (name : string) (v : pyval) :
  getattr (mutate self name v) name = Ok v.
Proof. unfold getattr, mutate. simpl. rewrite lookup_store_same. reflexivity. Qed.

Lemma getattr_mutate_other (self : obj) (name other : string) (v : pyval) :
  String.eqb other name = false ->
  getattr (mutate self name v) other = getattr self other.
Proof.
  intros Hne. unfold getattr, mutate. simpl.
  rewrite lookup_store_other by exact Hne. reflexivity.
Qed.

Lemma drawn_mutate_same (self : obj) (name : string) (l : Linear S) :
  weight_drawn_from (mutate self name (VLinear l)) name = Some (drawn_from (weight l)).
Proof.
  unfold weight_drawn_from, mutate. simpl. rewrite lookup_store_same. reflexivity.
Qed.

Lemma drawn_mutate_other (self : obj) (name other : string) (v : pyval) :
  String.eqb other name = false ->
  weight_drawn_from (mutate self name v) other = weight_drawn_from self other.
Proof.
  intros Hne. unfold weight_drawn_from, mutate. simpl.
  rewrite lookup_store_other by exact Hne. reflexivity.
Qed.

(** What [trunc_normal_] records when it returns. *)
Lemma trunc_normal_drawn (p p' : parameter S) (mean std : float) :
  trunc_normal_ p mean (Float std) = Ok p' ->
  drawn_from p' = TruncNormal mean std (literal (-2) 1) (literal 2 1).
Proof.
  unfold trunc_normal_. intros H. repeat inv_bind H.
  injection H as <-. reflexivity.
Qed.

(** Whether [trunc_normal_] returns depends on [mean] and [std] only. *)
Lemma trunc_normal_returns_any (p q : parameter S) (mean : float) (std : number) :
  returns (trunc_normal_ p mean std) -> returns (trunc_normal_ q mean std).
Proof.
  unfold trunc_normal_. destruct std as [std | re im]; [| intros [a Ha]; discriminate Ha].
  intros [a Ha]. repeat inv_bind Ha.
  repeat lazymatch goal with
         | E : ?r = Ok _ |- context [bind ?r _] => rewrite E, bind_Ok_l
         end.
  eexists. reflexivity.
Qed.

(** A zero standard deviation is refused by the first division. *)
Lemma trunc_normal_zero_std (p : parameter S) (mean std : float) :
  is_zero std = true ->
  trunc_normal_ p mean (Float std) = Raise (ZeroDivisionError "float division by zero").
Proof. intros Hz. unfold trunc_normal_, fdiv. rewrite Hz. reflexivity. Qed.

(** [custom_init] on a layer that has its three [nn.Linear]: three draws
    in a row, each changing one weight in place. *)
Lemma FeedForwardNetwork_custom_init_spec
    (self : obj) (init_std : number) (fc1 fc2 fc3 : Linear S) :
  getattr self "fc1" = Ok (VLinear fc1) ->
  getattr self "fc2" = Ok (VLinear fc2) ->
  getattr self "fc3" = Ok (VLinear fc3) ->
  FeedForwardNetwork_custom_init self init_std
  = (let* w1 := trunc_normal_ (weight fc1) (literal 0 1) (Float (literal 2 100)) in
     let* w2 := trunc_normal_ (weight fc2) (literal 0 1) init_std in
     let* w3 := trunc_normal_ (weight fc3) (literal 0 1) init_std in
     Ok (mutate (mutate (mutate self "fc1" (VLinear (mkLinear w1 (bias fc1))))
                        "fc2" (VLinear (mkLinear w2 (bias fc2))))
                "fc3" (VLinear (mkLinear w3 (bias fc3))))).
Proof.
  intros H1' H2' H3'. unfold FeedForwardNetwork_custom_init.
  rewrite (getattr_linear_of _ _ _ H1'), bind_Ok_l. unfold redraw_weight.
  destruct (trunc_normal_ (weight fc1) (literal 0 1) (Float (literal 2 100))) as [w1 | e];
    [| reflexivity].
  rewrite !bind_Ok_l. unfold getattr_linear.
  rewrite (getattr_mutate_other self "fc1" "fc2") by reflexivity.
  rewrite H2', !bind_Ok_l.
  rewrite (getattr_mutate_other self "fc1" "fc3") by reflexivity.
  rewrite H3', !bind_Ok_l. cbn [fold_left]. rewrite !bind_Ok_l.
  destruct (trunc_normal_ (weight fc2) (literal 0 1) init_std) as [w2 | e];
    [| reflexivity].
  rewrite !bind_Ok_l. reflexivity.
Qed.

(** What the three draws leave in the layer. *)
Lemma FeedForwardNetwork_custom_init_Ok
    (self self' : obj) (init_std : float) (fc1 fc2 fc3 : Linear S) :
  getattr self "fc1" = Ok (VLinear fc1) ->
  getattr self "fc2" = Ok (VLinear fc2) ->
  getattr self "fc3" = Ok (VLinear fc3) ->
  FeedForwardNetwork_custom_init self (Float init_std) = Ok self' ->
  weight_drawn_from self' "fc1"
  = Some (TruncNormal (literal 0 1) (literal 2 100) (literal (-2) 1) (literal 2 1))
  /\ weight_drawn_from self' "fc2"
     = Some (TruncNormal (literal 0 1) init_std (literal (-2) 1) (literal 2 1))
  /\ weight_drawn_from self' "fc3"
     = Some (TruncNormal (literal 0 1) init_std (literal (-2) 1) (literal 2 1)).
Proof.
  intros H1' H2' H3' Hinit.
  rewrite (FeedForwardNetwork_custom_init_spec self _ fc1 fc2 fc3 H1' H2' H3') in Hinit.
  destruct (trunc_normal_ (weight fc1) _ _) as [w1 | e] eqn:E1; [| discriminate Hinit].
  destruct (trunc_normal_ (weight fc2) _ _) as [w2 | e] eqn:E2; [| discriminate Hinit].
  destruct (trunc_normal_ (weight fc3) _ _) as [w3 | e] eqn:E3; [| discriminate Hinit].
  rewrite !bind_Ok_l in Hinit. injection Hinit as <-.
  split; [| split].
  - rewrite (drawn_mutate_other _ "fc3" "fc1"), (drawn_mutate_other _ "fc2" "fc1")
      by reflexivity.
    rewrite drawn_mutate_same. cbn [weight]. f_equal. exact (trunc_normal_drawn _ _ _ _ E1).
  - rewrite (drawn_mutate_other _ "fc3" "fc2") by reflexivity.
    rewrite drawn_mutate_same. cbn [weight]. f_equal. exact (trunc_normal_drawn _ _ _ _ E2).
  - rewrite drawn_mutate_same. cbn [weight]. f_equal. exact (trunc_normal_drawn _ _ _ _ E3).
Qed.

(** When the three draws are accepted. *)
Lemma FeedForwardNetwork_custom_init_returns
    (self : obj) (init_std : number) (fc1 fc2 fc3 : Linear S) :
  getattr self "fc1" = Ok (VLinear fc1) ->
  getattr self "fc2" = Ok (VLinear fc2) ->
  getattr self "fc3" = Ok (VLinear fc3) ->
  returns (FeedForwardNetwork_custom_init self init_std)
  <-> returns (trunc_normal_ (weight fc1) (literal 0 1) (Float (literal 2 100)))
      /\ returns (trunc_normal_ (weight fc2) (literal 0 1) init_std).
Proof.
  intros H1' H2' H3'.
  rewrite (FeedForwardNetwork_custom_init_spec self _ fc1 fc2 fc3 H1' H2' H3').
  split.
  - intros [self' Hr].
    destruct (trunc_normal_ (weight fc1) _ _) as [w1 | e]; [| discriminate Hr].
    destruct (trunc_normal_ (weight fc2) _ _) as [w2 | e]; [| discriminate Hr].
    split; eexists; reflexivity.
  - intros [[w1 E1] R2].
    destruct (trunc_normal_returns_any _ (weight fc3) _ _ R2) as [w3 E3].
    destruct R2 as [w2 E2].
    rewrite E1, E2, E3, !bind_Ok_l. eexists. reflexivity.
Qed.

(** C8 (amended). [FeedForwardNetwork.custom_init] draws [fc1.weight]
    with the fixed standard deviation 0.02, and both [fc2.weight] (the
    second up-projection) and [fc3.weight] (the down-projection) with
    [init_std]; all three from a normal law of mean 0 cut to [-2, 2].  It
    returns exactly when [trunc_normal_] accepts the two standard
    deviations; [init_std == 0.0] is refused with [ZeroDivisionError]. *)
Theorem FeedForwardNetwork_custom_init_draws
    (self : obj) (init_std : float) (fc1 fc2 fc3 : Linear S) :
  getattr self "fc1" = Ok (VLinear fc1) ->
  getattr self "fc2" = Ok (VLinear fc2) ->
  getattr self "fc3" = Ok (VLinear fc3) ->
  (returns (FeedForwardNetwork_custom_init self (Float init_std))
   <-> returns (trunc_normal_ (weight fc1) (literal 0 1) (Float (literal 2 100)))
       /\ returns (trunc_normal_ (weight fc2) (literal 0 1) (Float init_std)))
  /\ (forall self' : obj,
        FeedForwardNetwork_custom_init self (Float init_std) = Ok self' ->
        weight_drawn_from self' "fc1"
        = Some (TruncNormal (literal 0 1) (literal 2 100) (literal (-2) 1) (literal 2 1))
        /\ weight_drawn_from self' "fc2"
           = Some (TruncNormal (literal 0 1) init_std (literal (-2) 1) (literal 2 1))
        /\ weight_drawn_from self' "fc3"
           = Some (TruncNormal (literal 0 1) init_std (literal (-2) 1) (literal 2 1)))
  /\ (is_zero init_std = true ->
      returns (trunc_normal_ (weight fc1) (literal 0 1) (Float (literal 2 100))) ->
      FeedForwardNetwork_custom_init self (Float init_std)
      = Raise (ZeroDivisionError "float division by zero")).
Proof.
  intros H1' H2' H3'. split; [| split].
  - exact (FeedForwardNetwork_custom_init_returns self _ fc1 fc2 fc3 H1' H2' H3').
  - intros self'. exact (FeedForwardNetwork_custom_init_Ok self self' _ fc1 fc2 fc3 H1' H2' H3').
  - intros Hz [w1 E1].
    rewrite (FeedForwardNetwork_custom_init_spec self _ fc1 fc2 fc3 H1' H2' H3').
    rewrite E1, bind_Ok_l, (trunc_normal_zero_std _ _ _ Hz). reflexivity.
Qed.

(** *** DiTBlock: forward *)

(** Line 252 asks the gate tensor for a method it does not have. *)
Lemma DiTBlock_self_attention_raises (self : obj) (st : locals) :
  DiTBlock_self_attention self st
  = Raise (AttributeError "'Tensor' object has no attribute 'unqueeze'").
Proof. reflexivity. Qed.

(** C1. [DiTBlock.forward] returns no tensor at all: every call raises,
    and once line 247 has produced the six modulation tensors the
    exception is the [AttributeError] of [gate_msa.unqueeze] on line 252. *)
Theorem DiTBlock_forward_raises (self : obj) (x c t : tensor S) :
  raises (DiTBlock_forward self x c t)
  /\ match DiTBlock_modulation self x c t with
     | Ok _ => DiTBlock_forward self x c t
               = Raise (AttributeError "'Tensor' object has no attribute 'unqueeze'")
     | Raise e => DiTBlock_forward self x c t = Raise e
     end.
Proof.
  unfold DiTBlock_forward.
  destruct (DiTBlock_modulation self x c t) as [st | e]; simpl.
  - split; [apply Raise_raises | reflexivity].
  - split; [apply Raise_raises | reflexivity].
Qed.

(** Line 253 on its own: the normalised [x] goes to [cx_attn] as it is,
    and the result is added to [x]. *)
Lemma DiTBlock_cross_attention_spec
    (self : obj) (st : locals) (cx_attn ln2 : pyval) (normed attended : tensor S) :
  getattr self "cx_attn" = Ok cx_attn ->
  getattr self "ln2" = Ok ln2 ->
  call_module ln2 [var_x st] = Ok normed ->
  call_module cx_attn [normed; var_c st] = Ok attended ->
  DiTBlock_cross_attention self st
  = (let* x' := add (var_x st) attended in Ok (set_x st x')).
Proof.
  intros Hcx Hln Hn Ha. unfold DiTBlock_cross_attention.
  rewrite Hcx, bind_Ok_l, Hln, bind_Ok_l, Hn, bind_Ok_l, Ha, bind_Ok_l.
  reflexivity.
Qed.


(** Line 254 on its own: modulated before [mlp], gated after it. *)
Lemma DiTBlock_feed_forward_spec
    (self : obj) (st : locals) (mlp ln3 : pyval)
    (gate normed modulated transformed : tensor S) :
  unsqueeze (gate_mlp st) 1 = Ok gate ->
  getattr self "mlp" = Ok mlp ->
  getattr self "ln3" = Ok ln3 ->
  call_module ln3 [var_x st] = Ok normed ->
  modulate normed (shift_mlp st) (scale_mlp st) = Ok modulated ->
  call_module mlp [modulated] = Ok transformed ->
  DiTBlock_feed_forward self st
  = (let* gated := mul gate transformed in
     let* x' := add (var_x st) gated in
     Ok (set_x st x')).
Proof.
  intros Hg Hm Hl Hn Hmod Ht. unfold DiTBlock_feed_forward, call_method.
  cbn [tensor_method String.eqb Ascii.eqb Bool.eqb].
  rewrite Hg, bind_Ok_l, Hm, bind_Ok_l, Hl, bind_Ok_l, Hn, bind_Ok_l.
  rewrite Hmod, bind_Ok_l, Ht, bind_Ok_l. reflexivity.
Qed.

(** *** FeedForwardNetwork: the constructed layers and forward *)

Lemma nn_Linear_Ok (in_features out_features : Z) (use_bias : bool) (l : Linear S) :
  nn_Linear in_features out_features use_bias = Ok l ->
  0 <= in_features /\ 0 <= out_features
  /\ shape (data (weight l)) = [Z.to_nat out_features; Z.to_nat in_features]
  /\ (if use_bias
      then exists b, bias l = Some b /\ shape (data b) = [Z.to_nat out_features]
      else bias l = None).
Proof.
  unfold nn_Linear, negative_dim. cbn [existsb].
  destruct (Z.ltb_spec out_features 0) as [Hneg | Ho]; [discriminate |].
  destruct (Z.ltb_spec in_features 0) as [Hneg | Hi]; [discriminate |].
  cbn [orb]. intros Hl. injection Hl as <-. cbn [weight bias data shape].
  split; [exact Hi |]. split; [exact Ho |]. split; [reflexivity |].
  destruct use_bias; [eexists; split; reflexivity | reflexivity].
Qed.

(** What [FeedForwardNetwork.__init__] returns. *)
Lemma FeedForwardNetwork_init_Ok
    (n_embd n_hidden hidden_base_mult : Z) (use_bias : bool) (self : obj) :
  FeedForwardNetwork_init n_embd n_hidden hidden_base_mult use_bias = Ok self ->
  exists h fc1 fc2 fc3,
    round_up_hidden n_hidden hidden_base_mult = Ok h
    /\ nn_Linear n_embd h use_bias = Ok fc1
    /\ nn_Linear n_embd h use_bias = Ok fc2
    /\ nn_Linear h n_embd use_bias = Ok fc3
    /\ self = Obj "FeedForwardNetwork" true
                [("n_hidden", VInt h); ("fc1", VLinear fc1); ("fc2", VLinear fc2);
                 ("fc3", VLinear fc3)].
Proof.
  unfold FeedForwardNetwork_init. intros Hinit.
  destruct (truediv_int (2 * n_hidden) 3) as [f | e]; [| discriminate Hinit].
  rewrite bind_Ok_l in Hinit.
  destruct (int_of_float f) as [h0 | e]; [| discriminate Hinit].
  rewrite bind_Ok_l in Hinit. revert Hinit. run_attrs.
  destruct (round_up_hidden n_hidden hidden_base_mult) as [h | e];
    [| intros Hinit; cbn [bind] in Hinit; discriminate Hinit].
  unfold getattr_int, getattr. run_attrs.
  destruct (nn_Linear n_embd h use_bias) as [fc | e] eqn:Hfc;
    [| intros Hinit; cbn [bind] in Hinit; discriminate Hinit].
  run_attrs. rewrite Hfc. run_attrs.
  destruct (nn_Linear h n_embd use_bias) as [fc3 | e] eqn:Hfc3;
    [| intros Hinit; cbn [bind] in Hinit; discriminate Hinit].
  run_attrs. intros Hinit. injection Hinit as <-.
  exists h, fc, fc, fc3. repeat (split; [reflexivity || assumption |]). reflexivity.
Qed.

Lemma broadcast_shapes_refl (sh : list nat) : broadcast_shapes sh sh = Ok sh.
Proof.
  unfold broadcast_shapes. rewrite broadcast_rev_refl, bind_Ok_l, rev_involutive.
  reflexivity.
Qed.

(** An index within the shape is read as it is. *)
Lemma broadcast_index_in_range (sh idx : list nat) :
  Forall2 (fun i d => (i < d)%nat) idx sh -> broadcast_index sh idx = idx.
Proof.
  intros Hin. unfold broadcast_index.
  rewrite (Forall2_length Hin), Nat.sub_diag. cbn [skipn].
  induction Hin as [| i d idx sh Hi Hin IH]; [reflexivity |].
  cbn [combine map]. rewrite IH. f_equal.
  destruct (Nat.eqb_spec d 1) as [E | _]; [lia | reflexivity].
Qed.

(** [F.linear] on an input whose last dimension is the layer's input
    width. *)
Lemma linear_Ok (x w : tensor S) (b : option (tensor S)) (batch : list nat)
    (inn out : nat) :
  shape x = batch ++ [inn] -> shape w = [out; inn] ->
  linear x w b
  = Ok (mkTensor (batch ++ [out])
          (fun idx =>
             let o := last idx 0%nat in
             let dot := sum_list (map (fun c => s_mul (at_ x (removelast idx ++ [c]))
                                                      (at_ w [o; c]))
                                      (seq 0 inn)) in
             match b with
             | Some b => s_add dot (at_ b [o])
             | None => dot
             end)).
Proof.
  intros Hx Hw. unfold linear. rewrite Hw, Hx.
  unfold last_dim, batch_dims. rewrite last_last, removelast_last, Nat.eqb_refl.
  destruct batch; reflexivity.
Qed.

(** [F.linear] refuses every other input. *)
Lemma linear_mismatch (x w : tensor S) (b : option (tensor S)) (inn out : nat) :
  shape w = [out; inn] ->
  shape x = [] \/ last_dim (shape x) <> inn ->
  exists msg, linear x w b = Raise (RuntimeError msg).
Proof.
  intros Hw Hx. unfold linear. rewrite Hw.
  destruct (shape x) as [| d sh] eqn:Hs.
  - eexists. reflexivity.
  - destruct Hx as [Hx | Hx]; [discriminate Hx |].
    destruct (Nat.eqb_spec (last_dim (d :: sh)) inn) as [E | _]; [contradiction |].
    eexists. reflexivity.
Qed.

Lemma shape_split_last (sh : list nat) :
  sh <> [] -> sh = batch_dims sh ++ [last_dim sh].
Proof. intros Hne. apply app_removelast_last. exact Hne. Qed.

(** [forward] with the three layers looked up. *)
Lemma FeedForwardNetwork_forward_layers (self : obj) (x : tensor S)
    (fc1 fc2 fc3 : Linear S) :
  getattr self "fc1" = Ok (VLinear fc1) ->
  getattr self "fc2" = Ok (VLinear fc2) ->
  getattr self "fc3" = Ok (VLinear fc3) ->
  FeedForwardNetwork_forward self x
  = (let* a := Linear_forward fc1 x in
     let* b := Linear_forward fc2 x in
     let* ab := mul (map_tensor s_silu a) b in
     Linear_forward fc3 ab).
Proof.
  intros H1' H2' H3'. unfold FeedForwardNetwork_forward, getattr_linear.
  rewrite H3', !bind_Ok_l, H1', !bind_Ok_l.
  destruct (Linear_forward fc1 x) as [a | e]; [| reflexivity].
  rewrite !bind_Ok_l, H2', !bind_Ok_l. reflexivity.
Qed.

(** [forward] on an input of width [n]: the result, entry by entry. *)
Lemma FeedForwardNetwork_forward_value (self : obj) (x : tensor S)
    (fc1 fc2 fc3 : Linear S) (batch : list nat) (n h : nat) :
  getattr self "fc1" = Ok (VLinear fc1) ->
  getattr self "fc2" = Ok (VLinear fc2) ->
  getattr self "fc3" = Ok (VLinear fc3) ->
  shape (data (weight fc1)) = [h; n] ->
  shape (data (weight fc2)) = [h; n] ->
  shape (data (weight fc3)) = [n; h] ->
  shape x = batch ++ [n] ->
  exists y a b,
    FeedForwardNetwork_forward self x = Ok y
    /\ shape y = batch ++ [n]
    /\ Linear_forward fc1 x = Ok a
    /\ Linear_forward fc2 x = Ok b
    /\ forall p o,
        Forall2 (fun i d => (i < d)%nat) p batch ->
        at_ y (p ++ [o])
        = let dot := sum_list
                       (map (fun c => s_mul (s_mul (s_silu (at_ a (p ++ [c])))
                                                   (at_ b (p ++ [c])))
                                            (at_ (data (weight fc3)) [o; c]))
                            (seq 0 h)) in
          match option_map data (bias fc3) with
          | Some b3 => s_add dot (at_ b3 [o])
          | None => dot
          end.
Proof.
  intros H1' H2' H3' Hw1 Hw2 Hw3 Hx.
  rewrite (FeedForwardNetwork_forward_layers self x fc1 fc2 fc3 H1' H2' H3').
  assert (Hlin : forall fc : Linear S, shape (data (weight fc)) = [h; n] ->
             exists a, Linear_forward fc x = Ok a /\ shape a = batch ++ [h]).
  { intros fc Hw. eexists. split; [apply (linear_Ok x _ _ batch n h Hx Hw) | reflexivity]. }
  destruct (Hlin fc1 Hw1) as (a & Ha & Hsa). destruct (Hlin fc2 Hw2) as (b & Hb & Hsb).
  rewrite Ha, Hb, !bind_Ok_l. unfold mul, binary. cbn [shape map_tensor].
  rewrite Hsa, Hsb, broadcast_shapes_refl, !bind_Ok_l.
  unfold Linear_forward.
  eexists. exists a, b.
  split; [erewrite (linear_Ok _ _ _ batch h n); [reflexivity | reflexivity | exact Hw3] |].
  split; [reflexivity |]. split; [reflexivity |]. split; [reflexivity |].
  intros p o Hp. cbn [at_]. rewrite last_last, removelast_last. cbv zeta.
  assert (Hsum : forall g g' : nat -> S,
             (forall c, (c < h)%nat -> g c = g' c) ->
             sum_list (map g (seq 0 h)) = sum_list (map g' (seq 0 h))).
  { intros g g' Hg. f_equal. apply map_ext_in. intros c Hc. apply Hg.
    apply in_seq in Hc. lia. }
  rewrite (Hsum _ (fun c => s_mul (s_mul (s_silu (at_ a (p ++ [c]))) (at_ b (p ++ [c])))
                                  (at_ (data (weight fc3)) [o; c]))).
  - reflexivity.
  - intros c Hc. rewrite broadcast_index_in_range.
    + reflexivity.
    + apply Forall2_app; [exact Hp | constructor; [exact Hc | constructor]].
Qed.

(** [forward] returns on inputs of the layers' width only. *)
Lemma FeedForwardNetwork_forward_Ok_width (self : obj) (z w : tensor S)
    (fc1 fc2 fc3 : Linear S) (n h : nat) :
  getattr self "fc1" = Ok (VLinear fc1) ->
  getattr self "fc2" = Ok (VLinear fc2) ->
  getattr self "fc3" = Ok (VLinear fc3) ->
  shape (data (weight fc1)) = [h; n] ->
  FeedForwardNetwork_forward self z = Ok w ->
  shape z = batch_dims (shape z) ++ [n].
Proof.
  intros Hg1 Hg2 Hg3 Hs1 Hw.
  rewrite (FeedForwardNetwork_forward_layers self z fc1 fc2 fc3 Hg1 Hg2 Hg3) in Hw.
  assert (Hbad : shape z = [] \/ last_dim (shape z) <> n -> False).
  { intros Hbad.
    destruct (linear_mismatch z (data (weight fc1)) (option_map data (bias fc1)) _ _
                Hs1 Hbad) as [msg Hmsg].
    unfold Linear_forward in Hw. rewrite Hmsg in Hw. discriminate Hw. }
  destruct (list_eq_dec Nat.eq_dec (shape z) []) as [Hnil | Hne];
    [exfalso; apply Hbad; left; exact Hnil |].
  destruct (Nat.eq_dec (last_dim (shape z)) n) as [Heq | Hneq];
    [| exfalso; apply Hbad; right; exact Hneq].
  rewrite <- Heq. apply shape_split_last. exact Hne.
Qed.

(** The layers a constructed [FeedForwardNetwork] holds. *)
Lemma FeedForwardNetwork_init_shapes
    (n_embd n_hidden hidden_base_mult : Z) (use_bias : bool) (self : obj) :
  FeedForwardNetwork_init n_embd n_hidden hidden_base_mult use_bias = Ok self ->
  exists h fc1 fc2 fc3,
    round_up_hidden n_hidden hidden_base_mult = Ok h
    /\ 0 <= n_embd /\ 0 <= h
    /\ attrs self = [("n_hidden", VInt h); ("fc1", VLinear fc1); ("fc2", VLinear fc2);
                     ("fc3", VLinear fc3)]
    /\ shape (data (weight fc1)) = [Z.to_nat h; Z.to_nat n_embd]
    /\ shape (data (weight fc2)) = [Z.to_nat h; Z.to_nat n_embd]
    /\ shape (data (weight fc3)) = [Z.to_nat n_embd; Z.to_nat h]
    /\ (if use_bias
        then (exists b, bias fc1 = Some b /\ shape (data b) = [Z.to_nat h])
             /\ (exists b, bias fc2 = Some b /\ shape (data b) = [Z.to_nat h])
             /\ (exists b, bias fc3 = Some b /\ shape (data b) = [Z.to_nat n_embd])
        else bias fc1 = None /\ bias fc2 = None /\ bias fc3 = None).
Proof.
  intros Hinit.
  destruct (FeedForwardNetwork_init_Ok _ _ _ _ _ Hinit)
    as (h & fc1 & fc2 & fc3 & Hh & H1' & H2' & H3' & ->).
  apply nn_Linear_Ok in H1', H2', H3'.
  destruct H1' as (He & Hh0 & Hs1 & Hb1), H2' as (_ & _ & Hs2 & Hb2),
           H3' as (_ & _ & Hs3 & Hb3).
  exists h, fc1, fc2, fc3.
  repeat (split; [first [assumption | reflexivity] |]).
  destruct use_bias; repeat split; assumption.
Qed.

(** X1. A [FeedForwardNetwork] built by its constructor maps every input
    whose last dimension is [n_embd] to a tensor of the shape of the
    input, and raises a [RuntimeError] on every other input (a scalar, or
    another width). *)
Theorem FeedForwardNetwork_forward_shape
    (n_embd n_hidden hidden_base_mult : Z) (use_bias : bool) (self : obj)
    (x : tensor S) :
  FeedForwardNetwork_init n_embd n_hidden hidden_base_mult use_bias = Ok self ->
  (shape x <> [] /\ last_dim (shape x) = Z.to_nat n_embd ->
   exists y, FeedForwardNetwork_forward self x = Ok y /\ shape y = shape x)
  /\ (shape x = [] \/ last_dim (shape x) <> Z.to_nat n_embd ->
      exists msg, FeedForwardNetwork_forward self x = Raise (RuntimeError msg)).
Proof.
  intros Hinit.
  destruct (FeedForwardNetwork_init_shapes _ _ _ _ _ Hinit)
    as (h & fc1 & fc2 & fc3 & _ & _ & _ & Hattrs & Hs1 & Hs2 & Hs3 & _).
  assert (Hg : getattr self "fc1" = Ok (VLinear fc1)
               /\ getattr self "fc2" = Ok (VLinear fc2)
               /\ getattr self "fc3" = Ok (VLinear fc3)).
  { unfold getattr. rewrite Hattrs. repeat split; reflexivity. }
  destruct Hg as (Hg1 & Hg2 & Hg3).
  split.
  - intros [Hne Hlast].
    pose proof (shape_split_last (shape x) Hne) as Hx. rewrite Hlast in Hx.
    destruct (FeedForwardNetwork_forward_value self x fc1 fc2 fc3 _ _ _
                Hg1 Hg2 Hg3 Hs1 Hs2 Hs3 Hx) as (y & _ & _ & Hy & Hys & _).
    exists y. split; [exact Hy |]. rewrite Hys. symmetry. exact Hx.
  - intros Hbad.
    rewrite (FeedForwardNetwork_forward_layers self x fc1 fc2 fc3 Hg1 Hg2 Hg3).
    destruct (linear_mismatch x (data (weight fc1)) (option_map data (bias fc1)) _ _
                Hs1 Hbad) as [msg Hmsg].
    exists msg. unfold Linear_forward. rewrite Hmsg. reflexivity.
Qed.

(** X2. [FeedForwardNetwork.forward] works token by token: the output at
    a position depends on the input at that position only.  Two inputs
    (possibly of different lengths) that agree at position [p] give
    outputs that agree at [p]. *)
Theorem FeedForwardNetwork_forward_tokenwise
    (n_embd n_hidden hidden_base_mult : Z) (use_bias : bool) (self : obj)
    (x x' y y' : tensor S) (p : list nat) :
  FeedForwardNetwork_init n_embd n_hidden hidden_base_mult use_bias = Ok self ->
  FeedForwardNetwork_forward self x = Ok y ->
  FeedForwardNetwork_forward self x' = Ok y' ->
  Forall2 (fun i d => (i < d)%nat) p (batch_dims (shape x)) ->
  Forall2 (fun i d => (i < d)%nat) p (batch_dims (shape x')) ->
  (forall c, (c < Z.to_nat n_embd)%nat -> at_ x (p ++ [c]) = at_ x' (p ++ [c])) ->
  forall o, at_ y (p ++ [o]) = at_ y' (p ++ [o]).
Proof.
  intros Hinit Hy Hy' Hp Hp' Hagree o.
  destruct (FeedForwardNetwork_init_shapes _ _ _ _ _ Hinit)
    as (h & fc1 & fc2 & fc3 & _ & _ & _ & Hattrs & Hs1 & Hs2 & Hs3 & _).
  assert (Hg : getattr self "fc1" = Ok (VLinear fc1)
               /\ getattr self "fc2" = Ok (VLinear fc2)
               /\ getattr self "fc3" = Ok (VLinear fc3)).
  { unfold getattr. rewrite Hattrs. repeat split; reflexivity. }
  destruct Hg as (Hg1 & Hg2 & Hg3).
  assert (Hrow : forall (z w : tensor S) (q : list nat),
             FeedForwardNetwork_forward self z = Ok w ->
             Forall2 (fun i d => (i < d)%nat) q (batch_dims (shape z)) ->
             at_ w (q ++ [o])
             = let lin (fc : Linear S) c :=
                 let dot := sum_list (map (fun k => s_mul (at_ z (q ++ [k]))
                                                          (at_ (data (weight fc)) [c; k]))
                                          (seq 0 (Z.to_nat n_embd))) in
                 match option_map data (bias fc) with
                 | Some b => s_add dot (at_ b [c])
                 | None => dot
                 end in
               let dot := sum_list
                            (map (fun c => s_mul (s_mul (s_silu (lin fc1 c)) (lin fc2 c))
                                                 (at_ (data (weight fc3)) [o; c]))
                                 (seq 0 (Z.to_nat h))) in
               match option_map data (bias fc3) with
               | Some b3 => s_add dot (at_ b3 [o])
               | None => dot
               end).
  { intros z w q Hw Hq.
    pose proof (FeedForwardNetwork_forward_Ok_width self z w fc1 fc2 fc3 _ _
                  Hg1 Hg2 Hg3 Hs1 Hw) as Hz.
    destruct (FeedForwardNetwork_forward_value self z fc1 fc2 fc3 _ _ _
                Hg1 Hg2 Hg3 Hs1 Hs2 Hs3 Hz) as (w0 & a & b & Hw0 & _ & Ha & Hb & Hval).
    rewrite Hw0 in Hw. injection Hw as <-.
    rewrite (Hval q o Hq). cbv zeta.
    unfold Linear_forward in Ha, Hb.
    rewrite (linear_Ok z _ _ _ _ _ Hz Hs1) in Ha.
    rewrite (linear_Ok z _ _ _ _ _ Hz Hs2) in Hb.
    injection Ha as <-. injection Hb as <-.
    assert (Hsum : forall g g' : nat -> S, (forall c, g c = g' c) ->
               sum_list (map g (seq 0 (Z.to_nat h)))
               = sum_list (map g' (seq 0 (Z.to_nat h)))).
    { intros g g' Hgg. f_equal. apply map_ext. exact Hgg. }
    erewrite Hsum; [reflexivity |].
    intros c. cbn [at_]. rewrite last_last, removelast_last. reflexivity. }
  rewrite (Hrow x y p Hy Hp), (Hrow x' y' p Hy' Hp'). cbv zeta.
  assert (Hdot : forall fc : Linear S, forall c : nat,
             sum_list (map (fun k => s_mul (at_ x (p ++ [k])) (at_ (data (weight fc)) [c; k]))
                           (seq 0 (Z.to_nat n_embd)))
             = sum_list (map (fun k => s_mul (at_ x' (p ++ [k])) (at_ (data (weight fc)) [c; k]))
                             (seq 0 (Z.to_nat n_embd)))).
  { intros fc c. f_equal. apply map_ext_in. intros k Hk. apply in_seq in Hk.
    rewrite Hagree by lia. reflexivity. }
  assert (Houter : forall g g' : nat -> S, (forall c, g c = g' c) ->
             sum_list (map g (seq 0 (Z.to_nat h))) = sum_list (map g' (seq 0 (Z.to_nat h)))).
  { intros g g' Hgg. f_equal. apply map_ext. exact Hgg. }
  erewrite Houter; [reflexivity |].
  intros c. cbv beta. rewrite !Hdot. reflexivity.
Qed.

(** X3. A constructed [FeedForwardNetwork] has [3 * n_embd * H]
    weights, [H] the stored [n_hidden], and [2 * H + n_embd] biases more
    when [use_bias] is set. *)
Theorem FeedForwardNetwork_parameters_numel
    (n_embd n_hidden hidden_base_mult : Z) (use_bias : bool) (self : obj) :
  FeedForwardNetwork_init n_embd n_hidden hidden_base_mult use_bias = Ok self ->
  exists h,
    getattr self "n_hidden" = Ok (VInt h)
    /\ 0 <= h /\ 0 <= n_embd
    /\ Z.of_nat (parameters_numel self)
       = 3 * n_embd * h + (if use_bias then 2 * h + n_embd else 0).
Proof.
  intros Hinit.
  destruct (FeedForwardNetwork_init_shapes _ _ _ _ _ Hinit)
    as (h & fc1 & fc2 & fc3 & _ & He & Hh & Hattrs & Hs1 & Hs2 & Hs3 & Hb).
  exists h. split; [unfold getattr; rewrite Hattrs; reflexivity |].
  split; [exact Hh |]. split; [exact He |].
  unfold parameters_numel. rewrite Hattrs.
  cbn [map fold_right numel_of_value]. unfold numel. rewrite Hs1, Hs2, Hs3.
  destruct use_bias.
  - destruct Hb as ((b1 & -> & Hb1) & (b2 & -> & Hb2) & (b3 & -> & Hb3)).
    rewrite Hb1, Hb2, Hb3. cbn [numel_of fold_right]. lia.
  - destruct Hb as (-> & -> & ->). cbn [numel_of fold_right]. lia.
Qed.

(** X4. [FeedForwardNetwork.custom_init] changes the three weight
    tensors and nothing else: whenever it returns, the biases of the
    three layers and every other attribute are as before, and no
    attribute is added or removed. *)
Theorem FeedForwardNetwork_custom_init_keeps
    (self self' : obj) (init_std : float) (fc1 fc2 fc3 : Linear S) :
  getattr self "fc1" = Ok (VLinear fc1) ->
  getattr self "fc2" = Ok (VLinear fc2) ->
  getattr self "fc3" = Ok (VLinear fc3) ->
  FeedForwardNetwork_custom_init self (Float init_std) = Ok self' ->
  exists fc1' fc2' fc3' : Linear S,
    getattr self' "fc1" = Ok (VLinear fc1') /\ bias fc1' = bias fc1
    /\ getattr self' "fc2" = Ok (VLinear fc2') /\ bias fc2' = bias fc2
    /\ getattr self' "fc3" = Ok (VLinear fc3') /\ bias fc3' = bias fc3
    /\ (forall name,
          name <> "fc1" -> name <> "fc2" -> name <> "fc3" ->
          getattr self' name = getattr self name)
    /\ map fst (attrs self') = map fst (attrs self).
Proof.
  intros H1' H2' H3' Hinit.
  rewrite (FeedForwardNetwork_custom_init_spec self _ fc1 fc2 fc3 H1' H2' H3') in Hinit.
  destruct (trunc_normal_ (weight fc1) _ _) as [w1 | e]; [| discriminate Hinit].
  destruct (trunc_normal_ (weight fc2) _ _) as [w2 | e]; [| discriminate Hinit].
  destruct (trunc_normal_ (weight fc3) _ _) as [w3 | e]; [| discriminate Hinit].
  rewrite !bind_Ok_l in Hinit. injection Hinit as <-.
  eexists. eexists. eexists.
  split.
  { rewrite (getattr_mutate_other _ "fc3" "fc1"), (getattr_mutate_other _ "fc2" "fc1")
      by reflexivity.
    apply getattr_mutate_same. }
  split; [reflexivity |]. split.
  { rewrite (getattr_mutate_other _ "fc3" "fc2") by reflexivity.
    apply getattr_mutate_same. }
  split; [reflexivity |]. split; [apply getattr_mutate_same |].
  split; [reflexivity |]. split.
  - intros name N1 N2 N3.
    rewrite !getattr_mutate_other by (apply String.eqb_neq; assumption).
    reflexivity.
  - unfold mutate. cbn [attrs].
    pose proof (getattr_lookup _ _ _ H1') as L1.
    pose proof (getattr_lookup _ _ _ H2') as L2.
    pose proof (getattr_lookup _ _ _ H3') as L3.
    rewrite !store_keys by (repeat apply lookup_store_keeps; assumption).
    reflexivity.
Qed.

(** X5. With a positive base unit the stored [n_hidden] is the least
    multiple of [hidden_base_mult] that is not below the requested width:
    a width that is a multiple already is stored unchanged. *)
Theorem FeedForwardNetwork_n_hidden_least
    (n_embd n_hidden hidden_base_mult : Z) (use_bias : bool) (self : obj) :
  0 < hidden_base_mult ->
  FeedForwardNetwork_init n_embd n_hidden hidden_base_mult use_bias = Ok self ->
  exists h,
    getattr self "n_hidden" = Ok (VInt h)
    /\ (forall m, (hidden_base_mult | m) -> n_hidden <= m -> h <= m)
    /\ ((hidden_base_mult | n_hidden) -> h = n_hidden).
Proof.
  intros Hpos Hinit.
  destruct (FeedForwardNetwork_init_shapes _ _ _ _ _ Hinit)
    as (h & fc1 & fc2 & fc3 & Hh & _ & _ & Hattrs & _).
  destruct (round_up_hidden_spec n_hidden hidden_base_mult Hpos)
    as (h' & Hh' & [q Hq] & Hlo & Hhi).
  rewrite Hh in Hh'. injection Hh' as <-.
  assert (Hleast : forall m, (hidden_base_mult | m) -> n_hidden <= m -> h <= m).
  { intros m [k Hk] Hm.
    destruct (Z_lt_le_dec m h) as [Hlt | Hle]; [exfalso | exact Hle].
    assert (Hkq : k < q) by nia. nia. }
  exists h. split; [unfold getattr; rewrite Hattrs; reflexivity |].
  split; [exact Hleast |].
  intros Hdiv. pose proof (Hleast n_hidden Hdiv (Z.le_refl _)). lia.
Qed.

(** X6. A zero [hidden_base_mult] is refused by both feed-forward
    constructors with a [ZeroDivisionError], raised by the rounding on
    lines 61 and 93 before any layer is allocated. *)
Theorem hidden_base_mult_zero_raises
    (n_embd n_hidden : Z) (use_bias : bool) (num_experts : Z) (expert_capacity : float) :
  returns (truediv_int (2 * n_hidden) 3) ->
  (exists msg,
      FeedForwardNetwork_init n_embd n_hidden 0 use_bias
      = (Raise (ZeroDivisionError msg) : result obj))
  /\ (exists msg,
        FeedForwardECMoe_init num_experts expert_capacity n_embd n_hidden 0
        = (Raise (ZeroDivisionError msg) : result obj)).
Proof.
  intros [f Hf]. split.
  - unfold FeedForwardNetwork_init. rewrite Hf, bind_Ok_l.
    destruct (int_of_float_finite f (truediv_int_finite _ _ _ Hf)) as [h0 Hh0].
    rewrite Hh0, bind_Ok_l. run_attrs.
    eexists. reflexivity.
  - unfold FeedForwardECMoe_init, FeedForwardECMoe_configure. run_attrs.
    eexists. reflexivity.
Qed.

(** *** FeedForwardECMoe: when forward returns *)

(** X7. On a layer with its attributes in place and an input of shape
    (B, T, C), [FeedForwardECMoe.forward] returns exactly when the input
    has at least one token and the computed capacity [L] lies between 0
    and [T]; what it returns has the shape of the input. *)
Theorem FeedForwardECMoe_forward_returns
    (self : obj) (x : tensor S) (B T C E Hd : nat) (L : Z)
    (g : Linear S) (w1 w2 : parameter S) (act : pyval) :
  shape x = [B; T; C]%nat ->
  tokens_per_expert_of self T = Ok L ->
  getattr self "gate" = Ok (VLinear g) ->
  shape (data (weight g)) = [E; C]%nat ->
  getattr self "w1" = Ok (VParameter w1) ->
  shape (data w1) = [E; C; Hd]%nat ->
  getattr self "gelu" = Ok act ->
  getattr self "w2" = Ok (VParameter w2) ->
  shape (data w2) = [E; Hd; C]%nat ->
  (returns (FeedForwardECMoe_forward self x) <-> (0 < T)%nat /\ 0 <= L <= Z.of_nat T)
  /\ (forall out, FeedForwardECMoe_forward self x = Ok out -> shape out = [B; T; C]%nat).
Proof.
  intros Hx HL Hg Hgs Hw1 Hw1s Hact Hw2 Hw2s.
  assert (Hok : (0 < T)%nat /\ 0 <= L <= Z.of_nat T ->
                exists out, FeedForwardECMoe_forward self x = Ok out
                            /\ shape out = [B; T; C]%nat).
  { intros [HT Hrange].
    exact (FeedForwardECMoe_forward_shape self x B T C E Hd L g w1 w2 act
             Hx HT HL Hrange Hg Hgs Hw1 Hw1s Hact Hw2 Hw2s). }
  assert (Hbad : ~ ((0 < T)%nat /\ 0 <= L <= Z.of_nat T) ->
                 raises (FeedForwardECMoe_forward self x)).
  { intros Hn.
    destruct (route_reduces self x B T C E L g Hx HL Hg Hgs) as (probs & Hps & Hroute).
    unfold FeedForwardECMoe_forward. rewrite Hroute.
    destruct (Z_le_dec 0 L) as [H0 | H0];
      [destruct (Z_le_dec L (Z.of_nat T)) as [HT | HT] |].
    - assert (T = 0%nat) by lia. subst T. assert (L = 0) by lia. subst L.
      destruct (topk_in_range probs B E 0 0 Hps ltac:(lia))
        as (values & indices & Htopk & _ & His & _).
      rewrite Htopk, !bind_Ok_l. cbn [expert_specific_tokens].
      rewrite Hx. cbn [nth]. unfold one_hot, numel. rewrite His.
      replace (numel_of [B; E; Z.to_nat 0]%nat) with 0%nat
        by (unfold numel_of; simpl; lia).
      apply Raise_raises.
    - rewrite (topk_out_of_range probs B E T L Hps) by lia. apply Raise_raises.
    - rewrite (topk_out_of_range probs B E T L Hps) by lia. apply Raise_raises. }
  assert (Hdec : {(0 < T)%nat /\ 0 <= L <= Z.of_nat T}
                 + {~ ((0 < T)%nat /\ 0 <= L <= Z.of_nat T)}).
  { destruct (lt_dec 0 T); [| right; tauto].
    destruct (Z_le_dec 0 L); [| right; tauto].
    destruct (Z_le_dec L (Z.of_nat T)); [left | right]; tauto. }
  split; [split |].
  - intros [out Hout]. destruct Hdec as [Hyes | Hno]; [exact Hyes |].
    exfalso. exact (raises_not_Ok _ out (Hbad Hno) Hout).
  - intros Hyes. destruct (Hok Hyes) as (out & Hout & _). exists out. exact Hout.
  - intros out Hout. destruct Hdec as [Hyes | Hno].
    + destruct (Hok Hyes) as (out' & Hout' & Hs). congruence.
    + exfalso. exact (raises_not_Ok _ out (Hbad Hno) Hout).
Qed.

(** X8. With no expert ([num_experts == 0]) [forward] cannot return: an
    input that is not of rank 3 fails the assertion of line 107, and a
    rank-3 input raises [ZeroDivisionError] in the capacity computation
    of line 111, before the gate is looked at. *)
Theorem FeedForwardECMoe_forward_no_expert
    (self : obj) (x : tensor S) (capacity : float) :
  getattr self "expert_capacity" = Ok (VFloat capacity) ->
  getattr self "num_experts" = Ok (VInt 0) ->
  returns (float_of_int (Z.of_nat (nth 1 (shape x) 0%nat))) ->
  exists msg,
    FeedForwardECMoe_forward self x
    = Raise (if (dim x =? 3)%nat then ZeroDivisionError msg else AssertionError "").
Proof.
  intros Hc He [tf Htf].
  unfold FeedForwardECMoe_forward, FeedForwardECMoe_route.
  destruct (dim x =? 3)%nat; cbn [assert bind].
  - unfold tokens_per_expert_of, getattr_float, getattr_int, fmul_int, fdiv_int.
    rewrite Hc, !bind_Ok_l, Htf, !bind_Ok_l, He, !bind_Ok_l.
    eexists. reflexivity.
  - exists "". reflexivity.
Qed.

(** *** FeedForwardECMoe: what the experts choose *)

Lemma In_combine_seq (row : list S) (start : nat) (v d : S) (i : nat) :
  In (v, i) (combine row (seq start (length row))) ->
  (start <= i < start + length row)%nat /\ nth (i - start) row d = v.
Proof.
  revert start. induction row as [| w row IH]; intros start Hin; simpl in Hin.
  - contradiction.
  - destruct Hin as [Heq | Hin].
    + injection Heq as -> ->. rewrite Nat.sub_diag. simpl. split; [lia | reflexivity].
    + destruct (IH (Datatypes.S start) Hin) as [Hr Hn]. simpl. split; [lia |].
      replace (i - start)%nat with (Datatypes.S (i - Datatypes.S start)) by lia.
      exact Hn.
Qed.

Lemma nth_In_combine_seq (row : list S) (start j : nat) (d : S) :
  (j < length row)%nat ->
  In (nth j row d, (start + j)%nat) (combine row (seq start (length row))).
Proof.
  revert start j. induction row as [| w row IH]; intros start j Hj; simpl in *; [lia |].
  destruct j as [| j].
  - left. f_equal. lia.
  - right. replace (start + Datatypes.S j)%nat with (Datatypes.S start + j)%nat by lia.
    apply IH. lia.
Qed.

(** Every pair [topk_row] returns is an entry of the row with its
    position. *)
Lemma topk_row_pairs (k : nat) (row : list S) (v d : S) (i : nat) :
  In (v, i) (topk_row k row) -> (i < length row)%nat /\ nth i row d = v.
Proof.
  intros Hin. unfold topk_row in Hin. apply In_firstn in Hin.
  apply (Permutation_in _ (sort_desc_perm _)) in Hin.
  destruct (In_combine_seq row 0 v d i Hin) as [Hr Hn].
  rewrite Nat.sub_0_r in Hn. split; [lia | exact Hn].
Qed.

Lemma nth_row_of (t : tensor S) (p : list nat) (i : nat) (d : S) :
  (i < last_dim (shape t))%nat -> nth i (row_of t p) d = at_ t (p ++ [i]).
Proof.
  intros Hi. unfold row_of.
  rewrite (nth_indep _ d (at_ t (p ++ [0%nat])))
    by (rewrite length_map, length_seq; exact Hi).
  rewrite (map_nth (fun j => at_ t (p ++ [j]))), seq_nth by exact Hi.
  reflexivity.
Qed.

(** The values [topk] returns are the entries at the positions it
    returns. *)
Lemma topk_values_at_indices (t : tensor S) (B E T : nat) (k : Z)
    (values : tensor S) (indices : tensor nat) :
  shape t = [B; E; T]%nat ->
  0 <= k <= Z.of_nat T ->
  topk t k = Ok (values, indices) ->
  forall b e l,
    (l < Z.to_nat k)%nat ->
    (at_ indices [b; e; l] < T)%nat
    /\ at_ values [b; e; l]%nat = at_ t [b; e; at_ indices [b; e; l]%nat].
Proof.
  intros Hs Hk Htopk b e l Hl. unfold topk in Htopk. rewrite Hs in Htopk.
  cbn [last_dim last batch_dims removelast app] in Htopk.
  destruct (Z.leb_spec 0 k) as [_ | Hneg]; [| lia].
  destruct (Z.leb_spec k (Z.of_nat T)) as [_ | Hbig]; [| lia].
  cbn [andb] in Htopk. injection Htopk as <- <-. cbn [at_ last removelast].
  set (picked := topk_row (Z.to_nat k) (row_of t [b; e]%nat)).
  assert (Hrow : length (row_of t [b; e]%nat) = T).
  { rewrite length_row_of, Hs. reflexivity. }
  destruct (topk_row_positions (Z.to_nat k) (row_of t [b; e]%nat)) as (Hlen & _).
  { rewrite Hrow. lia. }
  fold picked in Hlen.
  assert (Hin : In (nth l picked (s_zero, 0%nat)) picked).
  { apply nth_In. rewrite Hlen. exact Hl. }
  destruct (nth l picked (s_zero, 0%nat)) as [v i] eqn:Hnth. cbn [fst snd].
  destruct (topk_row_pairs _ _ v s_zero i Hin) as [Hi Hv].
  rewrite Hrow in Hi. split; [exact Hi |].
  rewrite <- Hv. rewrite nth_row_of by (rewrite Hs; exact Hi). reflexivity.
Qed.

(** Lines 107-117 with the gate probabilities named. *)
Lemma route_explicit (self : obj) (x : tensor S) (B T C E : nat) (L : Z) (g : Linear S) :
  shape x = [B; T; C]%nat ->
  tokens_per_expert_of self T = Ok L ->
  getattr self "gate" = Ok (VLinear g) ->
  shape (data (weight g)) = [E; C]%nat ->
  exists scores probs,
    Linear_forward g x = Ok scores
    /\ shape scores = [B; T; E]%nat
    /\ shape probs = [B; E; T]%nat
    /\ (forall b e t, at_ probs [b; e; t]%nat = at_ (softmax_last scores) [b; t; e]%nat)
    /\ FeedForwardECMoe_route self x
       = (let* '(token_probs, tokens) := topk probs L in
          Ok (mkRouting L token_probs tokens)).
Proof.
  intros Hx HL Hg Hw. unfold FeedForwardECMoe_route.
  unfold dim. rewrite Hx. cbn [length Nat.eqb assert nth]. rewrite bind_Ok_l.
  rewrite HL, bind_Ok_l.
  unfold getattr_linear. rewrite Hg, !bind_Ok_l. unfold Linear_forward.
  destruct (linear_shape_3 x (data (weight g)) (option_map data (bias g)) B T C E Hx Hw)
    as (scores & Hs & Hss).
  rewrite Hs, bind_Ok_l.
  unfold permute. unfold dim. cbn [shape softmax_last]. rewrite Hss.
  cbn. exists scores.
  lazymatch goal with
  | |- exists probs, _ /\ _ /\ _ /\ _ /\ bind (topk ?p L) _ = _ => exists p
  end.
  split; [reflexivity |]. split; [exact Hss |]. split; [reflexivity |].
  split; [| reflexivity]. intros b e t. reflexivity.
Qed.

(** X9. The probability that weighs an expert's output for a token it
    has chosen is the gate's softmax probability of that token for that
    expert: [expert_specific_token_probs[b, e, l]] is
    [softmax(gate(x))[b, t, e]] for [t = expert_specific_tokens[b, e, l]]. *)
Theorem expert_token_probs_are_gate_probs
    (self : obj) (x : tensor S) (B T C E : nat) (L : Z) (g : Linear S) :
  shape x = [B; T; C]%nat ->
  tokens_per_expert_of self T = Ok L ->
  getattr self "gate" = Ok (VLinear g) ->
  shape (data (weight g)) = [E; C]%nat ->
  0 <= L <= Z.of_nat T ->
  exists r scores,
    FeedForwardECMoe_route self x = Ok r
    /\ Linear_forward g x = Ok scores
    /\ forall b e l,
        (l < Z.to_nat L)%nat ->
        at_ (expert_specific_token_probs r) [b; e; l]%nat
        = at_ (softmax_last scores) [b; at_ (expert_specific_tokens r) [b; e; l]%nat; e].
Proof.
  intros Hx HL Hg Hgs Hrange.
  destruct (route_explicit self x B T C E L g Hx HL Hg Hgs)
    as (scores & probs & Hscores & _ & Hps & Hperm & Hroute).
  destruct (topk_in_range probs B E T L Hps Hrange)
    as (values & indices & Htopk & _).
  rewrite Hroute, Htopk, bind_Ok_l.
  eexists. exists scores. split; [reflexivity |]. split; [exact Hscores |].
  intros b e l Hl. cbn [expert_specific_token_probs expert_specific_tokens].
  destruct (topk_values_at_indices probs B E T L values indices Hps Hrange Htopk b e l Hl)
    as [_ Hv].
  rewrite Hv. apply Hperm.
Qed.

Lemma insert_desc_sorted (ordered : S -> Prop) (x : S * nat) (l : list (S * nat)) :
  strict_weak_order_on ordered ->
  ordered (fst x) ->
  Forall (fun y => ordered (fst y)) l ->
  StronglySorted (fun a b => s_ltb (fst a) (fst b) = false) l ->
  StronglySorted (fun a b => s_ltb (fst a) (fst b) = false) (insert_desc x l).
Proof.
  intros [Hasym Htrans] Hx Hall Hl.
  induction l as [| y l IH]; simpl.
  - constructor; constructor.
  - inversion Hl as [| y' l' Hl' Hy]; subst. inversion Hall as [| y' l' Hoy Hol]; subst.
    destruct (s_ltb (fst x) (fst y)) eqn:Hxy.
    + constructor; [apply IH; assumption |].
      apply Forall_forall. intros z Hz.
      apply (Permutation_in _ (insert_desc_perm x l)) in Hz.
      destruct Hz as [<- | Hz]; [apply Hasym; assumption |].
      rewrite Forall_forall in Hy. apply Hy. exact Hz.
    + constructor; [constructor; assumption |].
      constructor; [exact Hxy |].
      apply Forall_forall. intros z Hz. rewrite Forall_forall in Hy, Hol.
      apply (Htrans _ (fst y)); [exact Hx | exact Hoy | apply Hol; exact Hz
                                | exact Hxy | apply Hy; exact Hz].
Qed.

Lemma sort_desc_sorted (ordered : S -> Prop) (l : list (S * nat)) :
  strict_weak_order_on ordered ->
  Forall (fun y => ordered (fst y)) l ->
  StronglySorted (fun a b => s_ltb (fst a) (fst b) = false) (sort_desc l).
Proof.
  intros Hlaws Hall. induction l as [| x l IH]; simpl.
  - constructor.
  - inversion Hall as [| x' l' Hx Hl]; subst.
    apply (insert_desc_sorted ordered); [exact Hlaws | exact Hx | | apply IH; exact Hl].
    apply Forall_forall. intros z Hz.
    apply (Permutation_in _ (sort_desc_perm l)) in Hz.
    rewrite Forall_forall in Hl. apply Hl. exact Hz.
Qed.

Lemma sorted_app_order {A : Type} (R : A -> A -> Prop) (l1 l2 : list A) :
  StronglySorted R (l1 ++ l2) ->
  forall a b, In a l1 -> In b l2 -> R a b.
Proof.
  induction l1 as [| c l1 IH]; simpl; intros Hs a b Ha Hb; [contradiction |].
  inversion Hs as [| c' l' Hs' Hc]; subst.
  destruct Ha as [<- | Ha].
  - rewrite Forall_forall in Hc. apply Hc. apply in_or_app. right. exact Hb.
  - exact (IH Hs' a b Ha Hb).
Qed.

(** The positions [topk] returns for a row are those of [topk_row]. *)
Lemma topk_indices_row (t : tensor S) (B E T : nat) (k : Z)
    (values : tensor S) (indices : tensor nat) (b e : nat) :
  shape t = [B; E; T]%nat ->
  0 <= k <= Z.of_nat T ->
  topk t k = Ok (values, indices) ->
  map (fun l => at_ indices [b; e; l]%nat) (seq 0 (Z.to_nat k))
  = map snd (topk_row (Z.to_nat k) (row_of t [b; e]%nat)).
Proof.
  intros Hs Hk Htopk. unfold topk in Htopk. rewrite Hs in Htopk.
  cbn [last_dim last batch_dims removelast app] in Htopk.
  destruct (Z.leb_spec 0 k) as [_ | Hneg]; [| lia].
  destruct (Z.leb_spec k (Z.of_nat T)) as [_ | Hbig]; [| lia].
  cbn [andb] in Htopk. injection Htopk as <- <-. cbn [at_ last removelast].
  set (picked := topk_row (Z.to_nat k) (row_of t [b; e]%nat)).
  assert (Hrow : length (row_of t [b; e]%nat) = T).
  { rewrite length_row_of, Hs. reflexivity. }
  destruct (topk_row_positions (Z.to_nat k) (row_of t [b; e]%nat)) as (Hlen & _).
  { rewrite Hrow. lia. }
  fold picked in Hlen.
  rewrite <- Hlen at 1. rewrite <- (map_nth_seq picked (s_zero, 0%nat)) at 2.
  rewrite map_map. reflexivity.
Qed.

(** Among the entries of a row that [<] orders, none left out by
    [topk_row] is greater than one it has taken. *)
Lemma topk_row_best (ordered : S -> Prop) (k : nat) (row : list S) (i j : nat) (d : S) :
  strict_weak_order_on ordered ->
  Forall ordered row ->
  In i (map snd (topk_row k row)) ->
  (j < length row)%nat ->
  ~ In j (map snd (topk_row k row)) ->
  s_ltb (nth i row d) (nth j row d) = false.
Proof.
  intros Hlaws Hrow Hi Hj Hnj. unfold topk_row in *.
  set (sorted := sort_desc (combine row (seq 0 (length row)))) in *.
  apply in_map_iff in Hi. destruct Hi as ([vi i'] & Hsnd & Hi). simpl in Hsnd. subst i'.
  assert (Hvi : nth i row d = vi).
  { apply In_firstn in Hi. apply (Permutation_in _ (sort_desc_perm _)) in Hi.
    destruct (In_combine_seq row 0 vi d i Hi) as [_ Hn].
    rewrite Nat.sub_0_r in Hn. exact Hn. }
  assert (Hjin : In (nth j row d, j) sorted).
  { apply (Permutation_in _ (Permutation_sym (sort_desc_perm _))).
    exact (nth_In_combine_seq row 0 j d Hj). }
  rewrite <- (firstn_skipn k sorted) in Hjin. apply in_app_or in Hjin.
  destruct Hjin as [Hjin | Hjin].
  - exfalso. apply Hnj. apply in_map_iff. exists (nth j row d, j). split; [reflexivity | exact Hjin].
  - assert (Hall : Forall (fun y : S * nat => ordered (fst y))
                     (combine row (seq 0 (length row)))).
    { apply Forall_forall. intros [v n] Hv. apply in_combine_l in Hv.
      rewrite Forall_forall in Hrow. apply Hrow. exact Hv. }
    pose proof (sort_desc_sorted ordered _ Hlaws Hall) as Hs.
    fold sorted in Hs. rewrite <- (firstn_skipn k sorted) in Hs.
    pose proof (sorted_app_order _ _ _ Hs _ _ Hi Hjin) as Hle. simpl in Hle.
    rewrite Hvi. exact Hle.
Qed.

(** X10. Each expert takes its best tokens.  For an expert and a batch
    element whose gate probabilities [<] orders (on floats: none of them
    is NaN), no token the expert has left out has a higher gate
    probability for that expert than a token it has chosen. *)
Theorem experts_choose_top_tokens
    (ordered : S -> Prop)
    (self : obj) (x : tensor S) (B T C E : nat) (L : Z) (g : Linear S) :
  strict_weak_order_on ordered ->
  shape x = [B; T; C]%nat ->
  tokens_per_expert_of self T = Ok L ->
  getattr self "gate" = Ok (VLinear g) ->
  shape (data (weight g)) = [E; C]%nat ->
  0 <= L <= Z.of_nat T ->
  exists r scores,
    FeedForwardECMoe_route self x = Ok r
    /\ Linear_forward g x = Ok scores
    /\ forall b e,
        (forall t, (t < T)%nat -> ordered (at_ (softmax_last scores) [b; t; e]%nat)) ->
        forall i j,
          In i (selected_tokens r b e) ->
          (j < T)%nat ->
          ~ In j (selected_tokens r b e) ->
          s_ltb (at_ (softmax_last scores) [b; i; e]%nat)
                (at_ (softmax_last scores) [b; j; e]%nat) = false.
Proof.
  intros Hlaws Hx HL Hg Hgs Hrange.
  destruct (route_explicit self x B T C E L g Hx HL Hg Hgs)
    as (scores & probs & Hscores & _ & Hps & Hperm & Hroute).
  destruct (topk_in_range probs B E T L Hps Hrange)
    as (values & indices & Htopk & _ & _ & Hsel).
  rewrite Hroute, Htopk, bind_Ok_l.
  eexists. exists scores. split; [reflexivity |]. split; [exact Hscores |].
  intros b e Hord i j. unfold selected_tokens.
  cbn [expert_specific_tokens tokens_per_expert].
  rewrite (topk_indices_row probs B E T L values indices b e Hps Hrange Htopk).
  intros Hi Hj Hnj.
  assert (Hrow : length (row_of probs [b; e]%nat) = T).
  { rewrite length_row_of, Hps. reflexivity. }
  assert (Hi' : (i < T)%nat).
  { apply in_map_iff in Hi. destruct Hi as ([v i'] & Hsnd & Hi). simpl in Hsnd. subst i'.
    destruct (topk_row_pairs _ _ v s_zero i Hi) as [Hlt _]. lia. }
  assert (Hall : Forall ordered (row_of probs [b; e]%nat)).
  { apply Forall_forall. intros v Hv. unfold row_of in Hv. apply in_map_iff in Hv.
    destruct Hv as (t & <- & Ht). apply in_seq in Ht. rewrite Hps in Ht.
    cbn [last_dim last] in Ht. cbn [app]. rewrite Hperm. apply Hord. lia. }
  pose proof (topk_row_best ordered (Z.to_nat L) (row_of probs [b; e]%nat) i j s_zero
                Hlaws Hall Hi ltac:(lia) Hnj) as Hbest.
  rewrite !nth_row_of in Hbest by (rewrite Hps; assumption).
  cbn [app] in Hbest. rewrite !Hperm in Hbest. exact Hbest.
Qed.

(** *** FeedForwardECMoe: lines 125-139, entry by entry *)

(** An entry of [F.one_hot]'s result at a position of the index tensor. *)
Lemma one_hot_value (indices oh : tensor nat) (B E k : nat) (num_classes : Z) :
  shape indices = [B; E; k]%nat ->
  one_hot indices num_classes = Ok oh ->
  forall b e l t,
    (b < B)%nat -> (e < E)%nat -> (l < k)%nat ->
    at_ oh [b; e; l; t]%nat = if (at_ indices [b; e; l] =? t)%nat then 1%nat else 0%nat.
Proof.
  intros Hs Hoh b e l t Hb He Hl. unfold one_hot, numel in Hoh. rewrite Hs in Hoh.
  destruct (Nat.eqb_spec (numel_of [B; E; k]%nat) 0) as [Hz | _].
  - exfalso. unfold numel_of in Hz. cbn [fold_right] in Hz.
    apply Nat.eq_mul_0 in Hz. destruct Hz as [Hz | Hz]; [lia |].
    apply Nat.eq_mul_0 in Hz. destruct Hz as [Hz | Hz]; lia.
  - destruct (num_classes =? -1);
      [| destruct (Z.of_nat (fold_right Nat.max 0%nat (elements indices)) <? num_classes);
         [| discriminate Hoh]];
      rewrite bind_Ok_l in Hoh; injection Hoh as <-; reflexivity.
Qed.

Lemma one_hot_shape (indices oh : tensor nat) (T : nat) :
  (0 < T)%nat ->
  one_hot indices (Z.of_nat T) = Ok oh -> shape oh = shape indices ++ [T].
Proof.
  intros HT Hoh. unfold one_hot in Hoh.
  destruct (numel indices =? 0)%nat.
  - destruct (Z.leb_spec (Z.of_nat T) 0) as [Hle | _]; [lia |].
    injection Hoh as <-. cbn [shape]. rewrite Nat2Z.id. reflexivity.
  - destruct (Z.eqb_spec (Z.of_nat T) (-1)) as [Heq | _]; [lia |].
    destruct (Z.of_nat (fold_right Nat.max 0%nat (elements indices)) <? Z.of_nat T);
      [| discriminate Hoh].
    rewrite bind_Ok_l in Hoh. injection Hoh as <-. cbn [shape]. rewrite Nat2Z.id.
    reflexivity.
Qed.

Lemma in_range_index (d i : nat) :
  (i < d)%nat -> (if (d =? 1)%nat then 0%nat else i) = i.
Proof. intros Hi. destruct (Nat.eqb_spec d 1) as [E | _]; [lia | reflexivity]. Qed.

Lemma all_indices_1 (n : nat) : all_indices [n] = map (fun i => [i]) (seq 0 n).
Proof.
  cbn [all_indices map]. induction (seq 0 n) as [| i l IH]; simpl; [reflexivity |].
  rewrite IH. reflexivity.
Qed.

Lemma sum_list_ext {A : Type} (f g : A -> S) (l : list A) :
  (forall a, In a l -> f a = g a) -> sum_list (map f l) = sum_list (map g l).
Proof. intros Hfg. f_equal. apply map_ext_in. exact Hfg. Qed.

(** Lines 128-139 are lines 128-136 followed by the einsum of line 139. *)
Lemma FeedForwardECMoe_experts_activation (self : obj) (x probs oh : tensor S) :
  FeedForwardECMoe_experts self x probs oh
  = (let* weighted := FeedForwardECMoe_activation self x probs oh in
     einsum "BElC, BElT -> BTC" weighted oh).
Proof.
  unfold FeedForwardECMoe_experts, FeedForwardECMoe_activation. cbv zeta.
  repeat (lazymatch goal with
          | |- bind ?r _ = bind (bind ?r _) _ => destruct r; cbn [bind]; [| reflexivity]
          end).
  lazymatch goal with
  | |- bind ?r _ = _ => destruct r; cbn [bind]; [| reflexivity]
  end.
  lazymatch goal with
  | |- bind ?r _ = _ => destruct r; reflexivity
  end.
Qed.

(** The three tensors of lines 128, 136 and 139, entry by entry. *)
Lemma FeedForwardECMoe_experts_entries (self : obj) (x probs oh : tensor S)
    (B T C E Hd K : nat) (w1 w2 : parameter S) (act : pyval) :
  shape x = [B; T; C]%nat ->
  shape probs = [B; E; K]%nat ->
  shape oh = [B; E; K; T]%nat ->
  getattr self "w1" = Ok (VParameter w1) ->
  shape (data w1) = [E; C; Hd]%nat ->
  getattr self "gelu" = Ok act ->
  getattr self "w2" = Ok (VParameter w2) ->
  shape (data w2) = [E; Hd; C]%nat ->
  exists xin weighted out,
    einsum "BElT, BTC -> BElC" oh x = Ok xin
    /\ FeedForwardECMoe_activation self x probs oh = Ok weighted
    /\ FeedForwardECMoe_experts self x probs oh = Ok out
    /\ shape out = [B; T; C]%nat
    /\ (forall b e k c,
          (b < B)%nat -> (e < E)%nat -> (k < K)%nat -> (c < C)%nat ->
          at_ xin [b; e; k; c]%nat
          = sum_list (map (fun t => s_mul (at_ oh [b; e; k; t]%nat) (at_ x [b; t; c]%nat))
                          (seq 0 T)))
    /\ (forall b e k c,
          (b < B)%nat -> (e < E)%nat -> (k < K)%nat -> (c < C)%nat ->
          at_ weighted [b; e; k; c]%nat
          = s_mul (expert_on (data w1) (data w2) C Hd e
                     (fun c' => at_ xin [b; e; k; c']%nat) c)
                  (at_ probs [b; e; k]%nat))
    /\ (forall b t c,
          (b < B)%nat -> (t < T)%nat -> (c < C)%nat ->
          at_ out [b; t; c]%nat
          = sum_list
              (map (fun slot =>
                      let e := nth 0 slot 0%nat in
                      let k := nth 1 slot 0%nat in
                      s_mul (at_ weighted [b; e; k; c]%nat) (at_ oh [b; e; k; t]%nat))
                   (all_indices [E; K]%nat))).
Proof.
  intros Hx Hps Hoh Hw1 Hw1s Hact Hw2 Hw2s.
  rewrite FeedForwardECMoe_experts_activation.
  unfold FeedForwardECMoe_activation.
  set (sz := label_sizes B E K T C Hd).
  (* gather *)
  destruct (einsum2_agrees sz ["B"; "E"; "l"; "T"]%char ["B"; "T"; "C"]%char
              ["B"; "E"; "l"; "C"]%char oh x) as (xin & Hxin & Hxs & Hv1);
    [rewrite Hoh; reflexivity | rewrite Hx; reflexivity | reflexivity |].
  change (einsum "BElT, BTC -> BElC" oh x)
    with (einsum2 ["B"; "E"; "l"; "T"]%char ["B"; "T"; "C"]%char
            ["B"; "E"; "l"; "C"]%char oh x).
  rewrite Hxin, !bind_Ok_l.
  assert (Hxin_v : forall b e k c,
             (b < B)%nat -> (e < E)%nat -> (k < K)%nat -> (c < C)%nat ->
             at_ xin [b; e; k; c]%nat
             = sum_list (map (fun t => s_mul (at_ oh [b; e; k; t]%nat) (at_ x [b; t; c]%nat))
                             (seq 0 T))).
  { intros b e k c Hb He Hk Hc. rewrite Hv1.
    change (contracted ["B"; "E"; "l"; "T"]%char ["B"; "T"; "C"]%char
              ["B"; "E"; "l"; "C"]%char) with ["T"%char].
    change (map sz ["T"%char]) with [T]. rewrite all_indices_1, map_map.
    rewrite Hoh, Hx. apply sum_list_ext.
    intros t Ht. apply in_seq in Ht. cbn.
    rewrite !in_range_index by (assumption || lia). reflexivity. }
  unfold getattr_parameter. rewrite Hw1, !bind_Ok_l.
  (* the experts *)
  destruct (einsum2_agrees sz ["B"; "E"; "l"; "C"]%char ["E"; "C"; "H"]%char
              ["B"; "E"; "l"; "H"]%char xin (data w1)) as (a1 & Ha1 & Ha1s & Hv2);
    [rewrite Hxs; reflexivity | rewrite Hw1s; reflexivity | reflexivity |].
  change (einsum "BElC, ECH -> BElH" xin (data w1))
    with (einsum2 ["B"; "E"; "l"; "C"]%char ["E"; "C"; "H"]%char
            ["B"; "E"; "l"; "H"]%char xin (data w1)).
  rewrite Ha1, bind_Ok_l, Hact, bind_Ok_l, Hw2, !bind_Ok_l.
  assert (Ha1_v : forall b e k h,
             (b < B)%nat -> (e < E)%nat -> (k < K)%nat -> (h < Hd)%nat ->
             at_ a1 [b; e; k; h]%nat
             = sum_list (map (fun c' => s_mul (at_ xin [b; e; k; c']%nat)
                                              (at_ (data w1) [e; c'; h]%nat))
                             (seq 0 C))).
  { intros b e k h Hb He Hk Hh. rewrite Hv2.
    change (contracted ["B"; "E"; "l"; "C"]%char ["E"; "C"; "H"]%char
              ["B"; "E"; "l"; "H"]%char) with ["C"%char].
    change (map sz ["C"%char]) with [C]. rewrite all_indices_1, map_map.
    rewrite Hxs, Hw1s. apply sum_list_ext.
    intros c' Hc'. apply in_seq in Hc'. cbn.
    rewrite !in_range_index by (assumption || lia). reflexivity. }
  set (a1g := map_tensor s_gelu a1).
  destruct (einsum2_agrees sz ["B"; "E"; "l"; "H"]%char ["E"; "H"; "C"]%char
              ["B"; "E"; "l"; "C"]%char a1g (data w2)) as (a2 & Ha2 & Ha2s & Hv3);
    [unfold a1g; cbn [shape map_tensor]; rewrite Ha1s; reflexivity
    | rewrite Hw2s; reflexivity | reflexivity |].
  change (einsum "BElH, EHC -> BElC" a1g (data w2))
    with (einsum2 ["B"; "E"; "l"; "H"]%char ["E"; "H"; "C"]%char
            ["B"; "E"; "l"; "C"]%char a1g (data w2)).
  rewrite Ha2, bind_Ok_l.
  assert (Ha2_v : forall b e k c,
             (b < B)%nat -> (e < E)%nat -> (k < K)%nat -> (c < C)%nat ->
             at_ a2 [b; e; k; c]%nat
             = expert_on (data w1) (data w2) C Hd e
                 (fun c' => at_ xin [b; e; k; c']%nat) c).
  { intros b e k c Hb He Hk Hc. rewrite Hv3.
    change (contracted ["B"; "E"; "l"; "H"]%char ["E"; "H"; "C"]%char
              ["B"; "E"; "l"; "C"]%char) with ["H"%char].
    change (map sz ["H"%char]) with [Hd]. rewrite all_indices_1, map_map.
    replace (shape a1g) with [B; E; K; Hd]%nat
      by (unfold a1g; cbn [shape map_tensor]; rewrite Ha1s; reflexivity).
    rewrite Hw2s. unfold expert_on. apply sum_list_ext.
    intros h Hh. apply in_seq in Hh. unfold a1g. cbn.
    rewrite !in_range_index by (assumption || lia).
    rewrite Ha1_v by (assumption || lia). reflexivity. }
  (* scale by the gate probabilities *)
  unfold unsqueeze, dim. rewrite Hps. cbn -[mul einsum].
  unfold mul, binary. cbn [shape].
  replace (shape a2) with ([B; E; K]%nat ++ [C]) by (rewrite Ha2s; reflexivity).
  change [B; E; K; 1]%nat with ([B; E; K]%nat ++ [1%nat]).
  rewrite broadcast_shapes_last_one, !bind_Ok_l.
  set (a3 := mkTensor _ _).
  assert (Ha3_v : forall b e k c,
             (b < B)%nat -> (e < E)%nat -> (k < K)%nat -> (c < C)%nat ->
             at_ a3 [b; e; k; c]%nat
             = s_mul (expert_on (data w1) (data w2) C Hd e
                        (fun c' => at_ xin [b; e; k; c']%nat) c)
                     (at_ probs [b; e; k]%nat)).
  { intros b e k c Hb He Hk Hc. unfold a3. cbn [at_].
    rewrite (broadcast_index_in_range ([B; E; K]%nat ++ [C]) [b; e; k; c]%nat)
      by (repeat constructor; assumption).
    rewrite Ha2_v by assumption. f_equal. f_equal.
    change (PosDef.Pos.to_nat 3) with 3%nat. unfold broadcast_index. cbn.
    rewrite !in_range_index by assumption. reflexivity. }
  (* scatter *)
  destruct (einsum2_agrees sz ["B"; "E"; "l"; "C"]%char ["B"; "E"; "l"; "T"]%char
              ["B"; "T"; "C"]%char a3 oh) as (out & Hout & Houts & Hv4);
    [reflexivity | rewrite Hoh; reflexivity | reflexivity |].
  change (einsum "BElC, BElT -> BTC" a3 oh)
    with (einsum2 ["B"; "E"; "l"; "C"]%char ["B"; "E"; "l"; "T"]%char
            ["B"; "T"; "C"]%char a3 oh).
  exists xin, a3, out. split; [reflexivity |]. split; [reflexivity |].
  split; [exact Hout |]. split; [exact Houts |].
  split; [exact Hxin_v |]. split; [exact Ha3_v |].
  intros b t c Hb Ht Hc. rewrite Hv4.
  change (contracted ["B"; "E"; "l"; "C"]%char ["B"; "E"; "l"; "T"]%char
            ["B"; "T"; "C"]%char) with ["E"%char; "l"%char].
  change (map sz ["E"%char; "l"%char]) with [E; K].
  apply sum_list_ext. intros slot Hslot.
  apply (In_all_indices [E; K]%nat) in Hslot.
  inversion Hslot as [| e dE slot1 sh1 He H1]; subst.
  inversion H1 as [| k dk slot2 sh2 Hk H2]; subst.
  inversion H2; subst. cbv zeta. cbn [nth].
  rewrite Hoh. replace (shape a3) with [B; E; K; C]%nat by reflexivity.
  lazymatch goal with
  | |- s_mul (at_ a3 ?i1) (at_ oh ?i2) = _ =>
      assert (O1 : i1 = [b; e; k; c]%nat)
        by (cbn; rewrite !in_range_index by assumption; reflexivity);
      assert (O2 : i2 = [b; e; k; t]%nat)
        by (cbn; rewrite !in_range_index by assumption; reflexivity)
  end.
  rewrite O1, O2. reflexivity.
Qed.

(** [forward] on an input of shape (B, T, C) with the capacity in range:
    the routing, the one-hot encoding of its choice, and lines 128-139. *)
Lemma FeedForwardECMoe_forward_steps
    (self : obj) (x : tensor S) (B T C E Hd : nat) (L : Z)
    (g : Linear S) (w1 w2 : parameter S) (act : pyval) :
  shape x = [B; T; C]%nat ->
  (0 < T)%nat ->
  tokens_per_expert_of self T = Ok L ->
  0 <= L <= Z.of_nat T ->
  getattr self "gate" = Ok (VLinear g) ->
  shape (data (weight g)) = [E; C]%nat ->
  getattr self "w1" = Ok (VParameter w1) ->
  shape (data w1) = [E; C; Hd]%nat ->
  getattr self "gelu" = Ok act ->
  getattr self "w2" = Ok (VParameter w2) ->
  shape (data w2) = [E; Hd; C]%nat ->
  exists r oh,
    FeedForwardECMoe_route self x = Ok r
    /\ tokens_per_expert r = L
    /\ shape (expert_specific_token_probs r) = [B; E; Z.to_nat L]%nat
    /\ shape (expert_specific_tokens r) = [B; E; Z.to_nat L]%nat
    /\ one_hot (expert_specific_tokens r) (Z.of_nat T) = Ok oh
    /\ shape oh = [B; E; Z.to_nat L; T]%nat
    /\ (forall b e k,
          (b < B)%nat -> (e < E)%nat -> (k < Z.to_nat L)%nat ->
          (at_ (expert_specific_tokens r) [b; e; k] < T)%nat)
    /\ FeedForwardECMoe_forward self x
       = FeedForwardECMoe_experts self x (expert_specific_token_probs r) (to_float oh).
Proof.
  intros Hx HT HL Hrange Hg Hgs Hw1 Hw1s Hact Hw2 Hw2s.
  destruct (route_reduces self x B T C E L g Hx HL Hg Hgs) as (probs & Hps & Hroute).
  destruct (topk_in_range probs B E T L Hps Hrange)
    as (values & indices & Htopk & Hvs & His & Hsel).
  unfold FeedForwardECMoe_forward. rewrite Hroute, Htopk, !bind_Ok_l.
  cbn [expert_specific_tokens expert_specific_token_probs].
  rewrite Hx. cbn [nth].
  destruct (one_hot_of_chosen indices B E (Z.to_nat L) T His HT) as (oh & Hoh & Hohs).
  { intros b e. exact (proj2 (proj2 (Hsel b e))). }
  rewrite Hoh, bind_Ok_l.
  eexists. exists oh. split; [reflexivity |].
  cbn [tokens_per_expert expert_specific_tokens expert_specific_token_probs].
  split; [reflexivity |]. split; [exact Hvs |]. split; [exact His |].
  split; [exact Hoh |]. split; [exact Hohs |]. split; [| reflexivity].
  intros b e k Hb He Hk.
  pose proof (proj2 (proj2 (Hsel b e))) as Hlt. rewrite Forall_forall in Hlt.
  apply Hlt. apply in_map_iff. exists k. split; [reflexivity | apply in_seq; lia].
Qed.

(** *** FeedForwardECMoe: tokens no expert has chosen *)

(** A sum of terms that a zero weight drops is zero. *)
Lemma sum_list_dropped {A : Type} (f : A -> S) (l : list A) :
  settled s_zero ->
  (forall a acc, In a l -> settled acc -> s_add (f a) acc = acc) ->
  sum_list (map f l) = s_zero.
Proof.
  intros Hzero Hf. unfold sum_list.
  induction l as [| a l IH]; cbn [map fold_right]; [reflexivity |].
  rewrite IH by (intros a' acc Ha'; apply Hf; right; exact Ha').
  apply Hf; [left; reflexivity | exact Hzero].
Qed.

(** X11. A token no expert has chosen gets a zero output.  With
    [0 + 0 = 0], an entry of [forward]'s result at a position that is in
    none of the experts' choices for its batch element is 0 whenever a
    zero weight drops the scaled activations of line 136 that are summed
    into it (on floats: whenever they are finite). *)
Theorem unchosen_tokens_get_zero
    (self : obj) (x : tensor S) (B T C E Hd : nat) (L : Z)
    (g : Linear S) (w1 w2 : parameter S) (act : pyval) :
  settled s_zero ->
  shape x = [B; T; C]%nat ->
  (0 < T)%nat ->
  tokens_per_expert_of self T = Ok L ->
  0 <= L <= Z.of_nat T ->
  getattr self "gate" = Ok (VLinear g) ->
  shape (data (weight g)) = [E; C]%nat ->
  getattr self "w1" = Ok (VParameter w1) ->
  shape (data w1) = [E; C; Hd]%nat ->
  getattr self "gelu" = Ok act ->
  getattr self "w2" = Ok (VParameter w2) ->
  shape (data w2) = [E; Hd; C]%nat ->
  exists r oh weighted out,
    FeedForwardECMoe_route self x = Ok r
    /\ one_hot (expert_specific_tokens r) (Z.of_nat T) = Ok oh
    /\ FeedForwardECMoe_activation self x (expert_specific_token_probs r) (to_float oh)
       = Ok weighted
    /\ FeedForwardECMoe_forward self x = Ok out
    /\ forall b t c,
        (b < B)%nat -> (t < T)%nat -> (c < C)%nat ->
        (forall e, (e < E)%nat -> ~ In t (selected_tokens r b e)) ->
        (forall e k, (e < E)%nat -> (k < Z.to_nat L)%nat ->
                     dropped_r (at_ weighted [b; e; k; c]%nat)) ->
        at_ out [b; t; c]%nat = s_zero.
Proof.
  intros Hzero Hx HT HL Hrange Hg Hgs Hw1 Hw1s Hact Hw2 Hw2s.
  destruct (FeedForwardECMoe_forward_steps self x B T C E Hd L g w1 w2 act
              Hx HT HL Hrange Hg Hgs Hw1 Hw1s Hact Hw2 Hw2s)
    as (r & oh & Hroute & HrL & Hvs & His & Hoh & Hohs & Htok & Hfwd).
  destruct (FeedForwardECMoe_experts_entries self x (expert_specific_token_probs r)
              (to_float oh) B T C E Hd (Z.to_nat L) w1 w2 act Hx Hvs Hohs
              Hw1 Hw1s Hact Hw2 Hw2s)
    as (xin & weighted & out & _ & Hweighted & Hout & _ & _ & _ & Hval).
  exists r, oh, weighted, out. split; [exact Hroute |]. split; [exact Hoh |].
  split; [exact Hweighted |]. split; [rewrite Hfwd; exact Hout |].
  intros b t c Hb Ht Hc Hno Hdrop. rewrite (Hval b t c Hb Ht Hc).
  unfold selected_tokens in Hno. rewrite HrL in Hno. clear HrL.
  apply sum_list_dropped; [exact Hzero |].
  intros slot acc Hslot Hacc. apply (In_all_indices [E; Z.to_nat L]%nat) in Hslot.
  inversion Hslot as [| e dE slot1 sh1 He H1]; subst.
  inversion H1 as [| k dk slot2 sh2 Hk H2]; subst.
  inversion H2; subst. cbv zeta. cbn [nth].
  replace (at_ (to_float oh) [b; e; k; t]%nat) with (s_zero : S);
    [exact (Hdrop e k He Hk acc Hacc) |].
  cbn [to_float map_tensor at_].
  rewrite (one_hot_value (expert_specific_tokens r) oh B E (Z.to_nat L) (Z.of_nat T)
             His Hoh b e k t Hb He Hk).
  destruct (Nat.eqb_spec (at_ (expert_specific_tokens r) [b; e; k]%nat) t) as [Heq | _];
    [| reflexivity].
  exfalso. apply (Hno e He).
  apply in_map_iff. exists k. split; [exact Heq | apply in_seq; lia].
Qed.

Lemma length_flat_map_const {A B : Type} (f : A -> list B) (l : list A) (n : nat) :
  (forall a, In a l -> length (f a) = n) -> length (flat_map f l) = (length l * n)%nat.
Proof.
  intros Hf. induction l as [| a l IH]; simpl; [reflexivity |].
  rewrite length_app, (Hf a) by (left; reflexivity).
  rewrite IH by (intros a' Ha'; apply Hf; right; exact Ha'). reflexivity.
Qed.

(** A list shorter than a duplicate-free one misses one of its elements. *)
Lemma missing_element (l u : list nat) :
  NoDup l -> (length u < length l)%nat -> exists t, In t l /\ ~ In t u.
Proof.
  intros Hnd Hlen.
  destruct (Forall_Exists_dec (fun t => In t u) (fun t => in_dec Nat.eq_dec t u) l)
    as [Hall | Hex].
  - exfalso. rewrite Forall_forall in Hall.
    pose proof (NoDup_incl_length Hnd Hall). lia.
  - apply Exists_exists in Hex. exact Hex.
Qed.

(** X12. When the capacity is in range and the experts' capacities add
    up to less than the sequence length ([num_experts * L < T]), every
    batch element has a token that no expert has chosen. *)
Theorem some_token_is_unchosen
    (self : obj) (x : tensor S) (B T C E : nat) (L : Z) (g : Linear S) :
  shape x = [B; T; C]%nat ->
  tokens_per_expert_of self T = Ok L ->
  getattr self "gate" = Ok (VLinear g) ->
  shape (data (weight g)) = [E; C]%nat ->
  0 <= L <= Z.of_nat T ->
  Z.of_nat E * L < Z.of_nat T ->
  exists r,
    FeedForwardECMoe_route self x = Ok r
    /\ forall b,
        exists t, (t < T)%nat /\ forall e, (e < E)%nat -> ~ In t (selected_tokens r b e).
Proof.
  intros Hx HL Hg Hgs Hrange Hsmall.
  destruct (route_reduces self x B T C E L g Hx HL Hg Hgs) as (probs & Hps & Hroute).
  destruct (topk_in_range probs B E T L Hps Hrange)
    as (values & indices & Htopk & _ & _ & Hsel).
  rewrite Hroute, Htopk, bind_Ok_l.
  eexists. split; [reflexivity |]. intros b.
  set (r := mkRouting L values indices).
  destruct (missing_element (seq 0 T) (flat_map (selected_tokens r b) (seq 0 E)))
    as (t & Ht & Hnot).
  - apply seq_NoDup.
  - rewrite (length_flat_map_const _ _ (Z.to_nat L)), !length_seq.
    + nia.
    + intros e _. exact (proj1 (Hsel b e)).
  - exists t. split; [apply in_seq in Ht; lia |].
    intros e He Hin. apply Hnot. apply in_flat_map. exists e.
    split; [apply in_seq; lia | exact Hin].
Qed.

(** *** FeedForwardECMoe: the one-hot gather of lines 125-128 *)

(** A sum against a one-hot row picks one entry, when a zero weight
    drops the others. *)
Lemma sum_one_hot_row (f : nat -> S) (k start n : nat) :
  zero_settles ->
  (forall t, (start <= t < start + n)%nat -> t <> k -> dropped_l (f t)) ->
  sum_list (map (fun t => s_mul (s_of_int (Z.of_nat (if (k =? t)%nat then 1 else 0))) (f t))
                (seq start n))
  = if (start <=? k)%nat && (k <? start + n)%nat then picked (f k) else s_zero.
Proof.
  intros [Hzero Hsum]. unfold sum_list.
  revert start. induction n as [| n IH]; intros start Hdrop; cbn [seq map fold_right].
  - destruct (Nat.leb_spec start k), (Nat.ltb_spec k (start + 0)); try reflexivity. lia.
  - rewrite IH by (intros t Ht Hne; apply Hdrop; [lia | exact Hne]).
    destruct (Nat.eqb_spec k start) as [-> | Hne].
    + change (s_of_int (Z.of_nat 1)) with (s_of_int 1).
      destruct (Nat.leb_spec (Datatypes.S start) start) as [Hle | _]; [lia |].
      cbn [andb].
      destruct (Nat.leb_spec start start) as [_ | Hlt]; [| lia].
      destruct (Nat.ltb_spec start (start + Datatypes.S n)) as [_ | Hge]; [| lia].
      reflexivity.
    + change (s_of_int (Z.of_nat 0)) with (s_zero : S).
      assert (Hd : dropped_l (f start)) by (apply Hdrop; [lia | congruence]).
      destruct (Nat.leb_spec (Datatypes.S start) k), (Nat.leb_spec start k),
               (Nat.ltb_spec k (Datatypes.S start + n)),
               (Nat.ltb_spec k (start + Datatypes.S n));
        cbn [andb]; try lia;
        first [apply Hd; apply Hsum | apply Hd; exact Hzero].
Qed.

(** The einsum of a one-hot encoding with [x]: for an index tensor of
    shape (B, E, l) with entries below [T] and [x] of shape (B, T, C), the
    entry at [b, e, l, c] is the entry of [x] at the indexed token as a
    one-hot sum leaves it, whenever a zero weight drops the entries of the
    other tokens in that channel. *)
Lemma one_hot_einsum_entries
    (indices : tensor nat) (x : tensor S) (B E K T C : nat) :
  zero_settles ->
  shape indices = [B; E; K]%nat ->
  shape x = [B; T; C]%nat ->
  (0 < T)%nat ->
  (forall b e k, (b < B)%nat -> (e < E)%nat -> (k < K)%nat ->
                 (at_ indices [b; e; k] < T)%nat) ->
  exists oh xin,
    one_hot indices (Z.of_nat T) = Ok oh
    /\ einsum "BElT, BTC -> BElC" (to_float oh) x = Ok xin
    /\ shape xin = [B; E; K; C]%nat
    /\ forall b e k c,
        (b < B)%nat -> (e < E)%nat -> (k < K)%nat -> (c < C)%nat ->
        (forall t, (t < T)%nat -> t <> at_ indices [b; e; k]%nat ->
                   dropped_l (at_ x [b; t; c]%nat)) ->
        at_ xin [b; e; k; c]%nat = picked (at_ x [b; at_ indices [b; e; k]%nat; c]).
Proof.
  intros Hlaws Hs Hx HT Hin.
  assert (Hoh : exists oh, one_hot indices (Z.of_nat T) = Ok oh).
  { unfold one_hot. destruct (numel indices =? 0)%nat.
    - destruct (Z.leb_spec (Z.of_nat T) 0) as [Hle | _]; [lia |]. eexists. reflexivity.
    - destruct (Z.eqb_spec (Z.of_nat T) (-1)) as [Heq | _]; [lia |].
      assert (Hmax : (fold_right Nat.max 0%nat (elements indices) < T)%nat).
      { apply fold_max_lt; [exact HT |]. unfold elements. rewrite Hs.
        apply Forall_forall. intros v Hv. apply in_map_iff in Hv.
        destruct Hv as (idx & <- & Hidx). apply In_all_indices in Hidx.
        inversion Hidx as [| b dB idx1 sh1 Hb H1]; subst.
        inversion H1 as [| e dE idx2 sh2 He H2]; subst.
        inversion H2 as [| k dk idx3 sh3 Hk H3]; subst.
        inversion H3; subst. apply Hin; assumption. }
      destruct (Z.ltb_spec (Z.of_nat (fold_right Nat.max 0%nat (elements indices)))
                  (Z.of_nat T)) as [_ | Hge]; [| lia].
      rewrite bind_Ok_l. eexists. reflexivity. }
  destruct Hoh as [oh Hoh]. pose proof (one_hot_shape indices oh T HT Hoh) as Hohs.
  rewrite Hs in Hohs. cbn [app] in Hohs.
  set (sz := label_sizes B E K T C 1).
  destruct (einsum2_agrees sz ["B"; "E"; "l"; "T"]%char ["B"; "T"; "C"]%char
              ["B"; "E"; "l"; "C"]%char (to_float oh) x) as (xin & Hxin & Hxs & Hval);
    [cbn [shape to_float map_tensor]; rewrite Hohs; reflexivity
    | rewrite Hx; reflexivity | reflexivity |].
  exists oh, xin. split; [exact Hoh |]. split; [exact Hxin |].
  split; [exact Hxs |].
  intros b e k c Hb He Hk Hc Hdrop. rewrite Hval.
  change (contracted ["B"; "E"; "l"; "T"]%char ["B"; "T"; "C"]%char
            ["B"; "E"; "l"; "C"]%char) with ["T"%char].
  change (map sz ["T"%char]) with [T]. rewrite all_indices_1, map_map.
  cbn [shape to_float map_tensor]. rewrite Hohs, Hx.
  rewrite (map_ext_in _
             (fun t => s_mul (s_of_int (Z.of_nat
                                          (if (at_ indices [b; e; k] =? t)%nat then 1 else 0)))
                             (at_ x [b; t; c]%nat))).
  - rewrite (sum_one_hot_row (fun t => at_ x [b; t; c]%nat) _ 0 T Hlaws)
      by (intros t Ht Hne; apply Hdrop; [lia | exact Hne]).
    pose proof (Hin b e k Hb He Hk) as Hlt.
    destruct (Nat.ltb_spec (at_ indices [b; e; k]%nat) (0 + T)) as [_ | Hge]; [| lia].
    reflexivity.
  - intros t Ht. apply in_seq in Ht. cbn.
    rewrite !in_range_index by (assumption || lia).
    rewrite (one_hot_value indices oh B E K (Z.of_nat T) Hs Hoh b e k t Hb He Hk).
    reflexivity.
Qed.

(** X13. Lines 125 and 128 of [forward] gather the tokens the experts
    have chosen.  On an input of shape (B, T, C) with the capacity [L] in
    range, the one-hot encoding of the routing's choice contracted with
    [x] has shape (B, E, L, C), and its entry at [b, e, k, c] is the entry
    of [x] at the token expert [e] has chosen in slot [k], as a one-hot
    sum leaves it ([1 * v + 0]), whenever a zero weight drops the entries
    of the other tokens in that channel (on floats: whenever they are
    finite; an infinity or a NaN in a channel of one token reaches every
    gathered token). *)
Theorem one_hot_einsum_gathers
    (self : obj) (x : tensor S) (B T C E : nat) (L : Z) (g : Linear S) :
  zero_settles ->
  shape x = [B; T; C]%nat ->
  (0 < T)%nat ->
  tokens_per_expert_of self T = Ok L ->
  0 <= L <= Z.of_nat T ->
  getattr self "gate" = Ok (VLinear g) ->
  shape (data (weight g)) = [E; C]%nat ->
  exists r xin,
    FeedForwardECMoe_route self x = Ok r
    /\ FeedForwardECMoe_gather x (expert_specific_tokens r) = Ok xin
    /\ shape xin = [B; E; Z.to_nat L; C]%nat
    /\ forall b e k c,
        (b < B)%nat -> (e < E)%nat -> (k < Z.to_nat L)%nat -> (c < C)%nat ->
        (forall t, (t < T)%nat -> t <> at_ (expert_specific_tokens r) [b; e; k]%nat ->
                   dropped_l (at_ x [b; t; c]%nat)) ->
        at_ xin [b; e; k; c]%nat
        = picked (at_ x [b; at_ (expert_specific_tokens r) [b; e; k]%nat; c]).
Proof.
  intros Hlaws Hx HT HL Hrange Hg Hgs.
  destruct (route_reduces self x B T C E L g Hx HL Hg Hgs) as (probs & Hps & Hroute).
  destruct (topk_in_range probs B E T L Hps Hrange)
    as (values & indices & Htopk & Hvs & His & Hsel).
  rewrite Htopk, bind_Ok_l in Hroute.
  assert (Hin : forall b e k, (b < B)%nat -> (e < E)%nat -> (k < Z.to_nat L)%nat ->
                              (at_ indices [b; e; k] < T)%nat).
  { intros b e k _ _ Hk.
    pose proof (proj2 (proj2 (Hsel b e))) as Hall. cbv zeta in Hall.
    rewrite Forall_forall in Hall. apply Hall.
    apply in_map_iff. exists k. split; [reflexivity |]. apply in_seq. lia. }
  destruct (one_hot_einsum_entries indices x B E (Z.to_nat L) T C Hlaws His Hx HT Hin)
    as (oh & xin & Hoh & Hxin & Hshape & Hval).
  exists (mkRouting L values indices), xin.
  cbn [expert_specific_tokens].
  split; [exact Hroute |]. split.
  - unfold FeedForwardECMoe_gather. rewrite Hx. cbn [nth].
    rewrite Hoh, bind_Ok_l. exact Hxin.
  - split; [exact Hshape | exact Hval].
Qed.

(** *** FeedForwardECMoe: what forward computes *)

Lemma expert_on_ext (w1 w2 : tensor S) (C Hd e : nat) (v v' : nat -> S) (c : nat) :
  (forall c', (c' < C)%nat -> v c' = v' c') ->
  expert_on w1 w2 C Hd e v c = expert_on w1 w2 C Hd e v' c.
Proof.
  intros Hv. unfold expert_on. apply sum_list_ext. intros h _. f_equal. f_equal.
  apply sum_list_ext. intros c' Hc'. apply in_seq in Hc'. rewrite Hv by lia. reflexivity.
Qed.

(** X14. What [FeedForwardECMoe.forward] computes.  The output at token
    [t] of batch element [b] is the sum over all slots [(e, k)] of expert
    [e]'s output on the token [tok] it has chosen there (as the one-hot
    gather leaves it, [picked]), times the gate probability
    [expert_specific_token_probs[b, e, k]], times the one-hot weight 1 if
    [tok = t] and 0 otherwise; this holds whenever a zero weight drops
    the entries of [x] in batch element [b] (on floats: whenever they are
    finite). *)
Theorem FeedForwardECMoe_forward_value
    (self : obj) (x : tensor S) (B T C E Hd : nat) (L : Z)
    (g : Linear S) (w1 w2 : parameter S) (act : pyval) :
  zero_settles ->
  shape x = [B; T; C]%nat ->
  (0 < T)%nat ->
  tokens_per_expert_of self T = Ok L ->
  0 <= L <= Z.of_nat T ->
  getattr self "gate" = Ok (VLinear g) ->
  shape (data (weight g)) = [E; C]%nat ->
  getattr self "w1" = Ok (VParameter w1) ->
  shape (data w1) = [E; C; Hd]%nat ->
  getattr self "gelu" = Ok act ->
  getattr self "w2" = Ok (VParameter w2) ->
  shape (data w2) = [E; Hd; C]%nat ->
  exists r out,
    FeedForwardECMoe_route self x = Ok r
    /\ FeedForwardECMoe_forward self x = Ok out
    /\ forall b t c,
        (b < B)%nat -> (t < T)%nat -> (c < C)%nat ->
        (forall t' c', (t' < T)%nat -> (c' < C)%nat -> dropped_l (at_ x [b; t'; c']%nat)) ->
        at_ out [b; t; c]%nat
        = sum_list
            (map (fun slot =>
                    let e := nth 0 slot 0%nat in
                    let k := nth 1 slot 0%nat in
                    let tok := at_ (expert_specific_tokens r) [b; e; k]%nat in
                    s_mul (s_mul (expert_on (data w1) (data w2) C Hd e
                                    (fun c' => picked (at_ x [b; tok; c']%nat)) c)
                                 (at_ (expert_specific_token_probs r) [b; e; k]%nat))
                          (if (tok =? t)%nat then s_of_int 1 else s_zero))
                 (all_indices [E; Z.to_nat L]%nat)).
Proof.
  intros Hlaws Hx HT HL Hrange Hg Hgs Hw1 Hw1s Hact Hw2 Hw2s.
  destruct (FeedForwardECMoe_forward_steps self x B T C E Hd L g w1 w2 act
              Hx HT HL Hrange Hg Hgs Hw1 Hw1s Hact Hw2 Hw2s)
    as (r & oh & Hroute & _ & Hvs & His & Hoh & Hohs & Htok & Hfwd).
  destruct (FeedForwardECMoe_experts_entries self x (expert_specific_token_probs r)
              (to_float oh) B T C E Hd (Z.to_nat L) w1 w2 act Hx Hvs Hohs
              Hw1 Hw1s Hact Hw2 Hw2s)
    as (xin & weighted & out & _ & _ & Hout & _ & Hxin & Hweighted & Hval).
  exists r, out. split; [exact Hroute |]. split; [rewrite Hfwd; exact Hout |].
  intros b t c Hb Ht Hc Hdrop. rewrite (Hval b t c Hb Ht Hc).
  assert (Hweight : forall e k t',
             (e < E)%nat -> (k < Z.to_nat L)%nat ->
             at_ (to_float oh) [b; e; k; t']%nat
             = s_of_int (Z.of_nat (if (at_ (expert_specific_tokens r) [b; e; k] =? t')%nat
                                   then 1 else 0))).
  { intros e k t' He Hk. cbn [to_float map_tensor at_].
    rewrite (one_hot_value (expert_specific_tokens r) oh B E (Z.to_nat L) (Z.of_nat T)
               His Hoh b e k t' Hb He Hk). reflexivity. }
  apply sum_list_ext. intros slot Hslot.
  apply (In_all_indices [E; Z.to_nat L]%nat) in Hslot.
  inversion Hslot as [| e dE slot1 sh1 He H1]; subst.
  inversion H1 as [| k dk slot2 sh2 Hk H2]; subst.
  inversion H2; subst. cbv zeta. cbn [nth].
  rewrite (Hweighted b e k c Hb He Hk Hc), (Hweight e k t He Hk).
  f_equal.
  - f_equal. apply expert_on_ext. intros c' Hc'.
    rewrite (Hxin b e k c' Hb He Hk Hc').
    rewrite (sum_list_ext _
               (fun t' => s_mul (s_of_int (Z.of_nat
                             (if (at_ (expert_specific_tokens r) [b; e; k] =? t')%nat
                              then 1 else 0)))
                                (at_ x [b; t'; c']%nat)))
      by (intros t' _; rewrite (Hweight e k t' He Hk); reflexivity).
    rewrite (sum_one_hot_row (fun t' => at_ x [b; t'; c']%nat) _ 0 T Hlaws)
      by (intros t' Ht' _; apply Hdrop; [lia | exact Hc']).
    pose proof (Htok b e k Hb He Hk) as Hlt.
    destruct (Nat.ltb_spec (at_ (expert_specific_tokens r) [b; e; k]%nat) (0 + T))
      as [_ | Hge]; [| lia].
    reflexivity.
  - destruct (at_ (expert_specific_tokens r) [b; e; k] =? t)%nat; reflexivity.
Qed.

(** *** FeedForwardECMoe: custom_init *)

Lemma FeedForwardECMoe_custom_init_spec
    (self : obj) (init_std : number) (g : Linear S) (w1 w2 : parameter S) :
  getattr self "gate" = Ok (VLinear g) ->
  getattr self "w1" = Ok (VParameter w1) ->
  getattr self "w2" = Ok (VParameter w2) ->
  FeedForwardECMoe_custom_init self init_std
  = (let* g' := trunc_normal_ (weight g) (literal 0 1) (Float (literal 2 100)) in
     let* w1' := trunc_normal_ w1 (literal 0 1) (Float (literal 2 100)) in
     let* w2' := trunc_normal_ w2 (literal 0 1) init_std in
     Ok (mutate (mutate (mutate self "gate" (VLinear (mkLinear g' (bias g))))
                        "w1" (VParameter w1'))
                "w2" (VParameter w2'))).
Proof.
  intros Hg H1' H2'. unfold FeedForwardECMoe_custom_init.
  rewrite (getattr_linear_of _ _ _ Hg), bind_Ok_l. unfold redraw_weight.
  destruct (trunc_normal_ (weight g) (literal 0 1) (Float (literal 2 100))) as [g' | e];
    [| reflexivity].
  rewrite !bind_Ok_l. unfold getattr_parameter.
  rewrite (getattr_mutate_other self "gate" "w1") by reflexivity.
  rewrite H1', !bind_Ok_l.
  destruct (trunc_normal_ w1 (literal 0 1) (Float (literal 2 100))) as [w1' | e];
    [| reflexivity].
  rewrite !bind_Ok_l.
  rewrite (getattr_mutate_other _ "w1" "w2"), (getattr_mutate_other _ "gate" "w2")
    by reflexivity.
  rewrite H2', !bind_Ok_l. reflexivity.
Qed.

(** X15. [FeedForwardECMoe.custom_init] draws the gate's weight and the
    experts' up-projection [w1] with the fixed standard deviation 0.02
    and only the down-projection [w2] with [init_std]; the capacity
    factor, the number of experts and every other attribute stay as they
    were.  It returns exactly when [trunc_normal_] accepts the two
    standard deviations. *)
Theorem FeedForwardECMoe_custom_init_draws
    (self : obj) (init_std : float) (g : Linear S) (w1 w2 : parameter S) :
  getattr self "gate" = Ok (VLinear g) ->
  getattr self "w1" = Ok (VParameter w1) ->
  getattr self "w2" = Ok (VParameter w2) ->
  (returns (FeedForwardECMoe_custom_init self (Float init_std))
   <-> returns (trunc_normal_ (weight g) (literal 0 1) (Float (literal 2 100)))
       /\ returns (trunc_normal_ w2 (literal 0 1) (Float init_std)))
  /\ forall self' : obj,
      FeedForwardECMoe_custom_init self (Float init_std) = Ok self' ->
      weight_drawn_from self' "gate"
      = Some (TruncNormal (literal 0 1) (literal 2 100) (literal (-2) 1) (literal 2 1))
      /\ parameter_drawn_from self' "w1"
         = Some (TruncNormal (literal 0 1) (literal 2 100) (literal (-2) 1) (literal 2 1))
      /\ parameter_drawn_from self' "w2"
         = Some (TruncNormal (literal 0 1) init_std (literal (-2) 1) (literal 2 1))
      /\ forall name,
          name <> "gate" -> name <> "w1" -> name <> "w2" ->
          getattr self' name = getattr self name.
Proof.
  intros Hg H1' H2'.
  rewrite (FeedForwardECMoe_custom_init_spec self _ g w1 w2 Hg H1' H2').
  split.
  - split.
    + intros [self' Hr].
      destruct (trunc_normal_ (weight g) _ _) as [g' | e]; [| discriminate Hr].
      destruct (trunc_normal_ w1 _ _) as [w1' | e]; [| discriminate Hr].
      destruct (trunc_normal_ w2 _ _) as [w2' | e]; [| discriminate Hr].
      split; eexists; reflexivity.
    + intros [Rg [w2' E2]].
      destruct (trunc_normal_returns_any _ w1 _ _ Rg) as [w1' E1].
      destruct Rg as [g' Eg].
      rewrite Eg, E1, E2, !bind_Ok_l. eexists. reflexivity.
  - intros self' Hinit.
    destruct (trunc_normal_ (weight g) _ _) as [g' | e] eqn:Eg; [| discriminate Hinit].
    destruct (trunc_normal_ w1 _ _) as [w1' | e] eqn:E1; [| discriminate Hinit].
    destruct (trunc_normal_ w2 _ _) as [w2' | e] eqn:E2; [| discriminate Hinit].
    rewrite !bind_Ok_l in Hinit. injection Hinit as <-.
    unfold weight_drawn_from, parameter_drawn_from, mutate. cbn [attrs].
    split.
    { rewrite !lookup_store_other by reflexivity. rewrite lookup_store_same.
      cbn [weight]. f_equal. exact (trunc_normal_drawn _ _ _ _ Eg). }
    split.
    { rewrite lookup_store_other by reflexivity. rewrite lookup_store_same.
      f_equal. exact (trunc_normal_drawn _ _ _ _ E1). }
    split; [rewrite lookup_store_same; f_equal; exact (trunc_normal_drawn _ _ _ _ E2) |].
    intros name Ng N1 N2. unfold getattr. cbn [attrs].
    rewrite !lookup_store_other by (apply String.eqb_neq; assumption).
    reflexivity.
Qed.

(** *** The two blocks: what the constructors return *)

Ltac run_attrs_in H :=
  repeat (progress (cbn [setattr Module_init new cls attrs initialized lookup
                         is_parameter is_module store String.eqb Ascii.eqb Bool.eqb
                         andb orb] in H;
                    rewrite ?bind_Ok_l in H)).

(** The next statement of a constructor that has returned: it has
    returned too. *)
Ltac step H :=
  run_attrs_in H;
  lazymatch type of H with
  | bind ?r _ = Ok _ =>
      let E := fresh "E" in
      destruct r eqn:E; [rewrite bind_Ok_l in H | cbn [bind] in H; discriminate H]
  end.

Lemma FeedForwardECMoe_init_never_returns
    (num_experts : Z) (expert_capacity : float) (n_embd n_hidden hidden_base_mult : Z)
    (self : obj) :
  FeedForwardECMoe_init num_experts expert_capacity n_embd n_hidden hidden_base_mult
  <> Ok self.
Proof.
  unfold FeedForwardECMoe_init, FeedForwardECMoe_configure, round_up_hidden, floordiv.
  destruct (hidden_base_mult =? 0); cbn; [discriminate |].
  destruct (nn_Linear n_embd num_experts false) as [gate | e]; cbn; discriminate.
Qed.

Lemma assert_Ok (cond : bool) (msg : string) (u : unit) :
  assert cond msg = Ok u -> cond = true.
Proof. destruct cond; [reflexivity | discriminate]. Qed.

Lemma mod_Ok (a b r : Z) : mod_ a b = Ok r -> b <> 0 /\ r = a mod b.
Proof.
  unfold mod_. destruct (Z.eqb_spec b 0) as [E | E]; [discriminate |].
  intros Hr. injection Hr as <-. split; [exact E | reflexivity].
Qed.

Lemma floordiv_Ok (a b q : Z) : floordiv a b = Ok q -> b <> 0 /\ q = a / b.
Proof.
  unfold floordiv. destruct (Z.eqb_spec b 0) as [E | E]; [discriminate |].
  intros Hq. injection Hq as <-. split; [exact E | reflexivity].
Qed.

(** What [DiTBlock.__init__] returns: the dense feed-forward layer, the
    modulation projection and the standard deviation, with the imported
    layers as their constructors made them. *)
Lemma DiTBlock_init_Ok
    (n_embd head_size : Z) (mlp_n_hidden_mult qkv_n_hidden_mult : float)
    (hidden_base_mult pooled_caption_n_embd : Z) (norm_eps : float)
    (depth_init : bool) (block_index num_blocks : Z)
    (scale_cx_attn_n_hidden use_bias use_moe : bool)
    (num_experts : Z) (expert_capacity : float) (self : obj) :
  DiTBlock_init n_embd head_size mlp_n_hidden_mult qkv_n_hidden_mult hidden_base_mult
    pooled_caption_n_embd norm_eps depth_init block_index num_blocks
    scale_cx_attn_n_hidden use_bias use_moe num_experts expert_capacity = Ok self ->
  exists ln1 attn ln2 cx_attn ln3 scaled mlp_n_hidden mlp projection std,
    use_moe = false
    /\ head_size <> 0 /\ n_embd mod head_size = 0
    /\ fmul_int mlp_n_hidden_mult n_embd = Ok scaled
    /\ int_of_float scaled = Ok mlp_n_hidden
    /\ FeedForwardNetwork_init n_embd mlp_n_hidden hidden_base_mult use_bias = Ok mlp
    /\ nn_Linear pooled_caption_n_embd (6 * n_embd) true = Ok projection
    /\ weight_init_std_of depth_init block_index num_blocks = Ok std
    /\ self = Obj "DiTBlock" true
                [("n_embd", VInt n_embd); ("ln1", VExt ln1); ("attn", VExt attn);
                 ("ln2", VExt ln2); ("cx_attn", VExt cx_attn); ("ln3", VExt ln3);
                 ("mlp", VObject mlp);
                 ("AdaLN_modulation", VSequential [VGELU "tanh"; VLinear projection]);
                 ("weight_init_std", std)].
Proof.
  unfold DiTBlock_init. intros H.
  step H. apply mod_Ok in E. destruct E as [Hh ->].
  step H. apply assert_Ok in E. apply Z.eqb_eq in E.
  repeat step H. injection H as <-.
  lazymatch goal with
  | Emlp : (if use_moe then _ else _) = Ok _ |- _ =>
      destruct use_moe;
        [exfalso; exact (FeedForwardECMoe_init_never_returns _ _ _ _ _ _ Emlp) |]
  end.
  lazymatch goal with
  | Estd : weight_init_std_of _ _ _ = Ok ?std,
    Eset : setattr _ "weight_init_std" ?std = Ok _ |- _ =>
      assert (Hstd : is_parameter std = false /\ is_module std = false)
        by (pose proof Estd as Hnum; unfold weight_init_std_of in Hnum;
            repeat inv_bind Hnum; injection Hnum as <-;
            lazymatch goal with
            | |- context [value_of_number ?n] => destruct n
            end; split; reflexivity);
      destruct Hstd as [Hp Hm];
      unfold setattr in Eset; rewrite Hp, Hm in Eset; run_attrs_in Eset;
      injection Eset as <-
  end.
  do 10 eexists. repeat (split; [first [eassumption | reflexivity] |]). reflexivity.
Qed.

(** *** DiTBlock: the constructor *)

(** X16. [DiTBlock.__init__] builds nothing when [head_size] does not
    divide [n_embd]: it raises [ZeroDivisionError] for [head_size == 0]
    and [AssertionError] otherwise, whatever the other arguments are. *)
Theorem DiTBlock_init_rejects
    (n_embd head_size : Z) (mlp_n_hidden_mult qkv_n_hidden_mult : float)
    (hidden_base_mult pooled_caption_n_embd : Z) (norm_eps : float)
    (depth_init : bool) (block_index num_blocks : Z)
    (scale_cx_attn_n_hidden use_bias use_moe : bool)
    (num_experts : Z) (expert_capacity : float) :
  head_size = 0 \/ n_embd mod head_size <> 0 ->
  exists msg,
    DiTBlock_init n_embd head_size mlp_n_hidden_mult qkv_n_hidden_mult hidden_base_mult
      pooled_caption_n_embd norm_eps depth_init block_index num_blocks
      scale_cx_attn_n_hidden use_bias use_moe num_experts expert_capacity
    = (Raise (if head_size =? 0 then ZeroDivisionError msg else AssertionError msg)
       : result obj).
Proof.
  intros Hbad. unfold DiTBlock_init. run_attrs. unfold mod_.
  destruct (Z.eqb_spec head_size 0) as [E | E].
  - eexists. reflexivity.
  - destruct Hbad as [Hz | Hm]; [contradiction |].
    rewrite bind_Ok_l. apply Z.eqb_neq in Hm. rewrite Hm.
    eexists. reflexivity.
Qed.

(** X17. For [qkv_n_hidden_mult != 1] and a positive [head_size] the
    self-attention width is [int(qkv_n_hidden_mult * n_embd)] rounded up:
    it is not below that value and less than [2 * head_size] above it,
    and the number of heads [qkv_n_hidden // head_size] is even. *)
Theorem qkv_n_hidden_rounds_up
    (n_embd head_size : Z) (qkv_n_hidden_mult : float) (v : Z) :
  0 < head_size ->
  feq_int qkv_n_hidden_mult 1 = false ->
  qkv_n_hidden_of n_embd head_size qkv_n_hidden_mult = Ok v ->
  exists scaled w,
    fmul_int qkv_n_hidden_mult n_embd = Ok scaled
    /\ int_of_float scaled = Ok w
    /\ w <= v < w + 2 * head_size
    /\ Z.even (v / head_size) = true.
Proof.
  intros Hh Hne Hq. unfold qkv_n_hidden_of in Hq. rewrite Hne in Hq.
  repeat inv_bind Hq.
  lazymatch goal with
  | Es : fmul_int _ _ = Ok ?scaled, Ew : int_of_float ?scaled = Ok ?w,
    Ediv : floordiv _ _ = Ok ?q |- _ =>
      apply floordiv_Ok in Ediv; destruct Ediv as [_ Hdiv];
      assert (Hv : v = 2 * head_size * q) by congruence;
      exists scaled, w; split; [exact Es |]; split; [exact Ew |];
      assert (Hpos : 0 < 2 * head_size) by lia;
      pose proof (Z.mul_div_le (w + 2 * head_size - 1) (2 * head_size) Hpos);
      pose proof (Z.mul_succ_div_gt (w + 2 * head_size - 1) (2 * head_size) Hpos);
      split; [lia |];
      rewrite Hv; replace (2 * head_size * q) with (2 * q * head_size) by ring;
      rewrite Z.div_mul by lia; rewrite Z.even_mul; reflexivity
  end.
Qed.

(** X18. Every block [DiTBlock.__init__] returns is dense ([use_moe] was
    false); its [mlp] is a [FeedForwardNetwork] whose hidden width is
    [int(n_embd * mlp_n_hidden_mult)] rounded up to a multiple of a
    positive [hidden_base_mult]; and its modulation projection maps
    [pooled_caption_n_embd] features to [6 * n_embd] and has a bias,
    whatever [use_bias] is. *)
Theorem DiTBlock_init_layers
    (n_embd head_size : Z) (mlp_n_hidden_mult qkv_n_hidden_mult : float)
    (hidden_base_mult pooled_caption_n_embd : Z) (norm_eps : float)
    (depth_init : bool) (block_index num_blocks : Z)
    (scale_cx_attn_n_hidden use_bias use_moe : bool)
    (num_experts : Z) (expert_capacity : float) (self : obj) :
  0 < hidden_base_mult ->
  DiTBlock_init n_embd head_size mlp_n_hidden_mult qkv_n_hidden_mult hidden_base_mult
    pooled_caption_n_embd norm_eps depth_init block_index num_blocks
    scale_cx_attn_n_hidden use_bias use_moe num_experts expert_capacity = Ok self ->
  exists scaled w (mlp : obj) h (projection : Linear S) (b : parameter S),
    use_moe = false
    /\ getattr self "n_embd" = Ok (VInt n_embd)
    /\ fmul_int mlp_n_hidden_mult n_embd = Ok scaled
    /\ int_of_float scaled = Ok w
    /\ getattr self "mlp" = Ok (VObject mlp)
    /\ cls mlp = "FeedForwardNetwork"
    /\ getattr mlp "n_hidden" = Ok (VInt h)
    /\ (hidden_base_mult | h) /\ w <= h < w + hidden_base_mult
    /\ getattr self "AdaLN_modulation"
       = Ok (VSequential [VGELU "tanh"; VLinear projection])
    /\ shape (data (weight projection))
       = [Z.to_nat (6 * n_embd); Z.to_nat pooled_caption_n_embd]
    /\ bias projection = Some b
    /\ shape (data b) = [Z.to_nat (6 * n_embd)].
Proof.
  intros Hpos Hinit.
  destruct (DiTBlock_init_Ok _ _ _ _ _ _ _ _ _ _ _ _ _ _ _ _ Hinit)
    as (ln1 & attn & ln2 & cx_attn & ln3 & scaled & w & mlp & projection & std
        & Hmoe & _ & _ & Hs & Hw & Hmlp & Hproj & _ & ->).
  destruct (FeedForwardNetwork_init_shapes _ _ _ _ _ Hmlp)
    as (h & fc1 & fc2 & fc3 & Hround & _ & _ & Hattrs & _).
  assert (Hcls : cls mlp = "FeedForwardNetwork").
  { destruct (FeedForwardNetwork_init_Ok _ _ _ _ _ Hmlp)
      as (? & ? & ? & ? & _ & _ & _ & _ & ->). reflexivity. }
  destruct (round_up_hidden_spec w hidden_base_mult Hpos) as (h' & Hh' & Hdiv & Hle).
  rewrite Hround in Hh'. injection Hh' as <-.
  destruct (nn_Linear_Ok _ _ _ _ Hproj) as (_ & _ & Hps & (b & Hb & Hbs)).
  exists scaled, w, mlp, h, projection, b.
  split; [exact Hmoe |]. split; [reflexivity |]. split; [exact Hs |].
  split; [exact Hw |]. split; [reflexivity |]. split; [exact Hcls |].
  split; [unfold getattr; rewrite Hattrs; reflexivity |].
  split; [exact Hdiv |]. split; [exact Hle |]. split; [reflexivity |].
  split; [exact Hps |]. split; [exact Hb | exact Hbs].
Qed.

(** *** DiTBlock: the modulation tensors of line 247 *)

(** [t.split(n, dim=-1)] on a last dimension of size [6 * n]. *)
Lemma split_last_six (t : tensor S) (batch : list nat) (n : nat) :
  shape t = batch ++ [(6 * n)%nat] ->
  (0 < n)%nat ->
  exists c0 c1 c2 c3 c4 c5,
    split_last t (Z.of_nat n) = Ok [c0; c1; c2; c3; c4; c5]
    /\ Forall (fun c => shape c = batch ++ [n]) [c0; c1; c2; c3; c4; c5]
    /\ forall p j,
        at_ c0 (p ++ [j]) = at_ t (p ++ [j])
        /\ at_ c1 (p ++ [j]) = at_ t (p ++ [(n + j)%nat])
        /\ at_ c2 (p ++ [j]) = at_ t (p ++ [(2 * n + j)%nat])
        /\ at_ c3 (p ++ [j]) = at_ t (p ++ [(3 * n + j)%nat])
        /\ at_ c4 (p ++ [j]) = at_ t (p ++ [(4 * n + j)%nat])
        /\ at_ c5 (p ++ [j]) = at_ t (p ++ [(5 * n + j)%nat]).
Proof.
  intros Hs Hn. unfold split_last. rewrite Hs.
  unfold last_dim, batch_dims. rewrite last_last, removelast_last.
  destruct (batch ++ [(6 * n)%nat]) as [| d sh] eqn:Hsh;
    [destruct batch; discriminate Hsh |].
  destruct (Z.ltb_spec (Z.of_nat n) 0) as [Hneg | _]; [lia |].
  destruct (Z.eqb_spec (Z.of_nat n) 0) as [Hz | _]; [lia |].
  rewrite Nat2Z.id.
  assert (Hchunks : ((6 * n + n - 1) / n)%nat = 6%nat).
  { symmetry. apply (Nat.div_unique _ _ _ (n - 1)); lia. }
  rewrite Hchunks. cbn [Nat.max seq map].
  do 6 eexists. split; [reflexivity |]. split.
  - repeat constructor; cbn [shape]; f_equal; f_equal; lia.
  - intros p j. cbn [at_]. rewrite last_last, removelast_last.
    repeat split; f_equal; f_equal; f_equal; lia.
Qed.

(** X19. On a block built by the constructor with [n_embd > 0], line 247
    turns a conditioning tensor [t] whose last dimension is
    [pooled_caption_n_embd] into six tensors of last dimension [n_embd]:
    consecutive slices, in the order shift, scale, gate (attention) and
    shift, scale, gate (feed-forward), of the projection of
    [gelu(t)]; [x] and [c] are not touched. *)
Theorem DiTBlock_modulation_slices
    (n_embd head_size : Z) (mlp_n_hidden_mult qkv_n_hidden_mult : float)
    (hidden_base_mult pooled_caption_n_embd : Z) (norm_eps : float)
    (depth_init : bool) (block_index num_blocks : Z)
    (scale_cx_attn_n_hidden use_bias use_moe : bool)
    (num_experts : Z) (expert_capacity : float) (self : obj)
    (x c t : tensor S) (batch : list nat) :
  DiTBlock_init n_embd head_size mlp_n_hidden_mult qkv_n_hidden_mult hidden_base_mult
    pooled_caption_n_embd norm_eps depth_init block_index num_blocks
    scale_cx_attn_n_hidden use_bias use_moe num_experts expert_capacity = Ok self ->
  0 < n_embd ->
  shape t = batch ++ [Z.to_nat pooled_caption_n_embd] ->
  exists projection projected st,
    getattr self "AdaLN_modulation"
    = Ok (VSequential [VGELU "tanh"; VLinear projection])
    /\ Linear_forward projection (map_tensor s_gelu_tanh t) = Ok projected
    /\ DiTBlock_modulation self x c t = Ok st
    /\ var_x st = x /\ var_c st = c
    /\ Forall (fun m => shape m = batch ++ [Z.to_nat n_embd])
         [shift_msa st; scale_msa st; gate_msa st; shift_mlp st; scale_mlp st; gate_mlp st]
    /\ forall p j,
        let n := Z.to_nat n_embd in
        at_ (shift_msa st) (p ++ [j]) = at_ projected (p ++ [j])
        /\ at_ (scale_msa st) (p ++ [j]) = at_ projected (p ++ [(n + j)%nat])
        /\ at_ (gate_msa st) (p ++ [j]) = at_ projected (p ++ [(2 * n + j)%nat])
        /\ at_ (shift_mlp st) (p ++ [j]) = at_ projected (p ++ [(3 * n + j)%nat])
        /\ at_ (scale_mlp st) (p ++ [j]) = at_ projected (p ++ [(4 * n + j)%nat])
        /\ at_ (gate_mlp st) (p ++ [j]) = at_ projected (p ++ [(5 * n + j)%nat]).
Proof.
  intros Hinit Hn Ht.
  destruct (DiTBlock_init_Ok _ _ _ _ _ _ _ _ _ _ _ _ _ _ _ _ Hinit)
    as (ln1 & attn & ln2 & cx_attn & ln3 & scaled & mlp_n_hidden & mlp & projection & std
        & _ & _ & _ & _ & _ & _ & Hproj & _ & ->).
  destruct (nn_Linear_Ok _ _ _ _ Hproj) as (_ & _ & Hps & _).
  replace (Z.to_nat (6 * n_embd)) with (6 * Z.to_nat n_embd)%nat in Hps by lia.
  pose proof (linear_Ok (map_tensor s_gelu_tanh t) (data (weight projection))
                (option_map data (bias projection)) batch _ _ Ht Hps) as Hlin.
  set (projected := mkTensor _ _) in Hlin.
  destruct (split_last_six projected batch (Z.to_nat n_embd) eq_refl ltac:(lia))
    as (c0 & c1 & c2 & c3 & c4 & c5 & Hsplit & Hshapes & Hvals).
  rewrite Z2Nat.id in Hsplit by lia.
  exists projection, projected.
  exists (mkLocals x c t c0 c1 c2 c3 c4 c5).
  split; [reflexivity |]. split; [exact Hlin |]. split.
  { unfold DiTBlock_modulation, getattr_int, getattr.
    cbn [attrs lookup String.eqb Ascii.eqb Bool.eqb]. rewrite !bind_Ok_l.
    cbn [call_module fold_left call_leaf String.eqb Ascii.eqb Bool.eqb].
    rewrite !bind_Ok_l. unfold Linear_forward.
    rewrite Hlin, !bind_Ok_l, Hsplit, bind_Ok_l. reflexivity. }
  split; [reflexivity |]. split; [reflexivity |]. split; [exact Hshapes |].
  intros p j. cbv zeta. cbn [shift_msa scale_msa gate_msa shift_mlp scale_mlp gate_mlp].
  apply Hvals.
Qed.

(** *** DiTBlock: the cross-attention sub-step *)


(** *** DiTBlock: the standard deviation of the projections *)

(** X20. A zero base is refused: with [block_index == -1] under
    [depth_init], or [num_blocks == 0] without it, lines 234-237 raise
    [ZeroDivisionError] ([0 ** 0.5] is [0.0]), so [DiTBlock.__init__]
    returns no block whatever the other arguments are. *)
Theorem weight_init_std_zero_base
    (n_embd head_size : Z) (mlp_n_hidden_mult qkv_n_hidden_mult : float)
    (hidden_base_mult pooled_caption_n_embd : Z) (norm_eps : float)
    (depth_init : bool) (block_index num_blocks : Z)
    (scale_cx_attn_n_hidden use_bias use_moe : bool)
    (num_experts : Z) (expert_capacity : float) :
  (if depth_init then block_index = -1 else num_blocks = 0) ->
  weight_init_std_of depth_init block_index num_blocks
  = (Raise (ZeroDivisionError "float division by zero") : result pyval)
  /\ raises (DiTBlock_init n_embd head_size mlp_n_hidden_mult qkv_n_hidden_mult
               hidden_base_mult pooled_caption_n_embd norm_eps depth_init block_index
               num_blocks scale_cx_attn_n_hidden use_bias use_moe num_experts
               expert_capacity).
Proof.
  intros Hbase.
  assert (Hstd : weight_init_std_of depth_init block_index num_blocks
                 = (Raise (ZeroDivisionError "float division by zero") : result pyval)).
  { unfold weight_init_std_of.
    replace (if depth_init then 3 * (block_index + 1) else 3 * num_blocks) with 0
      by (destruct depth_init; lia).
    reflexivity. }
  split; [exact Hstd |].
  destruct (DiTBlock_init n_embd head_size mlp_n_hidden_mult qkv_n_hidden_mult
              hidden_base_mult pooled_caption_n_embd norm_eps depth_init block_index
              num_blocks scale_cx_attn_n_hidden use_bias use_moe num_experts
              expert_capacity) as [self | e] eqn:Hinit; [| eexists; reflexivity].
  exfalso.
  destruct (DiTBlock_init_stores_weight_init_std _ _ _ _ _ _ _ _ _ _ _ _ _ _ _ _ Hinit)
    as (std & Hok & _).
  rewrite Hstd in Hok. discriminate Hok.
Qed.

(** *** The two blocks: custom_init *)

(** X21. [DiTBlock.custom_init] on a block built by the constructor
    (with [block_index >= 0], [num_blocks >= 1]): the standard deviation
    it hands on is the float stored in [weight_init_std].  When
    [reset_parameters] of its three norm layers and [custom_init] of its
    two attention layers return and [trunc_normal_] accepts 0.02 and the
    stored value, it returns; the feed-forward layer's [fc1] is drawn with
    standard deviation 0.02 and its [fc2] and [fc3] with the stored
    [weight_init_std]; the modulation projection [AdaLN_modulation] is
    not re-initialised, and [n_embd] and [weight_init_std] stay as they
    were. *)
Theorem DiTBlock_custom_init_effect
    (n_embd head_size : Z) (mlp_n_hidden_mult qkv_n_hidden_mult : float)
    (hidden_base_mult pooled_caption_n_embd : Z) (norm_eps : float)
    (depth_init : bool) (block_index num_blocks : Z)
    (scale_cx_attn_n_hidden use_bias use_moe : bool)
    (num_experts : Z) (expert_capacity : float) (self : obj) :
  DiTBlock_init n_embd head_size mlp_n_hidden_mult qkv_n_hidden_mult hidden_base_mult
    pooled_caption_n_embd norm_eps depth_init block_index num_blocks
    scale_cx_attn_n_hidden use_bias use_moe num_experts expert_capacity = Ok self ->
  0 <= block_index -> 1 <= num_blocks ->
  (forall name e,
      In name ["ln1"; "ln2"; "ln3"] -> getattr self name = Ok (VExt e) ->
      returns (ext_reset_parameters e)) ->
  (forall name e std,
      In name ["attn"; "cx_attn"] -> getattr self name = Ok (VExt e) ->
      getattr self "weight_init_std" = Ok (VFloat std) ->
      returns (ext_custom_init e (Float std))) ->
  (forall p : parameter S,
      returns (trunc_normal_ p (literal 0 1) (Float (literal 2 100)))) ->
  (forall (p : parameter S) std,
      getattr self "weight_init_std" = Ok (VFloat std) ->
      returns (trunc_normal_ p (literal 0 1) (Float std))) ->
  exists (std : float) (self' mlp' : obj),
    getattr self "weight_init_std" = Ok (VFloat std)
    /\ DiTBlock_custom_init self = Ok self'
    /\ getattr self' "mlp" = Ok (VObject mlp')
    /\ weight_drawn_from mlp' "fc1"
       = Some (TruncNormal (literal 0 1) (literal 2 100) (literal (-2) 1) (literal 2 1))
    /\ weight_drawn_from mlp' "fc2"
       = Some (TruncNormal (literal 0 1) std (literal (-2) 1) (literal 2 1))
    /\ weight_drawn_from mlp' "fc3"
       = Some (TruncNormal (literal 0 1) std (literal (-2) 1) (literal 2 1))
    /\ getattr self' "AdaLN_modulation" = getattr self "AdaLN_modulation"
    /\ getattr self' "weight_init_std" = getattr self "weight_init_std"
    /\ getattr self' "n_embd" = getattr self "n_embd".
Proof.
  intros Hinit Hb Hn Hreset Hcustom Hfixed Haccept.
  destruct (DiTBlock_init_Ok _ _ _ _ _ _ _ _ _ _ _ _ _ _ _ _ Hinit)
    as (ln1 & attn & ln2 & cx_attn & ln3 & scaled & mlp_n_hidden & mlp & projection & std
        & _ & _ & _ & _ & _ & Hmlp & _ & Hstd & ->).
  destruct (weight_init_std_of_positive _ _ _ std Hb Hn Hstd)
    as (b & sigma & _ & _ & _ & ->).
  destruct (FeedForwardNetwork_init_shapes _ _ _ _ _ Hmlp)
    as (h & fc1 & fc2 & fc3 & _ & _ & _ & Hattrs & _).
  assert (Hcls : cls mlp = "FeedForwardNetwork").
  { destruct (FeedForwardNetwork_init_Ok _ _ _ _ _ Hmlp)
      as (? & ? & ? & ? & _ & _ & _ & _ & ->). reflexivity. }
  assert (G1 : getattr mlp "fc1" = Ok (VLinear fc1))
    by (unfold getattr; rewrite Hattrs; reflexivity).
  assert (G2 : getattr mlp "fc2" = Ok (VLinear fc2))
    by (unfold getattr; rewrite Hattrs; reflexivity).
  assert (G3 : getattr mlp "fc3" = Ok (VLinear fc3))
    by (unfold getattr; rewrite Hattrs; reflexivity).
  destruct (proj2 (FeedForwardNetwork_custom_init_returns mlp (Float sigma) fc1 fc2 fc3
                     G1 G2 G3)
              (conj (Hfixed (weight fc1)) (Haccept (weight fc2) sigma eq_refl)))
    as [mlp' Hmlp'].
  destruct (FeedForwardNetwork_custom_init_Ok mlp mlp' sigma fc1 fc2 fc3 G1 G2 G3 Hmlp')
    as (Hd1 & Hd2 & Hd3).
  destruct (Hreset "ln1" ln1 ltac:(simpl; tauto) eq_refl) as [r1 Hr1].
  destruct (Hreset "ln2" ln2 ltac:(simpl; tauto) eq_refl) as [r2 Hr2].
  destruct (Hreset "ln3" ln3 ltac:(simpl; tauto) eq_refl) as [r3 Hr3].
  destruct (Hcustom "attn" attn sigma ltac:(simpl; tauto) eq_refl eq_refl)
    as [attn' Hattn'].
  destruct (Hcustom "cx_attn" cx_attn sigma ltac:(simpl; tauto) eq_refl eq_refl)
    as [cx' Hcx'].
  exists sigma,
         (Obj "DiTBlock" true
            [("n_embd", VInt n_embd); ("ln1", VExt r1); ("attn", VExt attn');
             ("ln2", VExt r2); ("cx_attn", VExt cx'); ("ln3", VExt r3);
             ("mlp", VObject mlp');
             ("AdaLN_modulation", VSequential [VGELU "tanh"; VLinear projection]);
             ("weight_init_std", VFloat sigma)]), mlp'.
  split; [reflexivity |]. split.
  { unfold DiTBlock_custom_init, reset_norm, custom_init_with_block_std,
      custom_init_attr, getattr, mutate.
    cbn [attrs lookup store cls initialized String.eqb Ascii.eqb Bool.eqb bind].
    rewrite Hr1. cbn [attrs lookup store cls initialized String.eqb Ascii.eqb Bool.eqb bind].
    rewrite Hr2. cbn [attrs lookup store cls initialized String.eqb Ascii.eqb Bool.eqb bind].
    rewrite Hr3. cbn [attrs lookup store cls initialized String.eqb Ascii.eqb Bool.eqb bind].
    rewrite Hattn'.
    cbn [attrs lookup store cls initialized String.eqb Ascii.eqb Bool.eqb bind].
    rewrite Hcx'.
    cbn [attrs lookup store cls initialized String.eqb Ascii.eqb Bool.eqb bind].
    rewrite Hcls.
    cbn [String.eqb Ascii.eqb Bool.eqb]. rewrite Hmlp'.
    cbn [attrs lookup store cls initialized String.eqb Ascii.eqb Bool.eqb bind].
    reflexivity. }
  split; [reflexivity |]. split; [exact Hd1 |]. split; [exact Hd2 |].
  split; [exact Hd3 |].
  repeat split; reflexivity.
Qed.

(** *** AttentionBlockPromptEmbedding *)

Lemma AttentionBlockPromptEmbedding_init_Ok
    (n_embd head_size : Z) (mlp_n_hidden_mult : float) (hidden_base_mult : Z)
    (norm_eps : float) (use_bias : bool) (self : obj) :
  AttentionBlockPromptEmbedding_init n_embd head_size mlp_n_hidden_mult hidden_base_mult
    norm_eps use_bias = Ok self ->
  exists ln1 attn ln2 scaled n_hidden ffn,
    head_size <> 0 /\ n_embd mod head_size = 0
    /\ fmul_int mlp_n_hidden_mult n_embd = Ok scaled
    /\ int_of_float scaled = Ok n_hidden
    /\ FeedForwardNetwork_init n_embd n_hidden hidden_base_mult use_bias = Ok ffn
    /\ self = Obj "AttentionBlockPromptEmbedding" true
                [("n_embd", VInt n_embd); ("n_head", VInt (n_embd / head_size));
                 ("ln1", VExt ln1); ("attn", VExt attn); ("ln2", VExt ln2);
                 ("ffn", VObject ffn)].
Proof.
  unfold AttentionBlockPromptEmbedding_init. intros H.
  step H. apply mod_Ok in E. destruct E as [Hh ->].
  step H. apply assert_Ok in E. apply Z.eqb_eq in E.
  step H. apply floordiv_Ok in E0. destruct E0 as [_ ->].
  step H. unfold getattr_int, getattr in H.
  repeat step H. injection H as <-.
  do 6 eexists. repeat (split; [first [eassumption | reflexivity] |]). reflexivity.
Qed.

(** X22. [AttentionBlockPromptEmbedding.__init__] builds nothing when
    [head_size] does not divide [n_embd]: [ZeroDivisionError] for
    [head_size == 0], and otherwise the [AssertionError] of line 29 with
    the two numbers in its message. *)
Theorem AttentionBlockPromptEmbedding_init_rejects
    (n_embd head_size : Z) (mlp_n_hidden_mult : float) (hidden_base_mult : Z)
    (norm_eps : float) (use_bias : bool) :
  head_size = 0 \/ n_embd mod head_size <> 0 ->
  exists msg,
    AttentionBlockPromptEmbedding_init n_embd head_size mlp_n_hidden_mult
      hidden_base_mult norm_eps use_bias
    = (Raise (if head_size =? 0 then ZeroDivisionError msg
              else AssertionError ("n_embd:" ++ str_int n_embd
                                   ++ " should be divisble by head_size:"
                                   ++ str_int head_size))
       : result obj).
Proof.
  intros Hbad. unfold AttentionBlockPromptEmbedding_init, mod_.
  destruct (Z.eqb_spec head_size 0) as [E | E].
  - eexists. reflexivity.
  - destruct Hbad as [Hz | Hm]; [contradiction |].
    rewrite bind_Ok_l. apply Z.eqb_neq in Hm. rewrite Hm.
    exists "". reflexivity.
Qed.

(** X23. A constructed [AttentionBlockPromptEmbedding] has
    [n_head * head_size == n_embd], and its feed-forward layer stores as
    hidden width [int(n_embd * mlp_n_hidden_mult)] rounded up to a
    multiple of a positive [hidden_base_mult]. *)
Theorem AttentionBlockPromptEmbedding_init_widths
    (n_embd head_size : Z) (mlp_n_hidden_mult : float) (hidden_base_mult : Z)
    (norm_eps : float) (use_bias : bool) (self : obj) :
  0 < hidden_base_mult ->
  AttentionBlockPromptEmbedding_init n_embd head_size mlp_n_hidden_mult hidden_base_mult
    norm_eps use_bias = Ok self ->
  exists n_head scaled w (ffn : obj) h,
    getattr self "n_embd" = Ok (VInt n_embd)
    /\ getattr self "n_head" = Ok (VInt n_head)
    /\ n_head * head_size = n_embd
    /\ fmul_int mlp_n_hidden_mult n_embd = Ok scaled
    /\ int_of_float scaled = Ok w
    /\ getattr self "ffn" = Ok (VObject ffn)
    /\ getattr ffn "n_hidden" = Ok (VInt h)
    /\ (hidden_base_mult | h)
    /\ w <= h < w + hidden_base_mult.
Proof.
  intros Hpos Hinit.
  destruct (AttentionBlockPromptEmbedding_init_Ok _ _ _ _ _ _ _ Hinit)
    as (ln1 & attn & ln2 & scaled & w & ffn & Hh & Hmod & Hs & Hw & Hffn & ->).
  destruct (FeedForwardNetwork_init_shapes _ _ _ _ _ Hffn)
    as (h & fc1 & fc2 & fc3 & Hround & _ & _ & Hattrs & _).
  destruct (round_up_hidden_spec w hidden_base_mult Hpos) as (h' & Hh' & Hdiv & Hle).
  rewrite Hround in Hh'. injection Hh' as <-.
  exists (n_embd / head_size), scaled, w, ffn, h.
  split; [reflexivity |]. split; [reflexivity |]. split.
  { pose proof (Z.div_mod n_embd head_size Hh) as Hdm. rewrite Hmod in Hdm. lia. }
  split; [exact Hs |]. split; [exact Hw |]. split; [reflexivity |].
  split; [unfold getattr; rewrite Hattrs; reflexivity |].
  split; [exact Hdiv | exact Hle].
Qed.

(** X24. [AttentionBlockPromptEmbedding.forward] keeps the shape of an
    input [x] whose last dimension is [n_embd], when the block's two norm
    layers and its attention layer map tensors of the shape of [x] to
    tensors of that shape. *)
Theorem AttentionBlockPromptEmbedding_forward_shape
    (n_embd head_size : Z) (mlp_n_hidden_mult : float) (hidden_base_mult : Z)
    (norm_eps : float) (use_bias : bool) (self : obj) (x : tensor S) :
  AttentionBlockPromptEmbedding_init n_embd head_size mlp_n_hidden_mult hidden_base_mult
    norm_eps use_bias = Ok self ->
  (forall name (e : Ext) (a : tensor S),
      In name ["ln1"; "attn"; "ln2"] -> getattr self name = Ok (VExt e) ->
      shape a = shape x ->
      exists y, ext_call e [a] = Ok y /\ shape y = shape x) ->
  shape x <> [] ->
  last_dim (shape x) = Z.to_nat n_embd ->
  exists y, AttentionBlockPromptEmbedding_forward self x = Ok y /\ shape y = shape x.
Proof.
  intros Hinit Hext Hne Hlast.
  destruct (AttentionBlockPromptEmbedding_init_Ok _ _ _ _ _ _ _ Hinit)
    as (ln1 & attn & ln2 & scaled & w & ffn & _ & _ & _ & _ & Hffn & ->).
  destruct (FeedForwardNetwork_init_shapes _ _ _ _ _ Hffn)
    as (h & fc1 & fc2 & fc3 & _ & _ & _ & Hattrs & Hs1 & Hs2 & Hs3 & _).
  assert (Hcls : cls ffn = "FeedForwardNetwork").
  { destruct (FeedForwardNetwork_init_Ok _ _ _ _ _ Hffn)
      as (? & ? & ? & ? & _ & _ & _ & _ & ->). reflexivity. }
  assert (Hadd : forall a b : tensor S, shape b = shape a ->
             exists s, add a b = Ok s /\ shape s = shape a).
  { intros a b Hab. unfold add, binary. rewrite Hab, broadcast_shapes_refl, bind_Ok_l.
    eexists. split; reflexivity. }
  unfold AttentionBlockPromptEmbedding_forward, getattr.
  cbn [attrs lookup String.eqb Ascii.eqb Bool.eqb]. rewrite !bind_Ok_l.
  cbn [call_module call_leaf].
  destruct (Hext "ln1" ln1 x ltac:(simpl; tauto) eq_refl eq_refl) as (n1 & Hn1 & Hn1s).
  rewrite Hn1, !bind_Ok_l.
  destruct (Hext "attn" attn n1 ltac:(simpl; tauto) eq_refl Hn1s) as (a1 & Ha1 & Ha1s).
  rewrite Ha1, !bind_Ok_l.
  destruct (Hadd x a1 Ha1s) as (x1 & Hx1 & Hx1s). rewrite Hx1, !bind_Ok_l.
  cbn [call_module call_leaf].
  destruct (Hext "ln2" ln2 x1 ltac:(simpl; tauto) eq_refl Hx1s) as (n2 & Hn2 & Hn2s).
  rewrite Hn2, !bind_Ok_l.
  cbn [call_module call_leaf].
  rewrite Hcls. cbn [String.eqb Ascii.eqb Bool.eqb].
  assert (Hn2shape : shape n2 = batch_dims (shape x) ++ [Z.to_nat n_embd]).
  { rewrite Hn2s, <- Hlast. apply shape_split_last. exact Hne. }
  destruct (FeedForwardNetwork_forward_value ffn n2 fc1 fc2 fc3 _ _ _
              ltac:(unfold getattr; rewrite Hattrs; reflexivity)
              ltac:(unfold getattr; rewrite Hattrs; reflexivity)
              ltac:(unfold getattr; rewrite Hattrs; reflexivity)
              Hs1 Hs2 Hs3 Hn2shape) as (f & _ & _ & Hf & Hfs & _).
  rewrite Hf, bind_Ok_l.
  destruct (Hadd x1 f) as (y & Hy & Hys).
  { rewrite Hfs, <- Hn2shape, Hn2s. symmetry. exact Hx1s. }
  exists y. split; [exact Hy |]. rewrite Hys. exact Hx1s.
Qed.

(** X25. [AttentionBlockPromptEmbedding.custom_init(init_std)], when the
    attention layer's [custom_init] returns and [trunc_normal_] accepts
    0.02 and [init_std]: it hands [init_std] to the attention layer and to
    the feed-forward layer, whose [fc1] is drawn with 0.02 and whose [fc2]
    and [fc3] are drawn with [init_std]; the two norm layers are not
    touched. *)
Theorem AttentionBlockPromptEmbedding_custom_init_effect
    (n_embd head_size : Z) (mlp_n_hidden_mult : float) (hidden_base_mult : Z)
    (norm_eps : float) (use_bias : bool) (self : obj) (init_std : float) :
  AttentionBlockPromptEmbedding_init n_embd head_size mlp_n_hidden_mult hidden_base_mult
    norm_eps use_bias = Ok self ->
  (forall e, getattr self "attn" = Ok (VExt e) ->
             returns (ext_custom_init e (Float init_std))) ->
  (forall p : parameter S,
      returns (trunc_normal_ p (literal 0 1) (Float (literal 2 100)))) ->
  (forall p : parameter S,
      returns (trunc_normal_ p (literal 0 1) (Float init_std))) ->
  exists (self' ffn' : obj) (attn attn' : Ext),
    AttentionBlockPromptEmbedding_custom_init self (Float init_std) = Ok self'
    /\ getattr self "attn" = Ok (VExt attn)
    /\ ext_custom_init attn (Float init_std) = Ok attn'
    /\ getattr self' "attn" = Ok (VExt attn')
    /\ getattr self' "ffn" = Ok (VObject ffn')
    /\ weight_drawn_from ffn' "fc1"
       = Some (TruncNormal (literal 0 1) (literal 2 100) (literal (-2) 1) (literal 2 1))
    /\ weight_drawn_from ffn' "fc2"
       = Some (TruncNormal (literal 0 1) init_std (literal (-2) 1) (literal 2 1))
    /\ weight_drawn_from ffn' "fc3"
       = Some (TruncNormal (literal 0 1) init_std (literal (-2) 1) (literal 2 1))
    /\ getattr self' "ln1" = getattr self "ln1"
    /\ getattr self' "ln2" = getattr self "ln2".
Proof.
  intros Hinit Hcustom Hfixed Haccept.
  destruct (AttentionBlockPromptEmbedding_init_Ok _ _ _ _ _ _ _ Hinit)
    as (ln1 & attn & ln2 & scaled & w & ffn & _ & _ & _ & _ & Hffn & ->).
  destruct (FeedForwardNetwork_init_shapes _ _ _ _ _ Hffn)
    as (h & fc1 & fc2 & fc3 & _ & _ & _ & Hattrs & _).
  assert (Hcls : cls ffn = "FeedForwardNetwork").
  { destruct (FeedForwardNetwork_init_Ok _ _ _ _ _ Hffn)
      as (? & ? & ? & ? & _ & _ & _ & _ & ->). reflexivity. }
  assert (G1 : getattr ffn "fc1" = Ok (VLinear fc1))
    by (unfold getattr; rewrite Hattrs; reflexivity).
  assert (G2 : getattr ffn "fc2" = Ok (VLinear fc2))
    by (unfold getattr; rewrite Hattrs; reflexivity).
  assert (G3 : getattr ffn "fc3" = Ok (VLinear fc3))
    by (unfold getattr; rewrite Hattrs; reflexivity).
  destruct (proj2 (FeedForwardNetwork_custom_init_returns ffn (Float init_std) fc1 fc2 fc3
                     G1 G2 G3)
              (conj (Hfixed (weight fc1)) (Haccept (weight fc2))))
    as [ffn' Hffn'].
  destruct (FeedForwardNetwork_custom_init_Ok ffn ffn' init_std fc1 fc2 fc3 G1 G2 G3 Hffn')
    as (Hd1 & Hd2 & Hd3).
  destruct (Hcustom attn eq_refl) as [attn' Hattn'].
  exists (Obj "AttentionBlockPromptEmbedding" true
            [("n_embd", VInt n_embd); ("n_head", VInt (n_embd / head_size));
             ("ln1", VExt ln1); ("attn", VExt attn'); ("ln2", VExt ln2);
             ("ffn", VObject ffn')]), ffn', attn, attn'.
  split.
  { unfold AttentionBlockPromptEmbedding_custom_init, custom_init_attr, getattr, mutate.
    cbn [attrs lookup store cls initialized String.eqb Ascii.eqb Bool.eqb bind].
    rewrite Hattn'.
    cbn [attrs lookup store cls initialized String.eqb Ascii.eqb Bool.eqb bind].
    rewrite Hcls. cbn [String.eqb Ascii.eqb Bool.eqb]. rewrite Hffn'.
    cbn [attrs lookup store cls initialized String.eqb Ascii.eqb Bool.eqb bind].
    reflexivity. }
  split; [reflexivity |]. split; [exact Hattn' |].
  split; [reflexivity |]. split; [reflexivity |].
  split; [exact Hd1 |]. split; [exact Hd2 |]. split; [exact Hd3 |].
  split; reflexivity.
Qed.

End Properties.

(** *** IEEE floats satisfy what the properties ask *)

Section IEEE_elements.
Variables (fprec femax : Z) (exp gelu gelu_tanh silu : spec_float -> spec_float).

Local Abbreviation ieee := (Scalar_IEEE fprec femax exp gelu gelu_tanh silu).

Lemma SFltb_key (a b : spec_float) :
  a <> S754_nan -> b <> S754_nan ->
  (SFltb a b = true <-> key_lt (order_key a) (order_key b)).
Proof.
  intros Ha Hb. unfold SFltb, SFcompare.
  destruct a as [sa | sa | | sa ma ea]; try contradiction;
    destruct b as [sb | sb | | sb mb eb]; try contradiction;
    try destruct sa; try destruct sb; cbn [order_key key_lt];
    try (split; [discriminate | lia]);
    try (split; [lia | reflexivity]);
    destruct (Z.compare_spec ea eb) as [He | He | He];
    try (split; [discriminate | lia]);
    try (split; [lia | reflexivity]);
    subst; rewrite ?Pos.compare_cont_spec; cbn [Pos.switch_Eq CompOpp];
    destruct (Pos.compare_spec ma mb) as [Hm | Hm | Hm]; cbn [CompOpp];
    try (split; [discriminate | lia]);
    try (split; [lia | reflexivity]).
Qed.

Lemma IEEE_strict_weak_order :
  strict_weak_order_on (scalar := ieee) (fun v => v <> S754_nan).
Proof.
  split; cbn [s_ltb Scalar_IEEE].
  - intros a b Ha Hb Hab. apply (SFltb_key a b Ha Hb) in Hab.
    destruct (SFltb b a) eqn:Hba; [| reflexivity].
    apply (SFltb_key b a Hb Ha) in Hba. exfalso.
    unfold key_lt in *.
    destruct (order_key a) as [[a1 a2] a3], (order_key b) as [[b1 b2] b3]. lia.
  - intros a b c Ha Hb Hc Hab Hbc.
    destruct (SFltb a c) eqn:Hac; [| reflexivity].
    apply (SFltb_key a c Ha Hc) in Hac. exfalso.
    assert (Nab : ~ key_lt (order_key a) (order_key b)).
    { intros K. apply (SFltb_key a b Ha Hb) in K. congruence. }
    assert (Nbc : ~ key_lt (order_key b) (order_key c)).
    { intros K. apply (SFltb_key b c Hb Hc) in K. congruence. }
    unfold key_lt in *.
    destruct (order_key a) as [[a1 a2] a3], (order_key b) as [[b1 b2] b3],
             (order_key c) as [[c1 c2] c3]. lia.
Qed.

Lemma IEEE_zero_settles : zero_settles (scalar := ieee).
Proof.
  unfold zero_settles, settled, s_zero.
  cbn [s_of_int s_add Scalar_IEEE binary_normalize].
  split; [reflexivity |].
  intros w. destruct w as [s | s | | s m e]; try reflexivity.
  destruct s; reflexivity.
Qed.

(** A settled float is any float but [-0.0]. *)
Lemma IEEE_settled (w : spec_float) :
  settled (scalar := ieee) w <-> w <> S754_zero true.
Proof.
  unfold settled, s_zero. cbn [s_of_int s_add Scalar_IEEE binary_normalize].
  destruct w as [s | s | | s m e]; try (split; [discriminate | reflexivity]).
  destruct s; cbn; split; try discriminate; try reflexivity; try congruence.
Qed.

Lemma IEEE_finite_dropped (v : spec_float) :
  is_finite v = true ->
  dropped_l (scalar := ieee) v /\ dropped_r (scalar := ieee) v.
Proof.
  intros Hv. unfold dropped_l, dropped_r.
  split; intros acc Hacc; apply IEEE_settled in Hacc;
    unfold s_zero; cbn [s_of_int s_add s_mul Scalar_IEEE binary_normalize];
    destruct v as [s | s | | s m e]; try discriminate Hv;
    cbn [SFmul xorb];
    destruct acc as [sa | sa | | sa ma ea]; try reflexivity;
    destruct s, sa; try reflexivity; try contradiction; congruence.
Qed.

End IEEE_elements.

(** ** The claims at concrete inputs *)

#[global] Existing Instance Run.Libm_run.


(** C9: with [qkv_n_hidden_mult == 1] the width is [n_embd] unrounded:
    12 for [n_embd = 12], [head_size = 4], which 8 does not divide. *)
Lemma qkv_n_hidden_not_multiple :
  12 mod 4 = 0
  /\ qkv_n_hidden_of 12 4 Run.one = Ok 12
  /\ ~ (2 * 4 | 12).
Proof.
  split; [reflexivity |]. split; [vm_compute; reflexivity |].
  intros [k Hk]. lia.
Qed.

Lemma qkv_n_hidden_multiple_witness :
  (4 <> 0 /\ 12 mod 4 = 0 /\ qkv_n_hidden_of 12 4 (literal 3 2) = Ok 24)
  /\ ((4 | 24)
      /\ (feq_int (literal 3 2) 1 = false -> (2 * 4 | 24))
      /\ (feq_int (literal 3 2) 1 = true -> 24 = 12)).
Proof.
  assert (H4 : 4 <> 0) by discriminate.
  assert (Hm : 12 mod 4 = 0) by reflexivity.
  assert (Hq : qkv_n_hidden_of 12 4 (literal 3 2) = Ok 24) by (vm_compute; reflexivity).
  split; [split; [exact H4 | split; [exact Hm | exact Hq]] |].
  exact (qkv_n_hidden_multiple 12 4 (literal 3 2) 24 H4 Hm Hq).
Defined.

Lemma hidden_width_rounded_up_witness :
  0 < 256
  /\ (exists self : obj Q unit,
        FeedForwardNetwork_init 384 1000 256 false = Ok self
        /\ getattr self "n_hidden" = Ok (VInt 1024))
  /\ exists h,
      (256 | h)
      /\ 1000 <= h < 1000 + 256
      /\ (forall self : obj Q unit,
            FeedForwardNetwork_init 384 1000 256 false = Ok self ->
            getattr self "n_hidden" = Ok (VInt h))
      /\ (exists self : obj Q unit,
            FeedForwardECMoe_configure 8 Run.one 384 1000 256 = Ok self
            /\ getattr self "n_hidden" = Ok (VInt h)).
Proof.
  assert (Hpos : 0 < 256) by reflexivity.
  split; [exact Hpos |]. split.
  - eexists. split; vm_compute; reflexivity.
  - exact (hidden_width_rounded_up 384 1000 256 false 8 Run.one Hpos).
Defined.

(** C10: with the base unit -4 the requested width 10 is stored as 8: a
    multiple of the base unit, but below the request. *)
Lemma hidden_width_rounded_down :
  (exists self : obj Q unit,
      FeedForwardNetwork_init 8 10 (-4) true = Ok self
      /\ getattr self "n_hidden" = Ok (VInt 8))
  /\ (exists self : obj Q unit,
        FeedForwardECMoe_configure 8 Run.one 8 10 (-4) = Ok self
        /\ getattr self "n_hidden" = Ok (VInt 8))
  /\ 8 < 10.
Proof.
  split; [| split]; [| | reflexivity]; eexists; split; vm_compute; reflexivity.
Qed.

(** The hand-written [Run.ffn] is what the constructor returns. *)
Example ffn_constructed : FeedForwardNetwork_init 8 16 4 true = Ok Run.ffn.
Proof. vm_compute. reflexivity. Qed.

Lemma weight_init_std_formula_witness :
  (0 <= 0 /\ 1 <= 12)
  /\ exists self : obj Q unit,
      Run.block = Ok self
      /\ exists b w : float,
          float_of_int (3 * (0 + 1)) = Ok b
          /\ getattr self "weight_init_std" = Ok (VFloat w)
          /\ fdiv (literal 2 100) (libm_pow b (literal 1 2)) = Ok w
          /\ (libm_pow b (literal 1 2) = SFsqrt prec emax b ->
              (let* root := math_sqrt b in fdiv (literal 2 100) root) = Ok w).
Proof.
  assert (Hb : 0 <= 0) by discriminate.
  assert (Hn : 1 <= 12) by discriminate.
  assert (Hc : exists self : obj Q unit, Run.block = Ok self)
    by (eexists; vm_compute; reflexivity).
  destruct Hc as [self Hself].
  split; [exact (conj Hb Hn) |]. exists self. split; [exact Hself |].
  exact (proj1 weight_init_std_formula 2 1 (literal 4 1) Run.one 4 4 Run.eps true 0 12
           false true false 2 Run.one self Hb Hn Hself).
Defined.

(** C6: [block_index = -2] under [depth_init] gives the base -3, whose
    power 0.5 is a complex number: the block is built and its
    [weight_init_std] is complex, where [math.sqrt] of the base has no
    value; [block_index = -1] gives the base 0 and no block, and so does
    a base beyond the float range.  Whatever the complex power and
    quotient return, lines 234-237 give no float for the base -3. *)
Lemma weight_init_std_not_a_float :
  (exists (self : obj Q unit) (re im : float),
      DiTBlock_init 2 1 (literal 4 1) Run.one 4 4 Run.eps true (-2) 12
        false true false 2 Run.one = Ok self
      /\ getattr self "weight_init_std" = Ok (VComplex re im)
      /\ float_of_int (3 * (-2 + 1)) = Ok (literal (-3) 1)
      /\ math_sqrt (literal (-3) 1) = Raise (ValueError "math domain error"))
  /\ DiTBlock_init 2 1 (literal 4 1) Run.one 4 4 Run.eps true (-1) 12
       false true false 2 Run.one
     = (Raise (ZeroDivisionError "float division by zero") : result (obj Q unit))
  /\ DiTBlock_init 2 1 (literal 4 1) Run.one 4 4 Run.eps true (10 ^ 400) 12
       false true false 2 Run.one
     = (Raise (OverflowError "int too large to convert to float") : result (obj Q unit))
  /\ (forall (libm : Libm) (std : float),
        weight_init_std_of (S := Q) (Ext := unit) (libm := libm) true (-2) 12
        <> Ok (VFloat std)).
Proof.
  split; [| split; [| split]]; [| vm_compute; reflexivity | vm_compute; reflexivity |].
  - eexists. eexists. eexists.
    split; [vm_compute; reflexivity |].
    split; [vm_compute; reflexivity |]. split; vm_compute; reflexivity.
  - intros libm std. unfold weight_init_std_of, pow_half.
    replace (float_of_int (3 * (-2 + 1))) with (Ok (literal (-3) 1) : result float)
      by (vm_compute; reflexivity).
    rewrite bind_Ok_l. unfold float_pow_half.
    replace (literal (-3) 1) with (S754_finite true 6755399441055744 (-51))
      by (vm_compute; reflexivity).
    rewrite literal_0_1. cbn [SFeqb SFltb SFcompare].
    destruct (c_pow _ _) as [re im]. rewrite bind_Ok_l. cbn [truediv].
    destruct (c_quot _ _) as [q | e]; [| discriminate].
    rewrite !bind_Ok_l. cbn [value_of_number]. discriminate.
Qed.

(** C8: after [custom_init(0.01)] the second up-projection [fc2] is drawn
    with standard deviation 0.01, not with the fixed 0.02. *)
Lemma FeedForwardNetwork_custom_init_fc2_not_fixed :
  exists self' : obj Q unit,
    FeedForwardNetwork_custom_init Run.ffn (Float (literal 1 100)) = Ok self'
    /\ weight_drawn_from self' "fc2"
       = Some (TruncNormal (literal 0 1) (literal 1 100) (literal (-2) 1) (literal 2 1))
    /\ weight_drawn_from self' "fc2"
       <> Some (TruncNormal (literal 0 1) (literal 2 100) (literal (-2) 1) (literal 2 1)).
Proof.
  eexists. split; [vm_compute; reflexivity |].
  split; [vm_compute; reflexivity |].
  vm_compute. intros Heq. discriminate Heq.
Qed.

Lemma FeedForwardNetwork_custom_init_draws_witness :
  (getattr Run.ffn "fc1" = Ok (VLinear (Run.fresh_linear 8 16 true))
   /\ getattr Run.ffn "fc2" = Ok (VLinear (Run.fresh_linear 8 16 true))
   /\ getattr Run.ffn "fc3" = Ok (VLinear (Run.fresh_linear 16 8 true)))
  /\ returns (FeedForwardNetwork_custom_init Run.ffn (Float (literal 1 100)))
  /\ (forall self' : obj Q unit,
        FeedForwardNetwork_custom_init Run.ffn (Float (literal 1 100)) = Ok self' ->
        weight_drawn_from self' "fc1"
        = Some (TruncNormal (literal 0 1) (literal 2 100) (literal (-2) 1) (literal 2 1))
        /\ weight_drawn_from self' "fc2"
           = Some (TruncNormal (literal 0 1) (literal 1 100) (literal (-2) 1) (literal 2 1))
        /\ weight_drawn_from self' "fc3"
           = Some (TruncNormal (literal 0 1) (literal 1 100) (literal (-2) 1) (literal 2 1)))
  /\ FeedForwardNetwork_custom_init Run.ffn (Float (literal 0 1))
     = Raise (ZeroDivisionError "float division by zero").
Proof.
  assert (G1 : getattr Run.ffn "fc1" = Ok (VLinear (Run.fresh_linear 8 16 true)))
    by reflexivity.
  assert (G2 : getattr Run.ffn "fc2" = Ok (VLinear (Run.fresh_linear 8 16 true)))
    by reflexivity.
  assert (G3 : getattr Run.ffn "fc3" = Ok (VLinear (Run.fresh_linear 16 8 true)))
    by reflexivity.
  assert (A1 : returns (trunc_normal_ (weight (Run.fresh_linear 8 16 true)) (literal 0 1)
                          (Float (literal 2 100))))
    by (eexists; vm_compute; reflexivity).
  assert (A2 : returns (trunc_normal_ (weight (Run.fresh_linear 8 16 true)) (literal 0 1)
                          (Float (literal 1 100))))
    by (eexists; vm_compute; reflexivity).
  split; [exact (conj G1 (conj G2 G3)) |].
  destruct (FeedForwardNetwork_custom_init_draws Run.ffn (literal 1 100) _ _ _ G1 G2 G3)
    as (Hiff & Hdrawn & _).
  split; [exact (proj2 Hiff (conj A1 A2)) |]. split; [exact Hdrawn |].
  destruct (FeedForwardNetwork_custom_init_draws Run.ffn (literal 0 1) _ _ _ G1 G2 G3)
    as (_ & _ & Hzero).
  exact (Hzero eq_refl A1).
Defined.

(** C1 at an input: a block built by the constructor, [x] of shape
    (1, 4, 2), [c] of shape (1, 3, 2), [t] of shape (1, 4). *)
Example DiTBlock_forward_at_input :
  exists self : obj Q unit,
    Run.block = Ok self
    /\ DiTBlock_forward self Run.x142 Run.c132 Run.t14
       = Raise (AttributeError "'Tensor' object has no attribute 'unqueeze'").
Proof.
  eexists. split; [vm_compute; reflexivity |]. vm_compute. reflexivity.
Qed.


(** C3: with capacity factor 2.0, one expert and four tokens the capacity
    is 8, and the routing raises: no expert chooses 8 tokens. *)
Lemma experts_cannot_select_beyond_sequence :
  shape Run.x142 = [1; 4; 2]%nat
  /\ tokens_per_expert_of (Run.moe Run.two 1 2 3) 4 = Ok 8
  /\ FeedForwardECMoe_route (Run.moe Run.two 1 2 3) Run.x142
     = Raise (RuntimeError "selected index k out of range")
  /\ FeedForwardECMoe_forward (Run.moe Run.two 1 2 3) Run.x142
     = Raise (RuntimeError "selected index k out of range").
Proof.
  split; [reflexivity |]. split; [vm_compute; reflexivity |].
  split; vm_compute; reflexivity.
Qed.

Lemma experts_select_tokens_per_expert_witness :
  (shape Run.x142 = [1; 4; 2]%nat
   /\ tokens_per_expert_of (Run.moe Run.one 2 2 3) 4 = Ok 2
   /\ getattr (Run.moe Run.one 2 2 3) "gate" = Ok (VLinear (Run.fresh_linear 2 2 false))
   /\ shape (data (weight (Run.fresh_linear 2 2 false))) = [2; 2]%nat
   /\ 0 <= 2 <= Z.of_nat 4)
  /\ exists r,
      FeedForwardECMoe_route (Run.moe Run.one 2 2 3) Run.x142 = Ok r
      /\ tokens_per_expert r = 2
      /\ shape (expert_specific_tokens r) = [1; 2; Z.to_nat 2]%nat
      /\ forall b e,
          length (selected_tokens r b e) = Z.to_nat 2
          /\ NoDup (selected_tokens r b e)
          /\ Forall (fun i => (i < 4)%nat) (selected_tokens r b e).
Proof.
  assert (Hx : shape Run.x142 = [1; 4; 2]%nat) by reflexivity.
  assert (HL : tokens_per_expert_of (Run.moe Run.one 2 2 3) 4 = Ok 2)
    by (vm_compute; reflexivity).
  assert (Hg : getattr (Run.moe Run.one 2 2 3) "gate"
               = Ok (VLinear (Run.fresh_linear 2 2 false))) by reflexivity.
  assert (Hgs : shape (data (weight (Run.fresh_linear 2 2 false))) = [2; 2]%nat)
    by reflexivity.
  assert (Hr : 0 <= 2 <= Z.of_nat 4) by (split; discriminate).
  split; [exact (conj Hx (conj HL (conj Hg (conj Hgs Hr)))) |].
  exact (experts_select_tokens_per_expert (Run.moe Run.one 2 2 3) Run.x142 1 4 2 2 2
           (Run.fresh_linear 2 2 false) Hx HL Hg Hgs Hr).
Defined.

(** What the two experts choose there. *)
Example experts_choice_on_x142 :
  match FeedForwardECMoe_route (Run.moe Run.one 2 2 3) Run.x142 with
  | Ok r => selected_tokens r 0 0 = [0; 1]%nat /\ selected_tokens r 0 1 = [3; 2]%nat
  | Raise _ => False
  end.
Proof. vm_compute. split; reflexivity. Qed.

(** C4: with capacity factor 1.5, one expert and four tokens the capacity
    is 6, more tokens than the sequence has. *)
Lemma capacity_exceeds_sequence_length :
  tokens_per_expert_of (Run.moe (literal 3 2) 1 2 3) 4 = Ok 6
  /\ Z.of_nat 4 < 6.
Proof. split; [vm_compute; reflexivity | reflexivity]. Qed.

Lemma capacity_checked_by_topk_witness :
  (shape Run.x142 = [1; 4; 2]%nat
   /\ tokens_per_expert_of (Run.moe (literal 3 2) 1 2 3) 4 = Ok 6
   /\ getattr (Run.moe (literal 3 2) 1 2 3) "gate"
      = Ok (VLinear (Run.fresh_linear 2 1 false))
   /\ shape (data (weight (Run.fresh_linear 2 1 false))) = [1; 2]%nat)
  /\ (returns (FeedForwardECMoe_route (Run.moe (literal 3 2) 1 2 3) Run.x142)
      <-> 0 <= 6 <= Z.of_nat 4)
  /\ FeedForwardECMoe_forward (Run.moe (literal 3 2) 1 2 3) Run.x142
     = Raise (RuntimeError "selected index k out of range").
Proof.
  assert (Hx : shape Run.x142 = [1; 4; 2]%nat) by reflexivity.
  assert (HL : tokens_per_expert_of (Run.moe (literal 3 2) 1 2 3) 4 = Ok 6)
    by (vm_compute; reflexivity).
  assert (Hg : getattr (Run.moe (literal 3 2) 1 2 3) "gate"
               = Ok (VLinear (Run.fresh_linear 2 1 false))) by reflexivity.
  assert (Hgs : shape (data (weight (Run.fresh_linear 2 1 false))) = [1; 2]%nat)
    by reflexivity.
  assert (Hbig : Z.of_nat 4 < 6) by reflexivity.
  destruct (capacity_checked_by_topk (Run.moe (literal 3 2) 1 2 3) Run.x142 1 4 2 1 6
              (Run.fresh_linear 2 1 false) Hx HL Hg Hgs) as [Hiff Hraise].
  split; [exact (conj Hx (conj HL (conj Hg Hgs))) |].
  split; [exact Hiff | exact (Hraise Hbig)].
Defined.

(** The capacity is computed in floating point: [0.7 * 10] rounds to
    [7.0], although the float nearest to 0.7 is below 7/10. *)
Example tokens_per_expert_rounds :
  tokens_per_expert_of (Run.moe (literal 7 10) 1 2 3) 10 = Ok 7
  /\ (fst (exact_fraction (literal 7 10)) * 10) / (snd (exact_fraction (literal 7 10)) * 1) = 6.
Proof. split; vm_compute; reflexivity. Qed.

(** C5: on an input with no token the capacity is 0 and [forward] raises
    in [F.one_hot]. *)
Lemma FeedForwardECMoe_zero_tokens_raises :
  shape Run.x102 = [1; 0; 2]%nat
  /\ tokens_per_expert_of (Run.moe Run.one 2 2 3) 0 = Ok 0
  /\ FeedForwardECMoe_forward (Run.moe Run.one 2 2 3) Run.x102
     = Raise (RuntimeError "Can not infer total number of classes from empty tensor.").
Proof.
  split; [reflexivity |]. split; vm_compute; reflexivity.
Qed.

Lemma FeedForwardECMoe_zero_capacity_witness :
  (shape Run.x142 = [1; 4; 2]%nat
   /\ (0 < 4)%nat
   /\ tokens_per_expert_of (Run.moe (literal 1 10) 2 2 3) 4 = Ok 0
   /\ getattr (Run.moe (literal 1 10) 2 2 3) "gate"
      = Ok (VLinear (Run.fresh_linear 2 2 false))
   /\ shape (data (weight (Run.fresh_linear 2 2 false))) = [2; 2]%nat
   /\ getattr (Run.moe (literal 1 10) 2 2 3) "w1" = Ok (VParameter (Run.ones [2; 2; 3]%nat))
   /\ shape (data (Run.ones [2; 2; 3]%nat)) = [2; 2; 3]%nat
   /\ getattr (Run.moe (literal 1 10) 2 2 3) "gelu" = Ok (VGELU "none")
   /\ getattr (Run.moe (literal 1 10) 2 2 3) "w2" = Ok (VParameter (Run.ones [2; 3; 2]%nat))
   /\ shape (data (Run.ones [2; 3; 2]%nat)) = [2; 3; 2]%nat)
  /\ exists out,
      FeedForwardECMoe_forward (Run.moe (literal 1 10) 2 2 3) Run.x142 = Ok out
      /\ shape out = [1; 4; 2]%nat
      /\ (forall idx, at_ out idx = s_zero)
      /\ elements out = repeat s_zero (1 * 4 * 2).
Proof.
  assert (Hx : shape Run.x142 = [1; 4; 2]%nat) by reflexivity.
  assert (HT : (0 < 4)%nat) by (repeat constructor).
  assert (HL : tokens_per_expert_of (Run.moe (literal 1 10) 2 2 3) 4 = Ok 0)
    by (vm_compute; reflexivity).
  assert (Hg : getattr (Run.moe (literal 1 10) 2 2 3) "gate"
               = Ok (VLinear (Run.fresh_linear 2 2 false))) by reflexivity.
  assert (Hgs : shape (data (weight (Run.fresh_linear 2 2 false))) = [2; 2]%nat)
    by reflexivity.
  assert (Hw1 : getattr (Run.moe (literal 1 10) 2 2 3) "w1"
                = Ok (VParameter (Run.ones [2; 2; 3]%nat))) by reflexivity.
  assert (Hw1s : shape (data (Run.ones [2; 2; 3]%nat)) = [2; 2; 3]%nat) by reflexivity.
  assert (Hact : getattr (Run.moe (literal 1 10) 2 2 3) "gelu" = Ok (VGELU "none"))
    by reflexivity.
  assert (Hw2 : getattr (Run.moe (literal 1 10) 2 2 3) "w2"
                = Ok (VParameter (Run.ones [2; 3; 2]%nat))) by reflexivity.
  assert (Hw2s : shape (data (Run.ones [2; 3; 2]%nat)) = [2; 3; 2]%nat) by reflexivity.
  split.
  - exact (conj Hx (conj HT (conj HL (conj Hg (conj Hgs (conj Hw1 (conj Hw1s
             (conj Hact (conj Hw2 Hw2s))))))))).
  - exact (FeedForwardECMoe_zero_capacity (Run.moe (literal 1 10) 2 2 3) Run.x142
             1 4 2 2 3 (Run.fresh_linear 2 2 false) (Run.ones [2; 2; 3]%nat)
             (Run.ones [2; 3; 2]%nat) (VGELU "none")
             Hx HT HL Hg Hgs Hw1 Hw1s Hact Hw2 Hw2s).
Defined.

(** Checks of the float model against the interpreter: [2 / 3] and the
    literal, [0.7 * 10 == 7.0]. *)
Example truediv_2_3 : truediv_int 2 3 = Ok (literal 2 3).
Proof. vm_compute. reflexivity. Qed.

Example fmul_0_7_10 : fmul_int (literal 7 10) 10 = float_of_int 7.
Proof. vm_compute. reflexivity. Qed.

(** C2 at an input: [FeedForwardECMoe(num_experts=8, expert_capacity=1.0,
    n_embd=384, n_hidden=1000, hidden_base_mult=256)]. *)
Example FeedForwardECMoe_init_at_input :
  FeedForwardECMoe_init 8 Run.one 384 1000 256
  = (Raise (AttributeError "cannot assign module before Module.__init__() call")
     : result (obj Q unit)).
Proof. vm_compute. reflexivity. Qed.

(** [forward] on [Run.x142] with two experts of capacity 2: a tensor of
    the shape of the input. *)
Example FeedForwardECMoe_forward_on_x142 :
  match FeedForwardECMoe_forward (Run.moe Run.one 2 2 3) Run.x142 with
  | Ok out => shape out = [1; 4; 2]%nat
  | Raise _ => False
  end.
Proof. vm_compute. reflexivity. Qed.

(** ** The further properties at concrete inputs *)

Lemma FeedForwardNetwork_forward_shape_witness :
  FeedForwardNetwork_init 8 16 4 true = Ok Run.ffn
  /\ shape Run.x28 = [2; 8]%nat
  /\ exists y, FeedForwardNetwork_forward Run.ffn Run.x28 = Ok y /\ shape y = [2; 8]%nat.
Proof.
  assert (Hinit : FeedForwardNetwork_init 8 16 4 true = Ok Run.ffn)
    by (vm_compute; reflexivity).
  assert (Hne : shape Run.x28 <> []) by discriminate.
  assert (Hlast : last_dim (shape Run.x28) = Z.to_nat 8) by reflexivity.
  split; [exact Hinit |]. split; [reflexivity |].
  exact (proj1 (FeedForwardNetwork_forward_shape 8 16 4 true Run.ffn Run.x28 Hinit)
           (conj Hne Hlast)).
Defined.

Lemma FeedForwardNetwork_forward_tokenwise_witness :
  FeedForwardNetwork_init 8 16 4 true = Ok Run.ffn
  /\ exists y y',
      FeedForwardNetwork_forward Run.ffn Run.x28 = Ok y
      /\ FeedForwardNetwork_forward Run.ffn Run.x38 = Ok y'
      /\ forall o, at_ y ([0%nat] ++ [o]) = at_ y' ([0%nat] ++ [o]).
Proof.
  assert (Hinit : FeedForwardNetwork_init 8 16 4 true = Ok Run.ffn)
    by (vm_compute; reflexivity).
  destruct (FeedForwardNetwork_forward_value Run.ffn Run.x28
              (Run.fresh_linear 8 16 true) (Run.fresh_linear 8 16 true)
              (Run.fresh_linear 16 8 true) [2%nat] 8 16
              eq_refl eq_refl eq_refl eq_refl eq_refl eq_refl eq_refl)
    as (y & _ & _ & Hy & _).
  destruct (FeedForwardNetwork_forward_value Run.ffn Run.x38
              (Run.fresh_linear 8 16 true) (Run.fresh_linear 8 16 true)
              (Run.fresh_linear 16 8 true) [3%nat] 8 16
              eq_refl eq_refl eq_refl eq_refl eq_refl eq_refl eq_refl)
    as (y' & _ & _ & Hy' & _).
  assert (Hp : Forall2 (fun i d => (i < d)%nat) [0%nat] (batch_dims (shape Run.x28)))
    by (repeat constructor).
  assert (Hp' : Forall2 (fun i d => (i < d)%nat) [0%nat] (batch_dims (shape Run.x38)))
    by (repeat constructor).
  assert (Hagree : forall c, (c < Z.to_nat 8)%nat ->
                     at_ Run.x28 ([0%nat] ++ [c]) = at_ Run.x38 ([0%nat] ++ [c])).
  { intros c Hc. do 8 (destruct c as [| c]; [reflexivity |]). exfalso. simpl in Hc. lia. }
  split; [exact Hinit |]. exists y, y'. split; [exact Hy |]. split; [exact Hy' |].
  exact (FeedForwardNetwork_forward_tokenwise 8 16 4 true Run.ffn Run.x28 Run.x38 y y'
           [0%nat] Hinit Hy Hy' Hp Hp' Hagree).
Defined.

Lemma FeedForwardNetwork_parameters_numel_witness :
  FeedForwardNetwork_init 8 16 4 true = Ok Run.ffn
  /\ exists h,
      getattr Run.ffn "n_hidden" = Ok (VInt h)
      /\ 0 <= h /\ 0 <= 8
      /\ Z.of_nat (parameters_numel Run.ffn) = 3 * 8 * h + (2 * h + 8).
Proof.
  assert (Hinit : FeedForwardNetwork_init 8 16 4 true = Ok Run.ffn)
    by (vm_compute; reflexivity).
  split; [exact Hinit |].
  exact (FeedForwardNetwork_parameters_numel 8 16 4 true Run.ffn Hinit).
Defined.

Lemma FeedForwardNetwork_custom_init_keeps_witness :
  (getattr Run.ffn "fc1" = Ok (VLinear (Run.fresh_linear 8 16 true))
   /\ getattr Run.ffn "fc2" = Ok (VLinear (Run.fresh_linear 8 16 true))
   /\ getattr Run.ffn "fc3" = Ok (VLinear (Run.fresh_linear 16 8 true)))
  /\ exists self' : obj Q unit,
      FeedForwardNetwork_custom_init Run.ffn (Float (literal 1 100)) = Ok self'
      /\ exists fc1' fc2' fc3' : Linear Q,
          getattr self' "fc1" = Ok (VLinear fc1')
          /\ bias fc1' = bias (Run.fresh_linear 8 16 true)
          /\ getattr self' "fc2" = Ok (VLinear fc2')
          /\ bias fc2' = bias (Run.fresh_linear 8 16 true)
          /\ getattr self' "fc3" = Ok (VLinear fc3')
          /\ bias fc3' = bias (Run.fresh_linear 16 8 true)
          /\ (forall name,
                name <> "fc1" -> name <> "fc2" -> name <> "fc3" ->
                getattr self' name = getattr Run.ffn name)
          /\ map fst (attrs self') = map fst (attrs Run.ffn).
Proof.
  assert (Hc : exists self' : obj Q unit,
             FeedForwardNetwork_custom_init Run.ffn (Float (literal 1 100)) = Ok self')
    by (eexists; vm_compute; reflexivity).
  destruct Hc as [self' Hself'].
  split; [split; [reflexivity | split; reflexivity] |].
  exists self'. split; [exact Hself' |].
  exact (FeedForwardNetwork_custom_init_keeps Run.ffn self' (literal 1 100) _ _ _
           eq_refl eq_refl eq_refl Hself').
Defined.

Lemma FeedForwardNetwork_n_hidden_least_witness :
  0 < 4
  /\ FeedForwardNetwork_init 8 16 4 true = Ok Run.ffn
  /\ exists h,
      getattr Run.ffn "n_hidden" = Ok (VInt h)
      /\ (forall m, (4 | m) -> 16 <= m -> h <= m)
      /\ ((4 | 16) -> h = 16).
Proof.
  assert (Hpos : 0 < 4) by reflexivity.
  assert (Hinit : FeedForwardNetwork_init 8 16 4 true = Ok Run.ffn)
    by (vm_compute; reflexivity).
  split; [exact Hpos |]. split; [exact Hinit |].
  exact (FeedForwardNetwork_n_hidden_least 8 16 4 true Run.ffn Hpos Hinit).
Defined.

Lemma hidden_base_mult_zero_raises_witness :
  returns (truediv_int (2 * 16) 3)
  /\ (exists msg,
        FeedForwardNetwork_init 8 16 0 true
        = (Raise (ZeroDivisionError msg) : result (obj Q unit)))
  /\ (exists msg,
        FeedForwardECMoe_init 2 Run.one 8 16 0
        = (Raise (ZeroDivisionError msg) : result (obj Q unit))).
Proof.
  assert (Hret : returns (truediv_int (2 * 16) 3)) by (eexists; vm_compute; reflexivity).
  split; [exact Hret |].
  exact (hidden_base_mult_zero_raises 8 16 true 2 Run.one Hret).
Defined.

Lemma FeedForwardECMoe_forward_returns_witness :
  (shape Run.x142 = [1; 4; 2]%nat
   /\ tokens_per_expert_of (Run.moe Run.one 2 2 3) 4 = Ok 2
   /\ getattr (Run.moe Run.one 2 2 3) "gate" = Ok (VLinear (Run.fresh_linear 2 2 false))
   /\ shape (data (weight (Run.fresh_linear 2 2 false))) = [2; 2]%nat
   /\ getattr (Run.moe Run.one 2 2 3) "w1" = Ok (VParameter (Run.ones [2; 2; 3]%nat))
   /\ shape (data (Run.ones [2; 2; 3]%nat)) = [2; 2; 3]%nat
   /\ getattr (Run.moe Run.one 2 2 3) "gelu" = Ok (VGELU "none")
   /\ getattr (Run.moe Run.one 2 2 3) "w2" = Ok (VParameter (Run.ones [2; 3; 2]%nat))
   /\ shape (data (Run.ones [2; 3; 2]%nat)) = [2; 3; 2]%nat)
  /\ (returns (FeedForwardECMoe_forward (Run.moe Run.one 2 2 3) Run.x142)
      <-> (0 < 4)%nat /\ 0 <= 2 <= Z.of_nat 4)
  /\ (forall out,
        FeedForwardECMoe_forward (Run.moe Run.one 2 2 3) Run.x142 = Ok out ->
        shape out = [1; 4; 2]%nat).
Proof.
  assert (Hx : shape Run.x142 = [1; 4; 2]%nat) by reflexivity.
  assert (HL : tokens_per_expert_of (Run.moe Run.one 2 2 3) 4 = Ok 2)
    by (vm_compute; reflexivity).
  assert (Hg : getattr (Run.moe Run.one 2 2 3) "gate"
               = Ok (VLinear (Run.fresh_linear 2 2 false))) by reflexivity.
  assert (Hgs : shape (data (weight (Run.fresh_linear 2 2 false))) = [2; 2]%nat)
    by reflexivity.
  assert (Hw1 : getattr (Run.moe Run.one 2 2 3) "w1"
                = Ok (VParameter (Run.ones [2; 2; 3]%nat))) by reflexivity.
  assert (Hw1s : shape (data (Run.ones [2; 2; 3]%nat)) = [2; 2; 3]%nat) by reflexivity.
  assert (Hact : getattr (Run.moe Run.one 2 2 3) "gelu" = Ok (VGELU "none"))
    by reflexivity.
  assert (Hw2 : getattr (Run.moe Run.one 2 2 3) "w2"
                = Ok (VParameter (Run.ones [2; 3; 2]%nat))) by reflexivity.
  assert (Hw2s : shape (data (Run.ones [2; 3; 2]%nat)) = [2; 3; 2]%nat) by reflexivity.
  split.
  - exact (conj Hx (conj HL (conj Hg (conj Hgs (conj Hw1 (conj Hw1s
             (conj Hact (conj Hw2 Hw2s)))))))).
  - exact (FeedForwardECMoe_forward_returns (Run.moe Run.one 2 2 3) Run.x142
             1 4 2 2 3 2 (Run.fresh_linear 2 2 false) (Run.ones [2; 2; 3]%nat)
             (Run.ones [2; 3; 2]%nat) (VGELU "none")
             Hx HL Hg Hgs Hw1 Hw1s Hact Hw2 Hw2s).
Defined.

Lemma FeedForwardECMoe_forward_no_expert_witness :
  (getattr (Run.moe Run.one 0 2 3) "expert_capacity" = Ok (VFloat Run.one)
   /\ getattr (Run.moe Run.one 0 2 3) "num_experts" = Ok (VInt 0)
   /\ returns (float_of_int (Z.of_nat (nth 1 (shape Run.x142) 0%nat))))
  /\ exists msg,
      FeedForwardECMoe_forward (Run.moe Run.one 0 2 3) Run.x142
      = Raise (ZeroDivisionError msg).
Proof.
  assert (Hc : getattr (Run.moe Run.one 0 2 3) "expert_capacity" = Ok (VFloat Run.one))
    by reflexivity.
  assert (He : getattr (Run.moe Run.one 0 2 3) "num_experts" = Ok (VInt 0)) by reflexivity.
  assert (Ht : returns (float_of_int (Z.of_nat (nth 1 (shape Run.x142) 0%nat))))
    by (eexists; vm_compute; reflexivity).
  split; [exact (conj Hc (conj He Ht)) |].
  exact (FeedForwardECMoe_forward_no_expert (Run.moe Run.one 0 2 3) Run.x142 Run.one
           Hc He Ht).
Defined.

Lemma expert_token_probs_are_gate_probs_witness :
  (shape Run.x142 = [1; 4; 2]%nat
   /\ tokens_per_expert_of (Run.moe Run.one 2 2 3) 4 = Ok 2
   /\ getattr (Run.moe Run.one 2 2 3) "gate" = Ok (VLinear (Run.fresh_linear 2 2 false))
   /\ shape (data (weight (Run.fresh_linear 2 2 false))) = [2; 2]%nat
   /\ 0 <= 2 <= Z.of_nat 4)
  /\ exists r scores,
      FeedForwardECMoe_route (Run.moe Run.one 2 2 3) Run.x142 = Ok r
      /\ Linear_forward (Run.fresh_linear 2 2 false) Run.x142 = Ok scores
      /\ forall b e l,
          (l < Z.to_nat 2)%nat ->
          at_ (expert_specific_token_probs r) [b; e; l]%nat
          = at_ (softmax_last scores)
              [b; at_ (expert_specific_tokens r) [b; e; l]%nat; e].
Proof.
  assert (Hx : shape Run.x142 = [1; 4; 2]%nat) by reflexivity.
  assert (HL : tokens_per_expert_of (Run.moe Run.one 2 2 3) 4 = Ok 2)
    by (vm_compute; reflexivity).
  assert (Hg : getattr (Run.moe Run.one 2 2 3) "gate"
               = Ok (VLinear (Run.fresh_linear 2 2 false))) by reflexivity.
  assert (Hgs : shape (data (weight (Run.fresh_linear 2 2 false))) = [2; 2]%nat)
    by reflexivity.
  assert (Hr : 0 <= 2 <= Z.of_nat 4) by (split; discriminate).
  split; [exact (conj Hx (conj HL (conj Hg (conj Hgs Hr)))) |].
  exact (expert_token_probs_are_gate_probs (Run.moe Run.one 2 2 3) Run.x142 1 4 2 2 2
           (Run.fresh_linear 2 2 false) Hx HL Hg Hgs Hr).
Defined.

Lemma value_or_Ok {A : Type} (r : result A) (a d : A) :
  r = Ok a -> a = Run.value_or r d.
Proof. intros ->. reflexivity. Qed.

(** Every entry of [Run.x142_f32] is finite. *)
Lemma x142_f32_finite (idx : list nat) : is_finite (at_ Run.x142_f32 idx) = true.
Proof.
  unfold Run.x142_f32, Run.tensor_f32. cbn [at_].
  destruct (Run.flat_index [1; 4; 2]%nat idx =? 5)%nat; [reflexivity |].
  generalize (Run.flat_index [1; 4; 2]%nat idx). intros n.
  do 9 (destruct n as [| n]; [reflexivity |]).
  destruct n; reflexivity.
Qed.

Lemma experts_choose_top_tokens_witness :
  (strict_weak_order_on (scalar := Run.Scalar_f32) (fun v => v <> S754_nan)
   /\ shape Run.x142_f32 = [1; 4; 2]%nat
   /\ tokens_per_expert_of (Run.moe_f32 Run.one 2 2 3) 4 = Ok 2
   /\ getattr (Run.moe_f32 Run.one 2 2 3) "gate"
      = Ok (VLinear (mkLinear (Run.fresh_f32 [2; 2]%nat) None))
   /\ shape (data (Run.fresh_f32 [2; 2]%nat)) = [2; 2]%nat
   /\ 0 <= 2 <= Z.of_nat 4)
  /\ exists r scores,
      FeedForwardECMoe_route (Run.moe_f32 Run.one 2 2 3) Run.x142_f32 = Ok r
      /\ Linear_forward (mkLinear (Run.fresh_f32 [2; 2]%nat) None) Run.x142_f32 = Ok scores
      /\ (forall e t, (e < 2)%nat -> (t < 4)%nat ->
                      at_ (softmax_last scores) [0; t; e]%nat <> S754_nan)
      /\ forall e i j,
          (e < 2)%nat ->
          In i (selected_tokens r 0 e) ->
          (j < 4)%nat ->
          ~ In j (selected_tokens r 0 e) ->
          s_ltb (at_ (softmax_last scores) [0; i; e]%nat)
                (at_ (softmax_last scores) [0; j; e]%nat) = false.
Proof.
  pose proof (IEEE_strict_weak_order 24 128 Run.f32_exp Run.f32_relu Run.f32_relu Run.f32_relu
              : strict_weak_order_on (scalar := Run.Scalar_f32) (fun v => v <> S754_nan))
    as Hlaws.
  assert (Hx : shape Run.x142_f32 = [1; 4; 2]%nat) by reflexivity.
  assert (HL : tokens_per_expert_of (Run.moe_f32 Run.one 2 2 3) 4 = Ok 2)
    by (vm_compute; reflexivity).
  assert (Hg : getattr (Run.moe_f32 Run.one 2 2 3) "gate"
               = Ok (VLinear (mkLinear (Run.fresh_f32 [2; 2]%nat) None))) by reflexivity.
  assert (Hgs : shape (data (Run.fresh_f32 [2; 2]%nat)) = [2; 2]%nat) by reflexivity.
  assert (Hr : 0 <= 2 <= Z.of_nat 4) by (split; discriminate).
  split; [exact (conj Hlaws (conj Hx (conj HL (conj Hg (conj Hgs Hr))))) |].
  destruct (experts_choose_top_tokens (fun v => v <> S754_nan)
              (Run.moe_f32 Run.one 2 2 3) Run.x142_f32
              1 4 2 2 2 (mkLinear (Run.fresh_f32 [2; 2]%nat) None) Hlaws Hx HL Hg Hgs Hr)
    as (r & scores & Hroute & Hscores & Hbest).
  assert (Hnan : forall e t, (e < 2)%nat -> (t < 4)%nat ->
                             at_ (softmax_last scores) [0; t; e]%nat <> S754_nan).
  { rewrite (value_or_Ok _ _ Run.x142_f32 Hscores).
    intros e t He Ht.
    destruct e as [| [| e]]; [| | exfalso; lia];
      (destruct t as [| [| [| [| t]]]]; [| | | | exfalso; lia]);
      vm_compute; discriminate. }
  exists r, scores. split; [exact Hroute |]. split; [exact Hscores |].
  split; [exact Hnan |].
  intros e i j He Hi Hj Hnj.
  exact (Hbest 0%nat e (fun t Ht => Hnan e t He Ht) i j Hi Hj Hnj).
Defined.

Lemma unchosen_tokens_get_zero_witness :
  (settled (scalar := Run.Scalar_f32) s_zero
   /\ shape Run.x142_f32 = [1; 4; 2]%nat
   /\ (0 < 4)%nat
   /\ tokens_per_expert_of (Run.moe_f32 (literal 1 2) 2 2 3) 4 = Ok 1
   /\ 0 <= 1 <= Z.of_nat 4
   /\ getattr (Run.moe_f32 (literal 1 2) 2 2 3) "gate"
      = Ok (VLinear (mkLinear (Run.fresh_f32 [2; 2]%nat) None))
   /\ shape (data (Run.fresh_f32 [2; 2]%nat)) = [2; 2]%nat
   /\ getattr (Run.moe_f32 (literal 1 2) 2 2 3) "w1"
      = Ok (VParameter (Run.ones_f32 [2; 2; 3]%nat))
   /\ shape (data (Run.ones_f32 [2; 2; 3]%nat)) = [2; 2; 3]%nat
   /\ getattr (Run.moe_f32 (literal 1 2) 2 2 3) "gelu" = Ok (VGELU "none")
   /\ getattr (Run.moe_f32 (literal 1 2) 2 2 3) "w2"
      = Ok (VParameter (Run.ones_f32 [2; 3; 2]%nat))
   /\ shape (data (Run.ones_f32 [2; 3; 2]%nat)) = [2; 3; 2]%nat)
  /\ exists r out,
      FeedForwardECMoe_route (Run.moe_f32 (literal 1 2) 2 2 3) Run.x142_f32 = Ok r
      /\ FeedForwardECMoe_forward (Run.moe_f32 (literal 1 2) 2 2 3) Run.x142_f32 = Ok out
      /\ forall t c,
          (t < 4)%nat -> (c < 2)%nat ->
          (forall e, (e < 2)%nat -> ~ In t (selected_tokens r 0 e)) ->
          at_ out [0; t; c]%nat = s_zero.
Proof.
  pose proof (proj1 (IEEE_zero_settles 24 128 Run.f32_exp Run.f32_relu Run.f32_relu
                       Run.f32_relu)
              : settled (scalar := Run.Scalar_f32) s_zero) as Hzero.
  assert (Hx : shape Run.x142_f32 = [1; 4; 2]%nat) by reflexivity.
  assert (HT : (0 < 4)%nat) by (repeat constructor).
  assert (HL : tokens_per_expert_of (Run.moe_f32 (literal 1 2) 2 2 3) 4 = Ok 1)
    by (vm_compute; reflexivity).
  assert (Hr : 0 <= 1 <= Z.of_nat 4) by (split; discriminate).
  assert (Hg : getattr (Run.moe_f32 (literal 1 2) 2 2 3) "gate"
               = Ok (VLinear (mkLinear (Run.fresh_f32 [2; 2]%nat) None))) by reflexivity.
  assert (Hgs : shape (data (Run.fresh_f32 [2; 2]%nat)) = [2; 2]%nat) by reflexivity.
  assert (Hw1 : getattr (Run.moe_f32 (literal 1 2) 2 2 3) "w1"
                = Ok (VParameter (Run.ones_f32 [2; 2; 3]%nat))) by reflexivity.
  assert (Hw1s : shape (data (Run.ones_f32 [2; 2; 3]%nat)) = [2; 2; 3]%nat) by reflexivity.
  assert (Hact : getattr (Run.moe_f32 (literal 1 2) 2 2 3) "gelu" = Ok (VGELU "none"))
    by reflexivity.
  assert (Hw2 : getattr (Run.moe_f32 (literal 1 2) 2 2 3) "w2"
                = Ok (VParameter (Run.ones_f32 [2; 3; 2]%nat))) by reflexivity.
  assert (Hw2s : shape (data (Run.ones_f32 [2; 3; 2]%nat)) = [2; 3; 2]%nat) by reflexivity.
  split.
  { exact (conj Hzero (conj Hx (conj HT (conj HL (conj Hr (conj Hg (conj Hgs
             (conj Hw1 (conj Hw1s (conj Hact (conj Hw2 Hw2s))))))))))). }
  destruct (unchosen_tokens_get_zero (Run.moe_f32 (literal 1 2) 2 2 3) Run.x142_f32
              1 4 2 2 3 1 (mkLinear (Run.fresh_f32 [2; 2]%nat) None)
              (Run.ones_f32 [2; 2; 3]%nat) (Run.ones_f32 [2; 3; 2]%nat) (VGELU "none")
              Hzero Hx HT HL Hr Hg Hgs Hw1 Hw1s Hact Hw2 Hw2s)
    as (r & oh & weighted & out & Hroute & Hoh & Hweighted & Hout & Hval).
  exists r, out. split; [exact Hroute |]. split; [exact Hout |].
  intros t c Ht Hc Hno.
  apply (Hval 0%nat t c ltac:(lia) Ht Hc Hno).
  intros e k He Hk.
  apply (IEEE_finite_dropped 24 128 Run.f32_exp Run.f32_relu Run.f32_relu Run.f32_relu).
  rewrite (value_or_Ok _ _ Run.x142_f32 Hweighted).
  rewrite (value_or_Ok _ _ Run.chosen122 Hoh).
  rewrite (value_or_Ok _ _ (mkRouting 0 Run.x142_f32 Run.chosen122) Hroute).
  destruct e as [| [| e]]; [| | exfalso; lia];
    (destruct k as [| k]; [| exfalso; lia]);
    (destruct c as [| [| c]]; [| | exfalso; lia]);
    vm_compute; reflexivity.
Defined.

Lemma some_token_is_unchosen_witness :
  (shape Run.x142 = [1; 4; 2]%nat
   /\ tokens_per_expert_of (Run.moe (literal 1 2) 2 2 3) 4 = Ok 1
   /\ getattr (Run.moe (literal 1 2) 2 2 3) "gate"
      = Ok (VLinear (Run.fresh_linear 2 2 false))
   /\ shape (data (weight (Run.fresh_linear 2 2 false))) = [2; 2]%nat
   /\ 0 <= 1 <= Z.of_nat 4
   /\ Z.of_nat 2 * 1 < Z.of_nat 4)
  /\ exists r,
      FeedForwardECMoe_route (Run.moe (literal 1 2) 2 2 3) Run.x142 = Ok r
      /\ forall b,
          exists t, (t < 4)%nat
                    /\ forall e, (e < 2)%nat -> ~ In t (selected_tokens r b e).
Proof.
  assert (Hx : shape Run.x142 = [1; 4; 2]%nat) by reflexivity.
  assert (HL : tokens_per_expert_of (Run.moe (literal 1 2) 2 2 3) 4 = Ok 1)
    by (vm_compute; reflexivity).
  assert (Hg : getattr (Run.moe (literal 1 2) 2 2 3) "gate"
               = Ok (VLinear (Run.fresh_linear 2 2 false))) by reflexivity.
  assert (Hgs : shape (data (weight (Run.fresh_linear 2 2 false))) = [2; 2]%nat)
    by reflexivity.
  assert (Hr : 0 <= 1 <= Z.of_nat 4) by (split; discriminate).
  assert (Hsmall : Z.of_nat 2 * 1 < Z.of_nat 4) by reflexivity.
  split; [exact (conj Hx (conj HL (conj Hg (conj Hgs (conj Hr Hsmall))))) |].
  exact (some_token_is_unchosen (Run.moe (literal 1 2) 2 2 3) Run.x142 1 4 2 2 1
           (Run.fresh_linear 2 2 false) Hx HL Hg Hgs Hr Hsmall).
Defined.

Lemma one_hot_einsum_gathers_witness :
  (zero_settles (scalar := Run.Scalar_f32)
   /\ shape Run.x142_f32 = [1; 4; 2]%nat
   /\ (0 < 4)%nat
   /\ tokens_per_expert_of (Run.moe_f32 Run.one 2 2 3) 4 = Ok 2
   /\ 0 <= 2 <= Z.of_nat 4
   /\ getattr (Run.moe_f32 Run.one 2 2 3) "gate"
      = Ok (VLinear (mkLinear (Run.fresh_f32 [2; 2]%nat) None))
   /\ shape (data (Run.fresh_f32 [2; 2]%nat)) = [2; 2]%nat)
  /\ exists r xin,
      FeedForwardECMoe_route (Run.moe_f32 Run.one 2 2 3) Run.x142_f32 = Ok r
      /\ FeedForwardECMoe_gather Run.x142_f32 (expert_specific_tokens r) = Ok xin
      /\ shape xin = [1; 2; Z.to_nat 2; 2]%nat
      /\ forall b e k c,
          (b < 1)%nat -> (e < 2)%nat -> (k < Z.to_nat 2)%nat -> (c < 2)%nat ->
          at_ xin [b; e; k; c]%nat
          = picked (at_ Run.x142_f32 [b; at_ (expert_specific_tokens r) [b; e; k]%nat; c]).
Proof.
  pose proof (IEEE_zero_settles 24 128 Run.f32_exp Run.f32_relu Run.f32_relu Run.f32_relu
              : zero_settles (scalar := Run.Scalar_f32)) as Hlaws.
  assert (Hx : shape Run.x142_f32 = [1; 4; 2]%nat) by reflexivity.
  assert (HT : (0 < 4)%nat) by (repeat constructor).
  assert (HL : tokens_per_expert_of (Run.moe_f32 Run.one 2 2 3) 4 = Ok 2)
    by (vm_compute; reflexivity).
  assert (Hr : 0 <= 2 <= Z.of_nat 4) by (split; discriminate).
  assert (Hg : getattr (Run.moe_f32 Run.one 2 2 3) "gate"
               = Ok (VLinear (mkLinear (Run.fresh_f32 [2; 2]%nat) None))) by reflexivity.
  assert (Hgs : shape (data (Run.fresh_f32 [2; 2]%nat)) = [2; 2]%nat) by reflexivity.
  split; [exact (conj Hlaws (conj Hx (conj HT (conj HL (conj Hr (conj Hg Hgs)))))) |].
  destruct (one_hot_einsum_gathers (Run.moe_f32 Run.one 2 2 3) Run.x142_f32 1 4 2 2 2
              (mkLinear (Run.fresh_f32 [2; 2]%nat) None) Hlaws Hx HT HL Hr Hg Hgs)
    as (r & xin & Hroute & Hxin & Hshape & Hval).
  exists r, xin. split; [exact Hroute |]. split; [exact Hxin |]. split; [exact Hshape |].
  intros b e k c Hb He Hk Hc. apply (Hval b e k c Hb He Hk Hc).
  intros t _ _.
  exact (proj1 (IEEE_finite_dropped 24 128 Run.f32_exp Run.f32_relu Run.f32_relu
                  Run.f32_relu _ (x142_f32_finite _))).
Defined.

(** There: the gather returns [0.0] for the [-0.0] of [x], and every
    other entry as it is. *)
Example gather_on_x142_f32 :
  at_ Run.x142_f32 [0; 2; 1]%nat = S754_zero true
  /\ picked (scalar := Run.Scalar_f32) (at_ Run.x142_f32 [0; 2; 1]%nat) = S754_zero false
  /\ forall t c, (t < 4)%nat -> (c < 2)%nat -> (t, c) <> (2, 1)%nat ->
       picked (scalar := Run.Scalar_f32) (at_ Run.x142_f32 [0; t; c]%nat)
       = at_ Run.x142_f32 [0; t; c]%nat.
Proof.
  split; [reflexivity |]. split; [vm_compute; reflexivity |].
  intros t c Ht Hc Hne.
  destruct t as [| [| [| [| t]]]]; [| | | | exfalso; lia];
    (destruct c as [| [| c]]; [| | exfalso; lia]);
    try (vm_compute; reflexivity).
  exfalso. apply Hne. reflexivity.
Qed.

Lemma FeedForwardECMoe_forward_value_witness :
  (zero_settles (scalar := Run.Scalar_f32)
   /\ shape Run.x142_f32 = [1; 4; 2]%nat
   /\ (0 < 4)%nat
   /\ tokens_per_expert_of (Run.moe_f32 Run.one 2 2 3) 4 = Ok 2
   /\ 0 <= 2 <= Z.of_nat 4
   /\ getattr (Run.moe_f32 Run.one 2 2 3) "gate"
      = Ok (VLinear (mkLinear (Run.fresh_f32 [2; 2]%nat) None))
   /\ shape (data (Run.fresh_f32 [2; 2]%nat)) = [2; 2]%nat
   /\ getattr (Run.moe_f32 Run.one 2 2 3) "w1" = Ok (VParameter (Run.ones_f32 [2; 2; 3]%nat))
   /\ shape (data (Run.ones_f32 [2; 2; 3]%nat)) = [2; 2; 3]%nat
   /\ getattr (Run.moe_f32 Run.one 2 2 3) "gelu" = Ok (VGELU "none")
   /\ getattr (Run.moe_f32 Run.one 2 2 3) "w2" = Ok (VParameter (Run.ones_f32 [2; 3; 2]%nat))
   /\ shape (data (Run.ones_f32 [2; 3; 2]%nat)) = [2; 3; 2]%nat)
  /\ exists r out,
      FeedForwardECMoe_route (Run.moe_f32 Run.one 2 2 3) Run.x142_f32 = Ok r
      /\ FeedForwardECMoe_forward (Run.moe_f32 Run.one 2 2 3) Run.x142_f32 = Ok out
      /\ forall b t c,
          (b < 1)%nat -> (t < 4)%nat -> (c < 2)%nat ->
          at_ out [b; t; c]%nat
          = sum_list
              (map (fun slot =>
                      let e := nth 0 slot 0%nat in
                      let k := nth 1 slot 0%nat in
                      let tok := at_ (expert_specific_tokens r) [b; e; k]%nat in
                      s_mul (s_mul (expert_on (data (Run.ones_f32 [2; 2; 3]%nat))
                                      (data (Run.ones_f32 [2; 3; 2]%nat)) 2 3 e
                                      (fun c' => picked (at_ Run.x142_f32 [b; tok; c']%nat)) c)
                                   (at_ (expert_specific_token_probs r) [b; e; k]%nat))
                            (if (tok =? t)%nat then s_of_int 1 else s_zero))
                   (all_indices [2; Z.to_nat 2]%nat)).
Proof.
  pose proof (IEEE_zero_settles 24 128 Run.f32_exp Run.f32_relu Run.f32_relu Run.f32_relu
              : zero_settles (scalar := Run.Scalar_f32)) as Hlaws.
  assert (Hx : shape Run.x142_f32 = [1; 4; 2]%nat) by reflexivity.
  assert (HT : (0 < 4)%nat) by (repeat constructor).
  assert (HL : tokens_per_expert_of (Run.moe_f32 Run.one 2 2 3) 4 = Ok 2)
    by (vm_compute; reflexivity).
  assert (Hr : 0 <= 2 <= Z.of_nat 4) by (split; discriminate).
  assert (Hg : getattr (Run.moe_f32 Run.one 2 2 3) "gate"
               = Ok (VLinear (mkLinear (Run.fresh_f32 [2; 2]%nat) None))) by reflexivity.
  assert (Hgs : shape (data (Run.fresh_f32 [2; 2]%nat)) = [2; 2]%nat) by reflexivity.
  assert (Hw1 : getattr (Run.moe_f32 Run.one 2 2 3) "w1"
                = Ok (VParameter (Run.ones_f32 [2; 2; 3]%nat))) by reflexivity.
  assert (Hw1s : shape (data (Run.ones_f32 [2; 2; 3]%nat)) = [2; 2; 3]%nat) by reflexivity.
  assert (Hact : getattr (Run.moe_f32 Run.one 2 2 3) "gelu" = Ok (VGELU "none"))
    by reflexivity.
  assert (Hw2 : getattr (Run.moe_f32 Run.one 2 2 3) "w2"
                = Ok (VParameter (Run.ones_f32 [2; 3; 2]%nat))) by reflexivity.
  assert (Hw2s : shape (data (Run.ones_f32 [2; 3; 2]%nat)) = [2; 3; 2]%nat) by reflexivity.
  split.
  { exact (conj Hlaws (conj Hx (conj HT (conj HL (conj Hr (conj Hg (conj Hgs (conj Hw1
             (conj Hw1s (conj Hact (conj Hw2 Hw2s))))))))))). }
  destruct (FeedForwardECMoe_forward_value (Run.moe_f32 Run.one 2 2 3) Run.x142_f32
              1 4 2 2 3 2 (mkLinear (Run.fresh_f32 [2; 2]%nat) None)
              (Run.ones_f32 [2; 2; 3]%nat) (Run.ones_f32 [2; 3; 2]%nat) (VGELU "none")
              Hlaws Hx HT HL Hr Hg Hgs Hw1 Hw1s Hact Hw2 Hw2s)
    as (r & out & Hroute & Hout & Hval).
  exists r, out. split; [exact Hroute |]. split; [exact Hout |].
  intros b t c Hb Ht Hc. apply (Hval b t c Hb Ht Hc).
  intros t' c' _ _.
  exact (proj1 (IEEE_finite_dropped 24 128 Run.f32_exp Run.f32_relu Run.f32_relu
                  Run.f32_relu _ (x142_f32_finite _))).
Defined.

Lemma FeedForwardECMoe_custom_init_draws_witness :
  (getattr (Run.moe Run.one 2 2 3) "gate" = Ok (VLinear (Run.fresh_linear 2 2 false))
   /\ getattr (Run.moe Run.one 2 2 3) "w1" = Ok (VParameter (Run.ones [2; 2; 3]%nat))
   /\ getattr (Run.moe Run.one 2 2 3) "w2" = Ok (VParameter (Run.ones [2; 3; 2]%nat)))
  /\ returns (FeedForwardECMoe_custom_init (Run.moe Run.one 2 2 3) (Float (literal 1 100)))
  /\ forall self' : obj Q unit,
      FeedForwardECMoe_custom_init (Run.moe Run.one 2 2 3) (Float (literal 1 100)) = Ok self' ->
      weight_drawn_from self' "gate"
      = Some (TruncNormal (literal 0 1) (literal 2 100) (literal (-2) 1) (literal 2 1))
      /\ parameter_drawn_from self' "w1"
         = Some (TruncNormal (literal 0 1) (literal 2 100) (literal (-2) 1) (literal 2 1))
      /\ parameter_drawn_from self' "w2"
         = Some (TruncNormal (literal 0 1) (literal 1 100) (literal (-2) 1) (literal 2 1))
      /\ forall name,
          name <> "gate" -> name <> "w1" -> name <> "w2" ->
          getattr self' name = getattr (Run.moe Run.one 2 2 3) name.
Proof.
  assert (A1 : returns (trunc_normal_ (weight (Run.fresh_linear 2 2 false)) (literal 0 1)
                          (Float (literal 2 100))))
    by (eexists; vm_compute; reflexivity).
  assert (A2 : returns (trunc_normal_ (Run.ones [2; 3; 2]%nat) (literal 0 1)
                          (Float (literal 1 100))))
    by (eexists; vm_compute; reflexivity).
  split; [split; [reflexivity | split; reflexivity] |].
  destruct (FeedForwardECMoe_custom_init_draws (Run.moe Run.one 2 2 3) (literal 1 100) _ _ _
              eq_refl eq_refl eq_refl) as [Hiff Hdrawn].
  split; [exact (proj2 Hiff (conj A1 A2)) | exact Hdrawn].
Defined.

Lemma DiTBlock_init_rejects_witness :
  (3 = 0 \/ 8 mod 3 <> 0)
  /\ exists msg,
      DiTBlock_init 8 3 (literal 4 1) Run.one 4 4 Run.eps true 0 12 false true false
        2 Run.one
      = (Raise (AssertionError msg) : result (obj Q unit)).
Proof.
  assert (Hbad : 3 = 0 \/ 8 mod 3 <> 0) by (right; discriminate).
  split; [exact Hbad |].
  exact (DiTBlock_init_rejects 8 3 (literal 4 1) Run.one 4 4 Run.eps true 0 12 false
           true false 2 Run.one Hbad).
Defined.

Lemma qkv_n_hidden_rounds_up_witness :
  (0 < 4 /\ feq_int (literal 3 2) 1 = false
   /\ qkv_n_hidden_of 12 4 (literal 3 2) = Ok 24)
  /\ exists scaled w,
      fmul_int (literal 3 2) 12 = Ok scaled
      /\ int_of_float scaled = Ok w
      /\ w <= 24 < w + 2 * 4
      /\ Z.even (24 / 4) = true.
Proof.
  assert (Hh : 0 < 4) by reflexivity.
  assert (Hne : feq_int (literal 3 2) 1 = false) by (vm_compute; reflexivity).
  assert (Hq : qkv_n_hidden_of 12 4 (literal 3 2) = Ok 24) by (vm_compute; reflexivity).
  split; [exact (conj Hh (conj Hne Hq)) |].
  exact (qkv_n_hidden_rounds_up 12 4 (literal 3 2) 24 Hh Hne Hq).
Defined.

Lemma DiTBlock_init_layers_witness :
  0 < 4
  /\ exists self : obj Q unit,
      Run.block = Ok self
      /\ exists scaled w (mlp : obj Q unit) h (projection : Linear Q) (b : parameter Q),
          false = false
          /\ getattr self "n_embd" = Ok (VInt 2)
          /\ fmul_int (literal 4 1) 2 = Ok scaled
          /\ int_of_float scaled = Ok w
          /\ getattr self "mlp" = Ok (VObject mlp)
          /\ cls mlp = "FeedForwardNetwork"
          /\ getattr mlp "n_hidden" = Ok (VInt h)
          /\ (4 | h) /\ w <= h < w + 4
          /\ getattr self "AdaLN_modulation"
             = Ok (VSequential [VGELU "tanh"; VLinear projection])
          /\ shape (data (weight projection)) = [Z.to_nat (6 * 2); Z.to_nat 4]
          /\ bias projection = Some b
          /\ shape (data b) = [Z.to_nat (6 * 2)].
Proof.
  assert (Hpos : 0 < 4) by reflexivity.
  assert (Hc : exists self : obj Q unit, Run.block = Ok self)
    by (eexists; vm_compute; reflexivity).
  destruct Hc as [self Hself].
  split; [exact Hpos |]. exists self. split; [exact Hself |].
  exact (DiTBlock_init_layers 2 1 (literal 4 1) Run.one 4 4 Run.eps true 0 12
           false true false 2 Run.one self Hpos Hself).
Defined.

Lemma DiTBlock_modulation_slices_witness :
  0 < 2
  /\ shape Run.t14 = [1%nat] ++ [Z.to_nat 4]
  /\ exists self : obj Q unit,
      Run.block = Ok self
      /\ exists projection projected st,
          getattr self "AdaLN_modulation"
          = Ok (VSequential [VGELU "tanh"; VLinear projection])
          /\ Linear_forward projection (map_tensor s_gelu_tanh Run.t14) = Ok projected
          /\ DiTBlock_modulation self Run.x142 Run.c132 Run.t14 = Ok st
          /\ var_x st = Run.x142 /\ var_c st = Run.c132
          /\ Forall (fun m => shape m = [1%nat] ++ [Z.to_nat 2])
               [shift_msa st; scale_msa st; gate_msa st;
                shift_mlp st; scale_mlp st; gate_mlp st]
          /\ forall p j,
              let n := Z.to_nat 2 in
              at_ (shift_msa st) (p ++ [j]) = at_ projected (p ++ [j])
              /\ at_ (scale_msa st) (p ++ [j]) = at_ projected (p ++ [(n + j)%nat])
              /\ at_ (gate_msa st) (p ++ [j]) = at_ projected (p ++ [(2 * n + j)%nat])
              /\ at_ (shift_mlp st) (p ++ [j]) = at_ projected (p ++ [(3 * n + j)%nat])
              /\ at_ (scale_mlp st) (p ++ [j]) = at_ projected (p ++ [(4 * n + j)%nat])
              /\ at_ (gate_mlp st) (p ++ [j]) = at_ projected (p ++ [(5 * n + j)%nat]).
Proof.
  assert (Hn : 0 < 2) by reflexivity.
  assert (Ht : shape Run.t14 = [1%nat] ++ [Z.to_nat 4]) by reflexivity.
  assert (Hc : exists self : obj Q unit, Run.block = Ok self)
    by (eexists; vm_compute; reflexivity).
  destruct Hc as [self Hself].
  split; [exact Hn |]. split; [exact Ht |]. exists self. split; [exact Hself |].
  exact (DiTBlock_modulation_slices 2 1 (literal 4 1) Run.one 4 4 Run.eps true 0 12
           false true false 2 Run.one self Run.x142 Run.c132 Run.t14 [1%nat]
           Hself Hn Ht).
Defined.

Lemma weight_init_std_zero_base_witness :
  (if true then -1 = -1 else 12 = 0)
  /\ weight_init_std_of true (-1) 12
     = (Raise (ZeroDivisionError "float division by zero") : result (pyval Q unit))
  /\ raises (DiTBlock_init 2 1 (literal 4 1) Run.one 4 4 Run.eps true (-1) 12
               false true false 2 Run.one : result (obj Q unit)).
Proof.
  assert (Hbase : if true then -1 = -1 else 12 = 0) by reflexivity.
  split; [exact Hbase |].
  exact (weight_init_std_zero_base 2 1 (literal 4 1) Run.one 4 4 Run.eps true (-1) 12
           false true false 2 Run.one Hbase).
Defined.

Lemma DiTBlock_custom_init_effect_witness :
  (0 <= 0 /\ 1 <= 12)
  /\ exists self : obj Q unit,
      Run.block = Ok self
      /\ exists (std : float) (self' mlp' : obj Q unit),
          getattr self "weight_init_std" = Ok (VFloat std)
          /\ DiTBlock_custom_init self = Ok self'
          /\ getattr self' "mlp" = Ok (VObject mlp')
          /\ weight_drawn_from mlp' "fc1"
             = Some (TruncNormal (literal 0 1) (literal 2 100) (literal (-2) 1) (literal 2 1))
          /\ weight_drawn_from mlp' "fc2"
             = Some (TruncNormal (literal 0 1) std (literal (-2) 1) (literal 2 1))
          /\ weight_drawn_from mlp' "fc3"
             = Some (TruncNormal (literal 0 1) std (literal (-2) 1) (literal 2 1))
          /\ getattr self' "AdaLN_modulation" = getattr self "AdaLN_modulation"
          /\ getattr self' "weight_init_std" = getattr self "weight_init_std"
          /\ getattr self' "n_embd" = getattr self "n_embd".
Proof.
  assert (Hb : 0 <= 0) by discriminate.
  assert (Hn : 1 <= 12) by discriminate.
  assert (Hc : exists self : obj Q unit,
             Run.block = Ok self
             /\ getattr self "weight_init_std"
                = Ok (VFloat (SFdiv prec emax (literal 2 100)
                                (SFsqrt prec emax (literal 3 1)))))
    by (eexists; split; vm_compute; reflexivity).
  destruct Hc as (self & Hself & Hstd).
  assert (Hreset : forall (name : string) (e : unit),
             In name ["ln1"; "ln2"; "ln3"] -> getattr self name = Ok (VExt e) ->
             returns (ext_reset_parameters (S := Q) e))
    by (intros name e _ _; exists e; reflexivity).
  assert (Hcustom : forall (name : string) (e : unit) (std : float),
             In name ["attn"; "cx_attn"] -> getattr self name = Ok (VExt e) ->
             getattr self "weight_init_std" = Ok (VFloat std) ->
             returns (ext_custom_init (S := Q) e (Float std)))
    by (intros name e std _ _ _; exists e; reflexivity).
  assert (Hfixed : forall p : parameter Q,
             returns (trunc_normal_ p (literal 0 1) (Float (literal 2 100))))
    by (intros p; eexists; vm_compute; reflexivity).
  assert (Haccept : forall (p : parameter Q) (std : float),
             getattr self "weight_init_std" = Ok (VFloat std) ->
             returns (trunc_normal_ p (literal 0 1) (Float std))).
  { intros p std Hget. rewrite Hstd in Hget. injection Hget as <-.
    eexists. vm_compute. reflexivity. }
  split; [exact (conj Hb Hn) |].
  exists self. split; [exact Hself |].
  exact (DiTBlock_custom_init_effect 2 1 (literal 4 1) Run.one 4 4 Run.eps true 0 12
           false true false 2 Run.one self Hself Hb Hn Hreset Hcustom Hfixed Haccept).
Defined.

Lemma AttentionBlockPromptEmbedding_init_rejects_witness :
  (3 = 0 \/ 8 mod 3 <> 0)
  /\ AttentionBlockPromptEmbedding_init 8 3 (literal 4 1) 4 Run.eps true
     = (Raise (AssertionError "n_embd:8 should be divisble by head_size:3")
        : result (obj Q unit)).
Proof.
  assert (Hbad : 3 = 0 \/ 8 mod 3 <> 0) by (right; discriminate).
  split; [exact Hbad |].
  destruct (AttentionBlockPromptEmbedding_init_rejects 8 3 (literal 4 1) 4 Run.eps true
              Hbad) as [msg Hmsg].
  exact Hmsg.
Defined.

Lemma AttentionBlockPromptEmbedding_init_widths_witness :
  0 < 4
  /\ exists self : obj Q unit,
      Run.prompt_block = Ok self
      /\ exists n_head scaled w (ffn : obj Q unit) h,
          getattr self "n_embd" = Ok (VInt 8)
          /\ getattr self "n_head" = Ok (VInt n_head)
          /\ n_head * 2 = 8
          /\ fmul_int (literal 4 1) 8 = Ok scaled
          /\ int_of_float scaled = Ok w
          /\ getattr self "ffn" = Ok (VObject ffn)
          /\ getattr ffn "n_hidden" = Ok (VInt h)
          /\ (4 | h)
          /\ w <= h < w + 4.
Proof.
  assert (Hpos : 0 < 4) by reflexivity.
  assert (Hc : exists self : obj Q unit, Run.prompt_block = Ok self)
    by (eexists; vm_compute; reflexivity).
  destruct Hc as [self Hself].
  split; [exact Hpos |]. exists self. split; [exact Hself |].
  exact (AttentionBlockPromptEmbedding_init_widths 8 2 (literal 4 1) 4 Run.eps true self
           Hpos Hself).
Defined.

Lemma AttentionBlockPromptEmbedding_forward_shape_witness :
  (shape Run.x28 <> [] /\ last_dim (shape Run.x28) = Z.to_nat 8)
  /\ exists self : obj Q unit,
      Run.prompt_block = Ok self
      /\ exists y,
          AttentionBlockPromptEmbedding_forward self Run.x28 = Ok y
          /\ shape y = shape Run.x28.
Proof.
  assert (Hne : shape Run.x28 <> []) by discriminate.
  assert (Hlast : last_dim (shape Run.x28) = Z.to_nat 8) by reflexivity.
  assert (Hc : exists self : obj Q unit, Run.prompt_block = Ok self)
    by (eexists; vm_compute; reflexivity).
  destruct Hc as [self Hself].
  assert (Hext : forall (name : string) (e : unit) (a : tensor Q),
             In name ["ln1"; "attn"; "ln2"] -> getattr self name = Ok (VExt e) ->
             shape a = shape Run.x28 ->
             exists y, ext_call e [a] = Ok y /\ shape y = shape Run.x28)
    by (intros name e a _ _ Ha; exists a; split; [reflexivity | exact Ha]).
  split; [exact (conj Hne Hlast) |]. exists self. split; [exact Hself |].
  exact (AttentionBlockPromptEmbedding_forward_shape 8 2 (literal 4 1) 4 Run.eps true
           self Run.x28 Hself Hext Hne Hlast).
Defined.

Lemma AttentionBlockPromptEmbedding_custom_init_effect_witness :
  exists self : obj Q unit,
      Run.prompt_block = Ok self
      /\ exists (self' ffn' : obj Q unit) (attn attn' : unit),
          AttentionBlockPromptEmbedding_custom_init self (Float (literal 1 100)) = Ok self'
          /\ getattr self "attn" = Ok (VExt attn)
          /\ ext_custom_init (S := Q) attn (Float (literal 1 100)) = Ok attn'
          /\ getattr self' "attn" = Ok (VExt attn')
          /\ getattr self' "ffn" = Ok (VObject ffn')
          /\ weight_drawn_from ffn' "fc1"
             = Some (TruncNormal (literal 0 1) (literal 2 100) (literal (-2) 1) (literal 2 1))
          /\ weight_drawn_from ffn' "fc2"
             = Some (TruncNormal (literal 0 1) (literal 1 100) (literal (-2) 1) (literal 2 1))
          /\ weight_drawn_from ffn' "fc3"
             = Some (TruncNormal (literal 0 1) (literal 1 100) (literal (-2) 1) (literal 2 1))
          /\ getattr self' "ln1" = getattr self "ln1"
          /\ getattr self' "ln2" = getattr self "ln2".
Proof.
  assert (Hc : exists self : obj Q unit, Run.prompt_block = Ok self)
    by (eexists; vm_compute; reflexivity).
  destruct Hc as [self Hself].
  assert (Hcustom : forall e : unit,
             getattr self "attn" = Ok (VExt e) ->
             returns (ext_custom_init (S := Q) e (Float (literal 1 100))))
    by (intros e _; exists e; reflexivity).
  assert (Hfixed : forall p : parameter Q,
             returns (trunc_normal_ p (literal 0 1) (Float (literal 2 100))))
    by (intros p; eexists; vm_compute; reflexivity).
  assert (Haccept : forall p : parameter Q,
             returns (trunc_normal_ p (literal 0 1) (Float (literal 1 100))))
    by (intros p; eexists; vm_compute; reflexivity).
  exists self. split; [exact Hself |].
  exact (AttentionBlockPromptEmbedding_custom_init_effect 8 2 (literal 4 1) 4 Run.eps true
           self (literal 1 100) Hself Hcustom Hfixed Haccept).
Defined.
